(** * Two sqlite3 classroom scripts: [exercises.py] and [homework.py]

    A shallow embedding of the two scripts and of the part of the
    [sqlite3] module and of the SQL engine they drive.

    - [Py]: the Python string helpers the report printer uses.
    - [Sqlite3]: values, rows, exceptions, the state-and-exception monad in
      which the scripts run, connections with the legacy transaction
      control of the [sqlite3] module, and [print_rows].
    - [Exercises]: the schema, statements and functions of [exercises.py].
    - [Homework]: the schema, statements and functions of [homework.py].

    Tables are lists of typed records in rowid order.  A connection holds
    the current view of the database and, while a transaction is open, the
    snapshot a ROLLBACK restores. *)

From Stdlib Require Import ZArith List String Ascii Bool Lia.
From Stdlib Require Import Permutation Sorted DecimalString OrderedTypeEx.
Import ListNotations.

Local Open Scope string_scope.
Local Open Scope Z_scope.

Set Implicit Arguments.

(* ================================================================== *)
(** ** Python string helpers *)

Module Py.

(** [len(s)] *)
Definition len (s : string) : nat := String.length s.

(** [s * n] *)
Fixpoint times (s : string) (n : nat) : string :=
  match n with
  | O => ""
  | S k => s ++ times s k
  end.

(** [s.ljust(w)]: pads with spaces on the right up to width [w]. *)
Definition ljust (s : string) (w : nat) : string :=
  s ++ times " " (w - len s)%nat.

(** [sep.join(l)] *)
Definition join (sep : string) (l : list string) : string :=
  String.concat sep l.

(** [str(n)] for an [int]. *)
Definition str_int (n : Z) : string :=
  NilZero.string_of_int (Z.to_int n).

(** [max(iterable)] over a non-empty iterable of naturals, [None] standing
    for the [ValueError] of an empty one. *)
Definition max_of (l : list nat) : option nat :=
  match l with
  | [] => None
  | x :: r => Some (fold_left Nat.max r x)
  end.

(** ASCII lower-casing, as the column lookup of [sqlite3.Row] does it. *)
Definition lower_ascii (a : ascii) : ascii :=
  let n := nat_of_ascii a in
  if ((65 <=? n) && (n <=? 90))%nat then ascii_of_nat (n + 32) else a.

Fixpoint lower (s : string) : string :=
  match s with
  | EmptyString => EmptyString
  | String a r => String (lower_ascii a) (lower r)
  end.

Definition is_space (a : ascii) : bool :=
  let n := nat_of_ascii a in
  ((n =? 32) || (n =? 9) || (n =? 10) || (n =? 13))%nat.

End Py.

(* ================================================================== *)
(** ** The sqlite3 module *)

Module Sqlite3.

(** The exception classes the scripts can meet. *)
Inductive exn : Set :=
| IntegrityError      (* a UNIQUE, NOT NULL, CHECK or FOREIGN KEY constraint failed *)
| OperationalError    (* the statement cannot be prepared or run *)
| ProgrammingError    (* closed connection, wrong number of bindings *)
| OverflowError       (* a Python int outside the 64-bit INTEGER range *)
| NotSupportedError   (* a parameter of a type the statement is not modelled for *)
| IndexError          (* [row[c]] for a column the row does not have *)
| KeyError            (* [d[k]] for a key the dict does not have *)
| TypeError.          (* subscripting [None] *)

Definition exn_eq_dec (a b : exn) : {a = b} + {a <> b}.
Proof. decide equality. Defined.

Definition exn_eqb (a b : exn) : bool :=
  if exn_eq_dec a b then true else false.

(** SQL values as Python sees them: [None], [int], [str], [float].  The
    carrier [real] of REAL values is a parameter: [exercises.py] never
    computes one, [homework.py] takes the engine's floating point as
    given. *)
Inductive value (real : Type) : Type :=
| VNull
| VInt (n : Z)
| VText (s : string)
| VReal (x : real).

Arguments VNull {real}.
Arguments VInt {real} n.
Arguments VText {real} s.
Arguments VReal {real} x.

(** A [sqlite3.Row]: the selected columns, in order, with their names. *)
Definition row (real : Type) : Type := list (string * value real).

(** What [print] can be handed. *)
Inductive pyobj (real : Type) : Type :=
| OStr (s : string)
| ODict (r : row real)
| ONone
| OExn (e : exn).

Arguments OStr {real} s.
Arguments ODict {real} r.
Arguments ONone {real}.
Arguments OExn {real} e.

(** The observable steps of a run, in the order they happen. *)
Inductive event (real : Type) : Type :=
| Connect                                            (* sqlite3.connect *)
| Exec (sql : string) (params : list (value real))  (* one statement run *)
| CommitCall                                         (* conn.commit() *)
| Close                                              (* conn.close() *)
| Print (args : list (pyobj real)).                  (* print(...) *)

Arguments Connect {real}.
Arguments Exec {real} sql params.
Arguments CommitCall {real}.
Arguments Close {real}.
Arguments Print {real} args.

(** *** The monad of the scripts: state, exceptions, emitted events.

    The state survives an exception, as a Python object does. *)
Section Monad.
Variable real : Type.

Record outcome (S A : Type) : Type := Outcome {
  result : exn + A;
  final : S;
  emitted : list (event real)
}.

Definition M (S A : Type) : Type := S -> outcome S A.

Definition ret {S A} (a : A) : M S A :=
  fun s => Outcome (inr a) s [].

Definition raise {S A} (e : exn) : M S A :=
  fun s => Outcome (inl e) s [].

Definition emit {S} (ev : event real) : M S unit :=
  fun s => Outcome (inr tt) s [ev].

Definition bind {S A B} (m : M S A) (k : A -> M S B) : M S B :=
  fun s =>
    let o := m s in
    match result o with
    | inl e => Outcome (inl e) (final o) (emitted o)
    | inr a =>
        let o' := k a (final o) in
        Outcome (result o') (final o') (emitted o ++ emitted o')
    end.

(** [try: body  except cls: handler] *)
Definition try_except {S A} (body : M S A) (cls : exn) (handler : exn -> M S A)
  : M S A :=
  fun s =>
    let o := body s in
    match result o with
    | inl e =>
        if exn_eqb e cls then
          let o' := handler e (final o) in
          Outcome (result o') (final o') (emitted o ++ emitted o')
        else o
    | inr _ => o
    end.

(** [try: body  finally: fin] *)
Definition try_finally {S A} (body : M S A) (fin : M S unit) : M S A :=
  fun s =>
    let o := body s in
    let o' := fin (final o) in
    Outcome (match result o' with inl e => inl e | inr _ => result o end)
            (final o') (emitted o ++ emitted o').

(** [print(a, b, ...)] *)
Definition print {S} (args : list (pyobj real)) : M S unit :=
  emit (Print args).

End Monad.

Arguments ret {real S A} a.
Arguments raise {real S A} e.
Arguments emit {real S} ev.
Arguments print {real S} args.

Declare Scope py_scope.
Delimit Scope py_scope with py.
Notation "x <- m ;; k" := (bind m (fun x => k))
  (at level 61, m at next level, right associativity) : py_scope.
Notation "m ;; k" := (bind m (fun _ => k))
  (at level 61, right associativity) : py_scope.
Local Open Scope py_scope.

(** [for x in l: body x] *)
Fixpoint for_each {real S A} (l : list A) (body : A -> M real S unit)
  : M real S unit :=
  match l with
  | [] => ret tt
  | x :: r => body x ;; for_each r body
  end.

(** An optional result, [None] raising [e]. *)
Definition or_raise {real S A} (e : exn) (o : option A) : M real S A :=
  match o with
  | Some a => ret a
  | None => raise e
  end.

(** [[f x for x in l]] where [f] may fail. *)
Fixpoint traverse {A B} (f : A -> option B) (l : list A) : option (list B) :=
  match l with
  | [] => Some []
  | x :: r =>
      match f x, traverse f r with
      | Some y, Some ys => Some (y :: ys)
      | _, _ => None
      end
  end.

(** *** ORDER BY: a stable insertion sort on a boolean order. *)
Section Sort.
Variable A : Type.
Variable leb : A -> A -> bool.

Fixpoint insert (x : A) (l : list A) : list A :=
  match l with
  | [] => [x]
  | y :: r => if leb x y then x :: l else y :: insert x r
  end.

Definition sort_by (l : list A) : list A := fold_right insert [] l.
End Sort.

(** *** Rows and the report printer (the same in both scripts). *)
Section Rows.
Variable real : Type.
(** [str(x)] for a [float]. *)
Variable str_real : real -> string.

#[local] Abbreviation value := (value real).
#[local] Abbreviation row := (row real).

(** [str(v)] *)
Definition str (v : value) : string :=
  match v with
  | VNull => "None"
  | VInt n => Py.str_int n
  | VText s => s
  | VReal x => str_real x
  end.

(** [r.keys()] *)
Definition keys (r : row) : list string := map fst r.

(** [r[c]]: the first column whose name equals [c] up to ASCII case. *)
Fixpoint getitem (r : row) (c : string) : option value :=
  match r with
  | [] => None
  | (k, v) :: r' =>
      if (Py.lower k =? Py.lower c)%string then Some v else getitem r' c
  end.

(** [max(len(c), max(len(str(r[c])) for r in rows))] *)
Definition column_width (rows : list row) (c : string) : option nat :=
  match traverse (fun r => option_map (fun v => Py.len (str v)) (getitem r c)) rows with
  | Some lens => option_map (Nat.max (Py.len c)) (Py.max_of lens)
  | None => None
  end.

(** The dict [widths], as the list of its items. *)
Definition widths (rows : list row) (cols : list string)
  : option (list (string * nat)) :=
  traverse (fun c => option_map (pair c) (column_width rows c)) cols.

(** [widths[c]]; on a repeated key the dict keeps the last item. *)
Fixpoint dict_get (d : list (string * nat)) (c : string) : option nat :=
  match d with
  | [] => None
  | (k, w) :: d' =>
      match dict_get d' c with
      | Some w' => Some w'
      | None => if (k =? c)%string then Some w else None
      end
  end.

Definition header_cell (d : list (string * nat)) (c : string) : option string :=
  option_map (Py.ljust c) (dict_get d c).

Definition rule_cell (d : list (string * nat)) (c : string) : option string :=
  option_map (Py.times "-") (dict_get d c).

Definition row_cell (d : list (string * nat)) (r : row) (c : string)
  : option string :=
  match getitem r c, dict_get d c with
  | Some v, Some w => Some (Py.ljust (str v) w)
  | _, _ => None
  end.

Definition newline : string := String (ascii_of_nat 10) EmptyString.

Definition print_rows {S} (title : string) (rows : list row) : M real S unit :=
  print [OStr (newline ++ Py.times "=" 80)] ;;
  print [OStr title] ;;
  print [OStr (Py.times "-" 80)] ;;
  match rows with
  | [] => print [OStr "(no rows)"]
  | r0 :: _ =>
      let cols := keys r0 in
      d <- or_raise IndexError (widths rows cols) ;;
      h <- or_raise KeyError (traverse (header_cell d) cols) ;;
      print [OStr (Py.join " | " h)] ;;
      u <- or_raise KeyError (traverse (rule_cell d) cols) ;;
      print [OStr (Py.join "-+-" u)] ;;
      for_each rows (fun r =>
        l <- or_raise IndexError (traverse (row_cell d r) cols) ;;
        print [OStr (Py.join " | " l)])
  end.

End Rows.

(** *** SQL text *)

(** The words of a text, split at white space. *)
Fixpoint words (s : string) : list string :=
  match s with
  | EmptyString => []
  | String a r =>
      if Py.is_space a then "" :: words r
      else match words r with
           | [] => [String a ""]
           | w :: ws => String a w :: ws
           end
  end.

Definition nonempty (s : string) : bool :=
  match s with EmptyString => false | _ => true end.

(** Drops a final semicolon. *)
Fixpoint chomp (s : string) : string :=
  match s with
  | EmptyString => EmptyString
  | String a r =>
      match r with
      | EmptyString => if Ascii.eqb a ";" then EmptyString else s
      | _ => String a (chomp r)
      end
  end.

(** A statement's text up to layout: white space runs count as one space,
    and the closing semicolon is optional. *)
Definition normalize (sql : string) : string :=
  let ws := filter nonempty (words sql) in
  let ws' := match rev ws with
             | [] => []
             | w :: r => rev (chomp w :: r)
             end in
  String.concat " " (filter nonempty ws').

(** The pieces of a script between semicolons. *)
Fixpoint split_script (s : string) : list string :=
  match s with
  | EmptyString => [EmptyString]
  | String a r =>
      if Ascii.eqb a ";" then EmptyString :: split_script r
      else match split_script r with
           | [] => [String a ""]
           | w :: ws => String a w :: ws
           end
  end.

Definition statements_of (script : string) : list string :=
  filter nonempty (map normalize (split_script script)).

(** The number of [?] placeholders of a statement. *)
Fixpoint count_placeholders (sql : string) : nat :=
  match sql with
  | EmptyString => O
  | String a r =>
      ((if Ascii.eqb a "?" then 1 else 0) + count_placeholders r)%nat
  end.

(** The range of SQLite's INTEGER. *)
Definition int64 (n : Z) : bool :=
  (- 2 ^ 63 <=? n) && (n <? 2 ^ 63).

(** *** Cursors, engines and connections *)
Section Connection.
Variable real : Type.
#[local] Abbreviation value := (value real).

Record cursor : Type := Cursor {
  lastrowid : Z;
  rowcount : Z;
  fetchall : list (row real)
}.

Definition fetchone (cur : cursor) : option (row real) :=
  hd_error (fetchall cur).

(** The cursor of a statement that returns no row and changes none. *)
Definition done : cursor := Cursor 0 (-1) [].

(** What a statement sees besides the tables: whether foreign keys are
    enforced, and what [datetime('now')] reads. *)
Record env : Type := Env {
  env_foreign_keys : bool;
  env_now : string
}.

(** The engine of one schema: how a statement text is prepared against
    the database, whether the statement is INSERT, UPDATE, DELETE or
    REPLACE, and what one run of it does.  A run that fails leaves the
    database as it was. *)
Class Engine (database stmt : Type) : Type := {
  engine_empty : database;
  engine_prepare : database -> string -> option stmt;
  engine_is_dml : stmt -> bool;
  engine_step : env -> stmt -> list value -> database -> exn + (cursor * database)
}.

Section WithEngine.
Context {database stmt : Type} {E : Engine database stmt}.

(** [db] is what statements see; [txn] is the state at the BEGIN of
    the open transaction, if one is open. *)
Record connection : Type := Connection {
  db : database;
  txn : option database;
  foreign_keys : bool;
  closed : bool;
  clock : nat -> string;
  ticks : nat
}.

Inductive command : Type :=
| Begin
| Commit
| Rollback
| PragmaForeignKeysOn
| Statement (s : stmt).

(** sqlite3_prepare *)
Definition compile (d : database) (sql : string) : option command :=
  let text := normalize sql in
  if (text =? "BEGIN")%string then Some Begin
  else if (text =? "COMMIT")%string then Some Commit
  else if (text =? "ROLLBACK")%string then Some Rollback
  else if (text =? "PRAGMA foreign_keys = ON")%string then Some PragmaForeignKeysOn
  else option_map Statement (engine_prepare d text).

Definition command_is_dml (cmd : command) : bool :=
  match cmd with
  | Statement s => engine_is_dml s
  | _ => false
  end.

Definition in_transaction (c : connection) : bool :=
  match txn c with Some _ => true | None => false end.

Definition set_db (d : database) (c : connection) : connection :=
  Connection d (txn c) (foreign_keys c) (closed c) (clock c) (ticks c).

Definition set_txn (t : option database) (c : connection) : connection :=
  Connection (db c) t (foreign_keys c) (closed c) (clock c) (ticks c).

Definition tick (c : connection) : connection :=
  Connection (db c) (txn c) (foreign_keys c) (closed c) (clock c) (S (ticks c)).

(** The implicit BEGIN of the legacy transaction control: before a data
    changing statement when no transaction is open. *)
Definition implicit_begin (cmd : command) (c : connection) : connection :=
  if command_is_dml cmd && negb (in_transaction c)
  then set_txn (Some (db c)) c else c.

(** sqlite3_step until done, on bound parameters. *)
Definition run (cmd : command) (vs : list value) (c : connection)
  : (exn + cursor) * connection :=
  match cmd with
  | Begin =>
      match txn c with
      | Some _ => (inl OperationalError, tick c)
      | None => (inr done, tick (set_txn (Some (db c)) c))
      end
  | Commit =>
      match txn c with
      | Some _ => (inr done, tick (set_txn None c))
      | None => (inl OperationalError, tick c)
      end
  | Rollback =>
      match txn c with
      | Some d0 => (inr done, tick (set_txn None (set_db d0 c)))
      | None => (inl OperationalError, tick c)
      end
  | PragmaForeignKeysOn =>
      if in_transaction c then (inr done, tick c)
      else (inr done,
            tick (Connection (db c) (txn c) true (closed c) (clock c) (ticks c)))
  | Statement s =>
      match engine_step (Env (foreign_keys c) (clock c (ticks c))) s vs (db c) with
      | inl e => (inl e, tick c)
      | inr (cur, d') => (inr cur, tick (set_db d' c))
      end
  end.

(** The adaptation of the Python parameters. *)
Fixpoint bind_parameters (params : list value) : exn + list value :=
  match params with
  | [] => inr []
  | v :: r =>
      match v with
      | VInt n => if int64 n then
                    match bind_parameters r with
                    | inr vs => inr (v :: vs)
                    | inl e => inl e
                    end
                  else inl OverflowError
      | _ => match bind_parameters r with
             | inr vs => inr (v :: vs)
             | inl e => inl e
             end
      end
  end.

Definition bind_and_run (cmd : command) (sql : string) (params : list value)
  : M real connection cursor :=
  fun c =>
    if negb (List.length params =? count_placeholders sql)%nat
    then Outcome (inl ProgrammingError) c []
    else match bind_parameters params with
         | inl e => Outcome (inl e) c []
         | inr vs =>
             let (r, c') := run cmd vs c in
             Outcome r c' [Exec sql vs]
         end.

(** [conn.execute(sql, params)] *)
Definition execute (sql : string) (params : list value)
  : M real connection cursor :=
  fun c =>
    if closed c then Outcome (inl ProgrammingError) c []
    else match compile (db c) sql with
         | None => Outcome (inl OperationalError) c []
         | Some cmd => bind_and_run cmd sql params (implicit_begin cmd c)
         end.

(** [conn.executemany(sql, seq)]: the statement is prepared once and
    run once for each parameter tuple. *)
Definition executemany (sql : string) (seq : list (list value))
  : M real connection unit :=
  fun c =>
    if closed c then Outcome (inl ProgrammingError) c []
    else match compile (db c) sql with
         | None => Outcome (inl OperationalError) c []
         | Some cmd =>
             if command_is_dml cmd then
               for_each seq (fun params =>
                 bind_and_run cmd sql params ;; ret tt) (implicit_begin cmd c)
             else Outcome (inl ProgrammingError) c []
         end.

Definition run_text (text : string) : M real connection unit :=
  fun c =>
    match compile (db c) text with
    | None => Outcome (inl OperationalError) c []
    | Some cmd =>
        let (r, c') := run cmd [] c in
        Outcome (match r with inl e => inl e | inr _ => inr tt end)
                c' [Exec text []]
    end.

(** [conn.executescript(script)]: a pending transaction is committed
    first, then the statements run one after the other, each prepared
    when its turn comes. *)
Definition executescript (script : string) : M real connection unit :=
  fun c =>
    if closed c then Outcome (inl ProgrammingError) c []
    else for_each (statements_of script) run_text (set_txn None c).

(** [conn.commit()] *)
Definition commit : M real connection unit :=
  fun c =>
    if closed c then Outcome (inl ProgrammingError) c []
    else Outcome (inr tt) (set_txn None c) [CommitCall].

(** [conn.close()]: what is not committed is lost. *)
Definition close : M real connection unit :=
  fun c =>
    let d := match txn c with Some d0 => d0 | None => db c end in
    Outcome (inr tt)
            (Connection d None (foreign_keys c) true (clock c) (ticks c))
            [Close].

(** [sqlite3.connect(path)]: opens the file, which is created empty
    when it does not exist; foreign keys are off by default. *)
Definition sqlite3_connect (disk : option database) (clk : nat -> string)
  : connection :=
  Connection (match disk with Some d => d | None => engine_empty end)
             None false false clk O.

(** The database file as it is on disk: the committed state. *)
Definition on_disk (c : connection) : database :=
  match txn c with Some d0 => d0 | None => db c end.

(** *** The process: one connection, and what the outside world does
    to it.  [faults] lists, call after call, whether the call fails
    for a reason of its own (a full disk, an I/O error, a lock), and
    with which exception; past the end of the list no call does. *)
Record process : Type := Process {
  conn : connection;
  faults : list (option exn)
}.

Definition call {A} (m : M real connection A) : M real process A :=
  fun p =>
    match faults p with
    | Some e :: rest => Outcome (inl e) (Process (conn p) rest) []
    | _ =>
        let o := m (conn p) in
        Outcome (result o) (Process (final o) (tl (faults p))) (emitted o)
    end.

(** A call on the connection that the outside world lets through. *)
Definition on_conn {A} (m : M real connection A) : M real process A :=
  fun p =>
    let o := m (conn p) in
    Outcome (result o) (Process (final o) (faults p)) (emitted o).

End WithEngine.
End Connection.

Arguments done {real}.
Arguments connection : clear implicits.
Arguments process : clear implicits.
Arguments command : clear implicits.
Arguments commit {real database}.
Arguments close {real database}.

(** *** Table definitions, as CREATE TABLE states them *)

Inductive sqltype : Set := INTEGER | TEXT | REAL | BLOB | NUMERIC.

Inductive fk_action : Set := NoAction | Cascade.

Record column : Set := Column {
  col_name : string;
  col_type : sqltype;
  col_not_null : bool;
  col_primary_key : bool;
  col_autoincrement : bool;
  col_unique : bool;
  col_default : option string;
  col_check : option string
}.

Record foreign_key : Set := ForeignKey {
  fk_column : string;
  fk_table : string;
  fk_parent_column : string;
  fk_on_delete : fk_action
}.

Record table : Set := Table {
  table_name : string;
  table_columns : list column;
  table_foreign_keys : list foreign_key;
  table_unique : list (list string)
}.

Definition has_table (catalog : list table) (name : string) : bool :=
  existsb (fun t => (table_name t =? name)%string) catalog.

(** The rowid an AUTOINCREMENT table gives its next row: one more than the
    largest it ever held; none is left past the largest 64-bit integer. *)
Definition max_id (ids : list Z) : Z := fold_right Z.max 0 ids.

Definition next_rowid (seq : Z) (ids : list Z) : option Z :=
  let m := Z.max seq (max_id ids) in
  if m <? 2 ^ 63 - 1 then Some (m + 1) else None.

End Sqlite3.

(* ================================================================== *)
(** ** exercises.py *)

Module Exercises.
Import Sqlite3.
Local Open Scope py_scope.

(** No REAL value occurs in this script. *)
Definition real : Type := Empty_set.
#[local] Abbreviation value := (Sqlite3.value real).
#[local] Abbreviation row := (Sqlite3.row real).
#[local] Abbreviation cursor := (Sqlite3.cursor real).

(** *** The schema of [create_schema] *)

Definition students_table : table :=
  Table "students"
    [ Column "id" INTEGER false true true false None None;
      Column "name" TEXT true false false false None None;
      Column "email" TEXT true false false true None None ]
    [] [].

Definition courses_table : table :=
  Table "courses"
    [ Column "id" INTEGER false true true false None None;
      Column "code" TEXT true false false true None None;
      Column "title" TEXT true false false false None None ]
    [] [].

Definition enrollments_table : table :=
  Table "enrollments"
    [ Column "id" INTEGER false true true false None None;
      Column "student_id" INTEGER true false false false None None;
      Column "course_id" INTEGER true false false false None None;
      Column "enrolled_at" TEXT true false false false (Some "datetime('now')") None ]
    [ ForeignKey "student_id" "students" "id" Cascade;
      ForeignKey "course_id" "courses" "id" Cascade ]
    [ ["student_id"; "course_id"] ].

(** *** The tables *)

Record student : Set := Student {
  s_id : Z;
  s_name : string;
  s_email : string
}.

Record course : Set := Course {
  c_id : Z;
  c_code : string;
  c_title : string
}.

Record enrollment : Set := Enrollment {
  e_id : Z;
  e_student_id : Z;
  e_course_id : Z;
  e_enrolled_at : string
}.

(** [catalog] lists the tables that exist; the [seq_] fields are the rows
    of sqlite_sequence. *)
Record database : Set := Database {
  catalog : list table;
  students : list student;
  courses : list course;
  enrollments : list enrollment;
  seq_students : Z;
  seq_courses : Z;
  seq_enrollments : Z
}.

Definition fresh : database := Database [] [] [] [] 0 0 0.

(** *** The statements of the script and what they do *)

Inductive stmt : Set :=
| CreateTable (t : table)
| InsertStudent
| SelectStudentByEmail
| UpdateStudentName
| DeleteStudent
| SelectEnrollments
| InsertEnrollment
| InsertCourse
| SelectCourseId
| SelectStudents.

Definition create_table (t : table) (d : database) : database :=
  Database (catalog d ++ [t]) (students d) (courses d) (enrollments d)
           (seq_students d) (seq_courses d) (seq_enrollments d).

(** INSERT INTO students (name, email) VALUES (?, ?) *)
Definition insert_student (name email : string) (d : database)
  : exn + (cursor * database) :=
  match next_rowid (seq_students d) (map s_id (students d)) with
  | None => inl OperationalError
  | Some i =>
      if existsb (fun s => (s_email s =? email)%string) (students d)
      then inl IntegrityError
      else inr (Cursor i 1 [],
                Database (catalog d) (students d ++ [Student i name email])
                         (courses d) (enrollments d)
                         i (seq_courses d) (seq_enrollments d))
  end.

(** INSERT INTO courses (code, title) VALUES (?, ?) *)
Definition insert_course (code title : string) (d : database)
  : exn + (cursor * database) :=
  match next_rowid (seq_courses d) (map c_id (courses d)) with
  | None => inl OperationalError
  | Some i =>
      if existsb (fun c => (c_code c =? code)%string) (courses d)
      then inl IntegrityError
      else inr (Cursor i 1 [],
                Database (catalog d) (students d)
                         (courses d ++ [Course i code title]) (enrollments d)
                         (seq_students d) i (seq_enrollments d))
  end.

(** INSERT INTO enrollments (student_id, course_id) VALUES (?, ?);
    the foreign keys are checked when they are enforced. *)
Definition insert_enrollment (e : env) (sid cid : Z) (d : database)
  : exn + (cursor * database) :=
  match next_rowid (seq_enrollments d) (map e_id (enrollments d)) with
  | None => inl OperationalError
  | Some i =>
      if existsb (fun x => (e_student_id x =? sid) && (e_course_id x =? cid))
                 (enrollments d)
      then inl IntegrityError
      else if env_foreign_keys e
              && negb (existsb (fun s => s_id s =? sid) (students d)
                       && existsb (fun c => c_id c =? cid) (courses d))
      then inl IntegrityError
      else inr (Cursor i 1 [],
                Database (catalog d) (students d) (courses d)
                         (enrollments d ++ [Enrollment i sid cid (env_now e)])
                         (seq_students d) (seq_courses d) i)
  end.

Definition student_row (s : student) : row :=
  [("id", VInt (s_id s)); ("name", VText (s_name s)); ("email", VText (s_email s))].

(** SELECT id, name, email FROM students WHERE email = ? *)
Definition select_student_by_email (email : string) (d : database) : list row :=
  map student_row (filter (fun s => (s_email s =? email)%string) (students d)).

(** UPDATE students SET name = ? WHERE id = ? *)
Definition update_student_name (new_name : string) (id : Z) (d : database)
  : cursor * database :=
  (Cursor 0 (Z.of_nat (List.length (filter (fun s => s_id s =? id) (students d)))) [],
   Database (catalog d)
            (map (fun s => if s_id s =? id
                           then Student (s_id s) new_name (s_email s) else s)
                 (students d))
            (courses d) (enrollments d)
            (seq_students d) (seq_courses d) (seq_enrollments d)).

(** DELETE FROM students WHERE id = ?; with foreign keys enforced, the
    deletion of a student cascades to the enrollments that reference it. *)
Definition delete_student_row (e : env) (id : Z) (d : database)
  : cursor * database :=
  let hit := filter (fun s => s_id s =? id) (students d) in
  (Cursor 0 (Z.of_nat (List.length hit)) [],
   Database (catalog d)
            (filter (fun s => negb (s_id s =? id)) (students d))
            (courses d)
            (match hit with
             | [] => enrollments d
             | _ :: _ =>
                 if env_foreign_keys e
                 then filter (fun x => negb (e_student_id x =? id)) (enrollments d)
                 else enrollments d
             end)
            (seq_students d) (seq_courses d) (seq_enrollments d)).

(** The rows of enrollments JOIN students JOIN courses. *)
Definition joined (d : database) : list (string * string * string) :=
  flat_map (fun e =>
    flat_map (fun s =>
      map (fun c => (s_name s, c_code c, c_title c))
          (filter (fun c => c_id c =? e_course_id e) (courses d)))
      (filter (fun s => s_id s =? e_student_id e) (students d)))
    (enrollments d).

(** ORDER BY student_name, course_code, on the bytes of the texts. *)
Definition by_name_code (a b : string * string * string) : bool :=
  let '(n1, c1, _) := a in
  let '(n2, c2, _) := b in
  (n1 <? n2)%string || ((n1 =? n2)%string && (c1 <=? c2)%string).

Definition enrollment_row (x : string * string * string) : row :=
  let '(n, c, t) := x in
  [("student_name", VText n); ("course_code", VText c); ("course_title", VText t)].

Definition select_enrollments (d : database) : list row :=
  map enrollment_row (sort_by by_name_code (joined d)).

(** SELECT id FROM courses WHERE code = ? *)
Definition select_course_id (code : string) (d : database) : list row :=
  map (fun c => [("id", VInt (c_id c))])
      (filter (fun c => (c_code c =? code)%string) (courses d)).

(** SELECT id, name, email FROM students ORDER BY id *)
Definition select_students (d : database) : list row :=
  map student_row (sort_by (fun a b => s_id a <=? s_id b) (students d)).

Definition is_dml (s : stmt) : bool :=
  match s with
  | InsertStudent | UpdateStudentName | DeleteStudent
  | InsertEnrollment | InsertCourse => true
  | _ => false
  end.

Definition step (e : env) (s : stmt) (vs : list value) (d : database)
  : exn + (cursor * database) :=
  match s, vs with
  | CreateTable t, [] => inr (done, create_table t d)
  | InsertStudent, [VText name; VText email] => insert_student name email d
  | SelectStudentByEmail, [VText email] =>
      inr (Cursor 0 (-1) (select_student_by_email email d), d)
  | UpdateStudentName, [VText new_name; VInt id] =>
      inr (update_student_name new_name id d)
  | DeleteStudent, [VInt id] => inr (delete_student_row e id d)
  | SelectEnrollments, [] => inr (Cursor 0 (-1) (select_enrollments d), d)
  | InsertEnrollment, [VInt sid; VInt cid] => insert_enrollment e sid cid d
  | InsertCourse, [VText code; VText title] => insert_course code title d
  | SelectCourseId, [VText code] => inr (Cursor 0 (-1) (select_course_id code d), d)
  | SelectStudents, [] => inr (Cursor 0 (-1) (select_students d), d)
  | _, _ => inl NotSupportedError
  end.

(** The statement a text prepares to; every table it names must exist,
    and CREATE TABLE needs a name that is free. *)
Definition prepare (d : database) (text : string) : option stmt :=
  let has := has_table (catalog d) in
  let known (needs : list string) (s : stmt) :=
    if forallb has needs then Some s else None in
  if (text =? "CREATE TABLE students ( id INTEGER PRIMARY KEY AUTOINCREMENT, name TEXT NOT NULL, email TEXT NOT NULL UNIQUE )")%string
  then if has "students" then None else Some (CreateTable students_table)
  else if (text =? "CREATE TABLE courses ( id INTEGER PRIMARY KEY AUTOINCREMENT, code TEXT NOT NULL UNIQUE, title TEXT NOT NULL )")%string
  then if has "courses" then None else Some (CreateTable courses_table)
  else if (text =? "CREATE TABLE enrollments ( id INTEGER PRIMARY KEY AUTOINCREMENT, student_id INTEGER NOT NULL, course_id INTEGER NOT NULL, enrolled_at TEXT NOT NULL DEFAULT (datetime('now')), FOREIGN KEY (student_id) REFERENCES students(id) ON DELETE CASCADE, FOREIGN KEY (course_id) REFERENCES courses(id) ON DELETE CASCADE, UNIQUE(student_id, course_id) )")%string
  then if has "enrollments" then None else Some (CreateTable enrollments_table)
  else if (text =? "INSERT INTO students (name, email) VALUES (?, ?)")%string
  then known ["students"] InsertStudent
  else if (text =? "SELECT id, name, email FROM students WHERE email = ?")%string
  then known ["students"] SelectStudentByEmail
  else if (text =? "UPDATE students SET name = ? WHERE id = ?")%string
  then known ["students"] UpdateStudentName
  else if (text =? "DELETE FROM students WHERE id = ?")%string
  then known ["students"] DeleteStudent
  else if (text =? "SELECT s.name AS student_name, c.code AS course_code, c.title AS course_title FROM enrollments e JOIN students s ON s.id = e.student_id JOIN courses c ON c.id = e.course_id ORDER BY student_name, course_code")%string
  then known ["enrollments"; "students"; "courses"] SelectEnrollments
  else if (text =? "INSERT INTO enrollments (student_id, course_id) VALUES (?, ?)")%string
  then known ["enrollments"] InsertEnrollment
  else if (text =? "INSERT INTO courses (code, title) VALUES (?, ?)")%string
  then known ["courses"] InsertCourse
  else if (text =? "SELECT id FROM courses WHERE code = ?")%string
  then known ["courses"] SelectCourseId
  else if (text =? "SELECT id, name, email FROM students ORDER BY id")%string
  then known ["students"] SelectStudents
  else None.

#[export] Instance engine : Engine real database stmt :=
  {| engine_empty := fresh;
     engine_prepare := prepare;
     engine_is_dml := is_dml;
     engine_step := step |}.

(** *** The functions of the script.  The [conn] argument of the source is
    the state of the monad. *)

#[local] Abbreviation conn_t := (connection database).

Definition connect (disk : option database) (clk : nat -> string)
  : outcome real conn_t unit :=
  (emit Connect ;;
   execute "PRAGMA foreign_keys = ON;" [] ;;
   ret tt) (sqlite3_connect disk clk).

(** The file at [DB_PATH] is removed when it exists. *)
Definition reset_db (disk : option database) : option database :=
  match disk with
  | Some _ => None
  | None => None
  end.

Definition create_schema : M real conn_t unit :=
  executescript "
        CREATE TABLE students (
                                  id INTEGER PRIMARY KEY AUTOINCREMENT,
                                  name TEXT NOT NULL,
                                  email TEXT NOT NULL UNIQUE
        );

        CREATE TABLE courses (
                                 id INTEGER PRIMARY KEY AUTOINCREMENT,
                                 code TEXT NOT NULL UNIQUE,
                                 title TEXT NOT NULL
        );

        CREATE TABLE enrollments (
                                     id INTEGER PRIMARY KEY AUTOINCREMENT,
                                     student_id INTEGER NOT NULL,
                                     course_id INTEGER NOT NULL,
                                     enrolled_at TEXT NOT NULL DEFAULT (datetime('now')),
                                     FOREIGN KEY (student_id) REFERENCES students(id) ON DELETE CASCADE,
                                     FOREIGN KEY (course_id) REFERENCES courses(id) ON DELETE CASCADE,
                                     UNIQUE(student_id, course_id)
        );
        ".

Definition add_student (name email : string) : M real conn_t Z :=
  cursor <- execute "INSERT INTO students (name, email) VALUES (?, ?);"
                    [VText name; VText email] ;;
  ret (lastrowid cursor).

Definition find_student_by_email (email : string) : M real conn_t (option row) :=
  cursor <- execute "SELECT id, name, email FROM students WHERE email = ?;"
                    [VText email] ;;
  ret (fetchone cursor).

Definition rename_student (student_id : Z) (new_name : string) : M real conn_t Z :=
  cursor <- execute "UPDATE students SET name = ? WHERE id = ?;"
                    [VText new_name; VInt student_id] ;;
  ret (rowcount cursor).

Definition delete_student (student_id : Z) : M real conn_t Z :=
  cursor <- execute "DELETE FROM students WHERE id = ?;" [VInt student_id] ;;
  ret (rowcount cursor).

Definition list_enrollments : M real conn_t (list row) :=
  cursor <- execute "
        SELECT
            s.name AS student_name,
            c.code AS course_code,
            c.title AS course_title
        FROM enrollments e
                 JOIN students s ON s.id = e.student_id
                 JOIN courses  c ON c.id = e.course_id
        ORDER BY student_name, course_code;
        " [] ;;
  ret (fetchall cursor).

Definition enroll_student (student_id course_id : Z) : M real conn_t unit :=
  execute "INSERT INTO enrollments (student_id, course_id) VALUES (?, ?);"
          [VInt student_id; VInt course_id] ;;
  ret tt.

Definition seed_courses : M real conn_t unit :=
  let courses := [ [VText "CS101"; VText "Intro to Programming"];
                   [VText "CS205"; VText "Web Development"];
                   [VText "CS310"; VText "Data Structures"] ] in
  executemany "INSERT INTO courses (code, title) VALUES (?, ?);" courses.

Definition str_real (x : real) : string := match x with end.

Definition print_rows {S} (title : string) (rows : list row) : M real S unit :=
  Sqlite3.print_rows str_real title rows.

(** The int a fetched value is handed on as. *)
Definition as_int {S} (v : value) : M real S Z :=
  match v with
  | VInt n => ret n
  | _ => raise TypeError
  end.

(** [dict(row) if row else None]; a row is false when it has no column. *)
Definition dict_or_none (r : option row) : pyobj real :=
  match r with
  | Some (x :: l) => ODict (x :: l)
  | _ => ONone
  end.

#[local] Abbreviation proc_t := (process database).

(** Lines 191 to 199 of [main]: the same pair is enrolled twice inside
    one transaction. *)
Definition enroll_twice (s1 course_cs205 : Z) : M real proc_t unit :=
  try_except
    (call (execute "BEGIN;" []) ;;
     call (enroll_student s1 course_cs205) ;;
     call (enroll_student s1 course_cs205) ;;
     call (execute "COMMIT;" []) ;;
     ret tt)
    IntegrityError
    (fun e =>
       print [OStr "IntegrityError ->"; OExn e] ;;
       print [OStr "Rolling back transaction..."] ;;
       call (execute "ROLLBACK;" []) ;;
       ret tt).

(** The body of the [try] of [main]. *)
Definition main_body : M real proc_t unit :=
  call create_schema ;;
  call seed_courses ;;
  call commit ;;
  s1 <- call (add_student "Etty" "etty@example.com") ;;
  s2 <- call (add_student "Rena" "rena@example.com") ;;
  call commit ;;
  print [OStr ("Inserted students: Etty=" ++ Py.str_int s1
               ++ ", Rena=" ++ Py.str_int s2)] ;;
  row <- call (find_student_by_email "etty@example.com") ;;
  print [OStr "Lookup etty@example.com ->"; dict_or_none row] ;;
  cur <- call (execute "SELECT id FROM courses WHERE code = ?;" [VText "CS205"]) ;;
  first <- or_raise TypeError (fetchone cur) ;;
  id <- or_raise IndexError (getitem first "id") ;;
  course_cs205 <- as_int id ;;
  enroll_twice s1 course_cs205 ;;
  rows <- call list_enrollments ;;
  print_rows "Enrollments (should be empty after rollback)" rows ;;
  call (execute "BEGIN;" []) ;;
  call (enroll_student s1 course_cs205) ;;
  call (execute "COMMIT;" []) ;;
  rows <- call list_enrollments ;;
  print_rows "Enrollments after valid commit" rows ;;
  updated <- call (rename_student s2 "Etty Werczberger") ;;
  call commit ;;
  print [OStr ("rename_student rowcount=" ++ Py.str_int updated)] ;;
  cur <- call (execute "SELECT id, name, email FROM students ORDER BY id;" []) ;;
  print_rows "Students" (fetchall cur) ;;
  deleted <- call (delete_student s1) ;;
  call commit ;;
  print [OStr ("delete_student rowcount=" ++ Py.str_int deleted)] ;;
  cur <- call (execute "SELECT id, name, email FROM students ORDER BY id;" []) ;;
  print_rows "Students after delete" (fetchall cur) ;;
  print [OStr (newline
               ++ "All done. If you finished early, add another course and test enrollments.")].

(** What [main] finds when it starts: the database file, if there is one,
    the clock, and the failures the outside world has in store. *)
Record world : Type := World {
  disk : option database;
  wall_clock : nat -> string;
  failures : list (option exn)
}.

Definition main (w : world) : outcome real proc_t unit :=
  let o := connect (reset_db (disk w)) (wall_clock w) in
  match result o with
  | inl e => Outcome (inl e) (Process (final o) (failures w)) (emitted o)
  | inr _ =>
      let o' := try_finally main_body (on_conn close)
                            (Process (final o) (failures w)) in
      Outcome (result o') (final o') (emitted o ++ emitted o')
  end.

End Exercises.

(* ================================================================== *)
(** ** homework.py *)

Module Homework.
Import Sqlite3.
Local Open Scope py_scope.

(** The floating point of the engine and of Python, taken as given: the
    REAL literal [1.0], the conversion of an INTEGER, the product and the
    quotient, AVG over the values of a group, ROUND(x, n), the order of
    ORDER BY, and [str(x)]. *)
Class Floats (real : Type) : Type := {
  real_one : real;
  real_of_int : Z -> real;
  real_mul : real -> real -> real;
  real_div : real -> real -> real;
  real_avg : list real -> real;
  real_round : real -> Z -> real;
  real_leb : real -> real -> bool;
  str_real : real -> string
}.

(** *** The schema of [create_schema] *)

Definition students_table : table :=
  Table "students"
    [ Column "id" INTEGER false true true false None None;
      Column "name" TEXT true false false false None None;
      Column "email" TEXT true false false true None None ]
    [] [].

Definition assignments_table : table :=
  Table "assignments"
    [ Column "id" INTEGER false true true false None None;
      Column "title" TEXT true false false false None None;
      Column "max_points" INTEGER true false false false None (Some "max_points > 0") ]
    [] [].

Definition grades_table : table :=
  Table "grades"
    [ Column "id" INTEGER false true true false None None;
      Column "student_id" INTEGER true false false false None None;
      Column "assignment_id" INTEGER true false false false None None;
      Column "score" INTEGER true false false false None (Some "score >= 0") ]
    [ ForeignKey "student_id" "students" "id" NoAction;
      ForeignKey "assignment_id" "assignments" "id" NoAction ]
    [ ["student_id"; "assignment_id"] ].

(** *** The tables *)

Record student : Set := Student {
  s_id : Z;
  s_name : string;
  s_email : string
}.

Record assignment : Set := Assignment {
  a_id : Z;
  a_title : string;
  a_max_points : Z
}.

Record grade : Set := Grade {
  g_id : Z;
  g_student_id : Z;
  g_assignment_id : Z;
  g_score : Z
}.

Record database : Set := Database {
  catalog : list table;
  students : list student;
  assignments : list assignment;
  grades : list grade;
  seq_students : Z;
  seq_assignments : Z;
  seq_grades : Z
}.

Definition fresh : database := Database [] [] [] [] 0 0 0.

Inductive stmt : Set :=
| CreateTable (t : table)
| InsertStudent
| InsertAssignment
| InsertGrade
| SelectStudents
| SelectGradeReport
| SelectLeaderboard.

Definition is_dml (s : stmt) : bool :=
  match s with
  | InsertStudent | InsertAssignment | InsertGrade => true
  | _ => false
  end.

Definition create_table (t : table) (d : database) : database :=
  Database (catalog d ++ [t]) (students d) (assignments d) (grades d)
           (seq_students d) (seq_assignments d) (seq_grades d).

Section Engine.
Context {real : Type} {F : Floats real}.

#[local] Abbreviation value := (Sqlite3.value real).
#[local] Abbreviation row := (Sqlite3.row real).
#[local] Abbreviation cursor := (Sqlite3.cursor real).

(** INSERT INTO students (name, email) VALUES (?, ?) *)
Definition insert_student (name email : string) (d : database)
  : exn + (cursor * database) :=
  match next_rowid (seq_students d) (map s_id (students d)) with
  | None => inl OperationalError
  | Some i =>
      if existsb (fun s => (s_email s =? email)%string) (students d)
      then inl IntegrityError
      else inr (Cursor i 1 [],
                Database (catalog d) (students d ++ [Student i name email])
                         (assignments d) (grades d)
                         i (seq_assignments d) (seq_grades d))
  end.

(** INSERT INTO assignments (title, max_points) VALUES (?, ?) *)
Definition insert_assignment (title : string) (max_points : Z) (d : database)
  : exn + (cursor * database) :=
  match next_rowid (seq_assignments d) (map a_id (assignments d)) with
  | None => inl OperationalError
  | Some i =>
      if negb (0 <? max_points) then inl IntegrityError
      else inr (Cursor i 1 [],
                Database (catalog d) (students d)
                         (assignments d ++ [Assignment i title max_points])
                         (grades d)
                         (seq_students d) i (seq_grades d))
  end.

(** INSERT INTO grades (student_id, assignment_id, score) VALUES (?, ?, ?) *)
Definition insert_grade (e : env) (sid aid score : Z) (d : database)
  : exn + (cursor * database) :=
  match next_rowid (seq_grades d) (map g_id (grades d)) with
  | None => inl OperationalError
  | Some i =>
      if negb (0 <=? score) then inl IntegrityError
      else if existsb (fun g => (g_student_id g =? sid) && (g_assignment_id g =? aid))
                      (grades d)
      then inl IntegrityError
      else if env_foreign_keys e
              && negb (existsb (fun s => s_id s =? sid) (students d)
                       && existsb (fun a => a_id a =? aid) (assignments d))
      then inl IntegrityError
      else inr (Cursor i 1 [],
                Database (catalog d) (students d) (assignments d)
                         (grades d ++ [Grade i sid aid score])
                         (seq_students d) (seq_assignments d) i)
  end.

Definition student_row (s : student) : row :=
  [("id", VInt (s_id s)); ("name", VText (s_name s)); ("email", VText (s_email s))].

(** SELECT * FROM students ORDER BY name *)
Definition select_students (d : database) : list row :=
  map student_row (sort_by (fun a b => (s_name a <=? s_name b)%string) (students d)).

(** [1.0 * score / max_points * 100]; a division by zero gives NULL. *)
Definition percent (score max_points : Z) : option real :=
  if max_points =? 0 then None
  else Some (real_mul (real_div (real_mul real_one (real_of_int score))
                                (real_of_int max_points))
                      (real_of_int 100)).

(** ROUND(x, 1), NULL staying NULL. *)
Definition round1 (x : option real) : value :=
  match x with
  | Some r => VReal (real_round r 1)
  | None => VNull
  end.

(** The grade report of one student: grades JOIN assignments. *)
Definition select_grade_report (sid : Z) (d : database) : list row :=
  flat_map (fun g =>
    map (fun a =>
           [("assignment_title", VText (a_title a));
            ("score", VInt (g_score g));
            ("max_points", VInt (a_max_points a));
            ("percent", round1 (percent (g_score g) (a_max_points a)))])
        (filter (fun a => a_id a =? g_assignment_id g) (assignments d)))
    (filter (fun g => g_student_id g =? sid) (grades d)).

(** The rows of grades JOIN students JOIN assignments, each with the
    id and name of its student and its percent. *)
Definition joined (d : database) : list (Z * string * option real) :=
  flat_map (fun g =>
    flat_map (fun s =>
      map (fun a => (s_id s, s_name s, percent (g_score g) (a_max_points a)))
          (filter (fun a => a_id a =? g_assignment_id g) (assignments d)))
      (filter (fun s => s_id s =? g_student_id g) (students d)))
    (grades d).

Definition non_null (l : list (option real)) : list real :=
  flat_map (fun x => match x with Some r => [r] | None => [] end) l.

(** AVG over a group: NULLs do not count, and no value gives NULL. *)
Definition avg (l : list (option real)) : option real :=
  match non_null l with
  | [] => None
  | x :: r => Some (real_avg (x :: r))
  end.

(** GROUP BY students.id: one row for each id, in the order of the ids,
    with the name of a row of the group. *)
Definition groups (d : database) : list (string * value) :=
  let j := joined d in
  let ids := sort_by Z.leb (nodup Z.eq_dec (map (fun x => fst (fst x)) j)) in
  flat_map (fun k =>
    match filter (fun x => fst (fst x) =? k) j with
    | [] => []
    | x :: r => [(snd (fst x), round1 (avg (map snd (x :: r))))]
    end) ids.

(** ORDER BY avg_percent DESC; NULL sorts below every number. *)
Definition by_avg_desc (a b : string * value) : bool :=
  match snd a, snd b with
  | VReal x, VReal y => real_leb y x
  | VNull, VReal _ => false
  | _, _ => true
  end.

Definition select_leaderboard (d : database) : list row :=
  map (fun x => [("student_name", VText (fst x)); ("avg_percent", snd x)])
      (sort_by by_avg_desc (groups d)).

Definition step (e : env) (s : stmt) (vs : list value) (d : database)
  : exn + (cursor * database) :=
  match s, vs with
  | CreateTable t, [] => inr (done, create_table t d)
  | InsertStudent, [VText name; VText email] => insert_student name email d
  | InsertAssignment, [VText title; VInt max_points] =>
      insert_assignment title max_points d
  | InsertGrade, [VInt sid; VInt aid; VInt score] => insert_grade e sid aid score d
  | SelectStudents, [] => inr (Cursor 0 (-1) (select_students d), d)
  | SelectGradeReport, [VInt sid] => inr (Cursor 0 (-1) (select_grade_report sid d), d)
  | SelectLeaderboard, [] => inr (Cursor 0 (-1) (select_leaderboard d), d)
  | _, _ => inl NotSupportedError
  end.

Definition prepare (d : database) (text : string) : option stmt :=
  let has := has_table (catalog d) in
  let known (needs : list string) (s : stmt) :=
    if forallb has needs then Some s else None in
  if (text =? "CREATE TABLE students ( id INTEGER PRIMARY KEY AUTOINCREMENT, name TEXT NOT NULL, email TEXT NOT NULL UNIQUE )")%string
  then if has "students" then None else Some (CreateTable students_table)
  else if (text =? "CREATE TABLE assignments ( id INTEGER PRIMARY KEY AUTOINCREMENT, title TEXT NOT NULL, max_points INTEGER NOT NULL CHECK (max_points > 0) )")%string
  then if has "assignments" then None else Some (CreateTable assignments_table)
  else if (text =? "CREATE TABLE grades ( id INTEGER PRIMARY KEY AUTOINCREMENT, student_id INTEGER NOT NULL, assignment_id INTEGER NOT NULL, score INTEGER NOT NULL CHECK (score >= 0), FOREIGN KEY(student_id) REFERENCES students(id), FOREIGN KEY(assignment_id) REFERENCES assignments(id), UNIQUE(student_id, assignment_id) )")%string
  then if has "grades" then None else Some (CreateTable grades_table)
  else if (text =? "INSERT INTO students (name, email) VALUES (?, ?)")%string
  then known ["students"] InsertStudent
  else if (text =? "INSERT INTO assignments (title, max_points) VALUES (?, ?)")%string
  then known ["assignments"] InsertAssignment
  else if (text =? "INSERT INTO grades (student_id, assignment_id, score) VALUES (?, ?, ?)")%string
  then known ["grades"] InsertGrade
  else if (text =? "SELECT * FROM students ORDER BY name")%string
  then known ["students"] SelectStudents
  else if (text =? "SELECT assignments.title AS assignment_title, grades.score, assignments.max_points, ROUND(1.0 * grades.score / assignments.max_points * 100, 1) AS percent FROM grades JOIN assignments ON grades.assignment_id = assignments.id WHERE grades.student_id = ?")%string
  then known ["grades"; "assignments"] SelectGradeReport
  else if (text =? "SELECT students.name AS student_name, ROUND(AVG(1.0 * grades.score / assignments.max_points * 100), 1) AS avg_percent FROM grades JOIN students ON grades.student_id = students.id JOIN assignments ON grades.assignment_id = assignments.id GROUP BY students.id ORDER BY avg_percent DESC")%string
  then known ["grades"; "students"; "assignments"] SelectLeaderboard
  else None.

#[export] Instance engine : Engine real database stmt :=
  {| engine_empty := fresh;
     engine_prepare := prepare;
     engine_is_dml := is_dml;
     engine_step := step |}.

(** *** The functions of the script *)

#[local] Abbreviation conn_t := (connection database).
#[local] Abbreviation proc_t := (process database).

Definition connect (disk : option database) (clk : nat -> string)
  : outcome real conn_t unit :=
  (emit Connect ;;
   execute "PRAGMA foreign_keys = ON;" [] ;;
   ret tt) (sqlite3_connect disk clk).

Definition reset_db (disk : option database) : option database :=
  match disk with
  | Some _ => None
  | None => None
  end.

Definition create_schema : M real conn_t unit :=
  execute "
                 CREATE TABLE students (
                                           id INTEGER PRIMARY KEY AUTOINCREMENT,
                                           name TEXT NOT NULL,
                                           email TEXT NOT NULL UNIQUE
                 )
                 " [] ;;
  execute "
                 CREATE TABLE assignments (
                                              id INTEGER PRIMARY KEY AUTOINCREMENT,
                                              title TEXT NOT NULL,
                                              max_points INTEGER NOT NULL CHECK (max_points > 0)
                 )
                 " [] ;;
  execute "
                 CREATE TABLE grades (
                                         id INTEGER PRIMARY KEY AUTOINCREMENT,
                                         student_id INTEGER NOT NULL,
                                         assignment_id INTEGER NOT NULL,
                                         score INTEGER NOT NULL CHECK (score >= 0),
                                         FOREIGN KEY(student_id) REFERENCES students(id),
                                         FOREIGN KEY(assignment_id) REFERENCES assignments(id),
                                         UNIQUE(student_id, assignment_id)
                 )
                 " [] ;;
  ret tt.

Definition add_student (name email : string) : M real conn_t Z :=
  cur <- execute "INSERT INTO students (name, email) VALUES (?, ?)"
                 [VText name; VText email] ;;
  ret (lastrowid cur).

Definition add_assignment (title : string) (max_points : Z) : M real conn_t Z :=
  cur <- execute "INSERT INTO assignments (title, max_points) VALUES (?, ?)"
                 [VText title; VInt max_points] ;;
  ret (lastrowid cur).

Definition record_grade (student_id assignment_id score : Z) : M real conn_t Z :=
  cur <- execute "INSERT INTO grades (student_id, assignment_id, score) VALUES (?, ?, ?)"
                 [VInt student_id; VInt assignment_id; VInt score] ;;
  ret (lastrowid cur).

Definition list_students : M real conn_t (list row) :=
  cur <- execute "SELECT * FROM students ORDER BY name" [] ;;
  ret (fetchall cur).

Definition student_grade_report (student_id : Z) : M real conn_t (list row) :=
  cur <- execute "
                       SELECT
                           assignments.title AS assignment_title,
                           grades.score,
                           assignments.max_points,
                           ROUND(1.0 * grades.score / assignments.max_points * 100, 1) AS percent
                       FROM grades
                                JOIN assignments ON grades.assignment_id = assignments.id
                       WHERE grades.student_id = ?
                       " [VInt student_id] ;;
  ret (fetchall cur).

Definition leaderboard : M real conn_t (list row) :=
  cur <- execute "
                       SELECT
                           students.name AS student_name,
                           ROUND(AVG(1.0 * grades.score / assignments.max_points * 100), 1) AS avg_percent
                       FROM grades
                                JOIN students ON grades.student_id = students.id
                                JOIN assignments ON grades.assignment_id = assignments.id
                       GROUP BY students.id
                       ORDER BY avg_percent DESC
                       " [] ;;
  ret (fetchall cur).

Definition print_rows {S} (title : string) (rows : list row) : M real S unit :=
  Sqlite3.print_rows str_real title rows.

Definition as_int {S} (v : value) : M real S Z :=
  match v with
  | VInt n => ret n
  | _ => raise TypeError
  end.

(** The body of the [try] of [main]. *)
Definition main_body : M real proc_t unit :=
  call create_schema ;;
  call commit ;;
  s_rivka <- call (add_student "Rivka" "rivka@example.com") ;;
  s_esther <- call (add_student "Esther" "esther@example.com") ;;
  s_leah <- call (add_student "Leah" "leah@example.com") ;;
  a_q1 <- call (add_assignment "Quiz 1" 10) ;;
  a_hw1 <- call (add_assignment "Homework 1" 100) ;;
  a_mid <- call (add_assignment "Midterm" 200) ;;
  call (record_grade s_rivka a_q1 9) ;;
  call (record_grade s_rivka a_hw1 95) ;;
  call (record_grade s_esther a_q1 7) ;;
  call (record_grade s_esther a_hw1 88) ;;
  call (record_grade s_leah a_q1 10) ;;
  call (record_grade s_leah a_hw1 92) ;;
  call (record_grade s_leah a_mid 180) ;;
  call commit ;;
  all <- call list_students ;;
  print_rows "All students" all ;;
  all <- call list_students ;;
  for_each all (fun s =>
    id <- or_raise IndexError (getitem s "id") ;;
    student_id <- as_int id ;;
    rows <- call (student_grade_report student_id) ;;
    name <- or_raise IndexError (getitem s "name") ;;
    print_rows ("Grade report: " ++ str str_real name) rows) ;;
  board <- call leaderboard ;;
  print_rows "Leaderboard by average percent" board ;;
  print [OStr "Homework starter created. Implement TODOs, then uncomment the demo/report blocks in main()."].

Record world : Type := World {
  disk : option database;
  wall_clock : nat -> string;
  failures : list (option exn)
}.

Definition main (w : world) : outcome real proc_t unit :=
  let o := connect (reset_db (disk w)) (wall_clock w) in
  match result o with
  | inl e => Outcome (inl e) (Process (final o) (failures w)) (emitted o)
  | inr _ =>
      let o' := try_finally main_body (on_conn close)
                            (Process (final o) (failures w)) in
      Outcome (result o') (final o') (emitted o ++ emitted o')
  end.

End Engine.

End Homework.

(* ================================================================== *)
(** ** The vocabulary of the properties *)

Module Spec.
Import Sqlite3.

(** A column that holds one number or one text. *)
Definition scalar (c : column) : bool :=
  match col_type c with
  | INTEGER | TEXT => true
  | _ => false
  end.

Definition same_names (a b : list string) : bool :=
  if list_eq_dec string_dec a b then true else false.

Definition primary_key_of (t : table) : list string :=
  map col_name (filter col_primary_key (table_columns t)).

(** A foreign key of a table points into the catalog when its column is
    an INTEGER column of the table and its target is the primary key of a
    table of the catalog. *)
Definition points_into (cat : list table) (t : table) (k : foreign_key) : bool :=
  existsb (fun c => (col_name c =? fk_column k)%string
                    && match col_type c with INTEGER => true | _ => false end)
          (table_columns t)
  && existsb (fun p => (table_name p =? fk_table k)%string
                       && same_names (primary_key_of p) [fk_parent_column k])
             cat.

(** [t] links the tables [a] and [b] of the catalog through the columns
    [ca] and [cb]: these are its foreign keys, on those columns and in
    that order, and the pair is declared UNIQUE. *)
Definition links (cat : list table) (t : table) (ca a cb b : string) : bool :=
  same_names (map fk_column (table_foreign_keys t)) [ca; cb]
  && same_names (map fk_table (table_foreign_keys t)) [a; b]
  && forallb (points_into cat t) (table_foreign_keys t)
  && existsb (same_names [ca; cb]) (table_unique t).

(** No two elements of the list are equal. *)
Fixpoint distinct {A} (eqb : A -> A -> bool) (l : list A) : bool :=
  match l with
  | [] => true
  | x :: r => negb (existsb (eqb x) r) && distinct eqb r
  end.



(** An event that runs a statement whose placeholders are all bound. *)
Definition parameterized {real} (ev : event real) : bool :=
  match ev with
  | Exec sql params => (count_placeholders sql =? List.length params)%nat
  | _ => false
  end.

(** Every column of every table of the catalog is scalar. *)
Definition all_scalar (cat : list table) : bool :=
  forallb (fun t => forallb scalar (table_columns t)) cat.


Definition exercises_schema : list table :=
  [Exercises.students_table; Exercises.courses_table; Exercises.enrollments_table].

Definition homework_schema : list table :=
  [Homework.students_table; Homework.assignments_table; Homework.grades_table].

(** An engine with a single REAL value, to instantiate at a concrete
    engine the statements that hold whatever the floating point is. *)
Definition one_real : Homework.Floats unit :=
  {| Homework.real_one := tt;
     Homework.real_of_int := fun _ => tt;
     Homework.real_mul := fun _ _ => tt;
     Homework.real_div := fun _ _ => tt;
     Homework.real_avg := fun _ => tt;
     Homework.real_round := fun _ _ => tt;
     Homework.real_leb := fun _ _ => true;
     Homework.str_real := fun _ => "nan" |}.

(** Connections on the schemas just created, foreign keys on. *)
Definition exercises_ready : connection Exercises.database :=
  Connection (Exercises.Database exercises_schema [] [] [] 0 0 0)
             None true false (fun _ => "2026-01-01 00:00:00") O.

Definition homework_ready : connection Homework.database :=
  Connection (Homework.Database homework_schema [] [] [] 0 0 0)
             None true false (fun _ => "2026-01-01 00:00:00") O.

(** What [sqlite3.connect] gives on a path where no file is. *)
Definition exercises_new : connection Exercises.database :=
  sqlite3_connect (E := Exercises.engine) None (fun _ => "2026-01-01 00:00:00").

Definition homework_new : connection Homework.database :=
  sqlite3_connect (E := Homework.engine (F := one_real)) None
                  (fun _ => "2026-01-01 00:00:00").

(** The report [print_rows] is meant to print, column by column: the width
    of a column is the longest of its name and of the values in it; a cell
    is padded to the width of its column. *)
Section Report.
Context {real : Type} (str_real : real -> string).




End Report.

(** A connection on a database with two students, the three courses and
    one enrollment. *)
Definition exercises_sample : connection Exercises.database :=
  Connection
    (Exercises.Database exercises_schema
       [ Exercises.Student 1 "Etty" "etty@example.com";
         Exercises.Student 2 "Rena" "rena@example.com" ]
       [ Exercises.Course 1 "CS101" "Intro to Programming";
         Exercises.Course 2 "CS205" "Web Development";
         Exercises.Course 3 "CS310" "Data Structures" ]
       [ Exercises.Enrollment 1 1 2 "2026-01-01 00:00:00" ]
       2 3 1)
    None true false (fun _ => "2026-01-01 00:00:00") O.

(** Every enrollment references a student and a course that exist. *)
Definition references_ok (d : Exercises.database) : bool :=
  forallb (fun e =>
             existsb (fun s => Exercises.s_id s =? Exercises.e_student_id e)
                     (Exercises.students d)
             && existsb (fun c => Exercises.c_id c =? Exercises.e_course_id e)
                        (Exercises.courses d))
          (Exercises.enrollments d).


(** The lexical order of texts, on their bytes. *)
Definition text_le (a b : string) : Prop := String_as_OT.lt a b \/ a = b.

(** Ordered by student name, then by course code. *)
Definition name_code_le (a b : string * string * string) : Prop :=
  let '(n1, c1, _) := a in
  let '(n2, c2, _) := b in
  String_as_OT.lt n1 n2 \/ (n1 = n2 /\ text_le c1 c2).

(** The statement of [enroll_student]. *)
Definition enroll_sql : string :=
  "INSERT INTO enrollments (student_id, course_id) VALUES (?, ?);".

(** An invariant [P] of the database is kept on a connection when foreign
    keys are enforced and [P] holds of what the connection sees and of
    what a ROLLBACK would restore. *)
Definition kept {database : Type} (P : database -> Prop) (c : connection database)
  : Prop :=
  foreign_keys c = true /\ P (db c) /\ forall d0, txn c = Some d0 -> P d0.

(** The operations of exercises.py on its connection: its functions, and
    the calls [main] makes on the connection itself. *)
Inductive operation : Type :=
| OpCreateSchema
| OpSeedCourses
| OpAddStudent (name email : string)
| OpFindStudentByEmail (email : string)
| OpRenameStudent (student_id : Z) (new_name : string)
| OpDeleteStudent (student_id : Z)
| OpListEnrollments
| OpEnrollStudent (student_id course_id : Z)
| OpExecute (sql : string) (params : list (value Exercises.real))
| OpCommit
| OpClose.

(** The connection after an operation, whether it returned or raised. *)
Definition perform (op : operation) (c : connection Exercises.database)
  : connection Exercises.database :=
  match op with
  | OpCreateSchema => final (Exercises.create_schema c)
  | OpSeedCourses => final (Exercises.seed_courses c)
  | OpAddStudent name email => final (Exercises.add_student name email c)
  | OpFindStudentByEmail email => final (Exercises.find_student_by_email email c)
  | OpRenameStudent id name => final (Exercises.rename_student id name c)
  | OpDeleteStudent id => final (Exercises.delete_student id c)
  | OpListEnrollments => final (Exercises.list_enrollments c)
  | OpEnrollStudent s k => final (Exercises.enroll_student s k c)
  | OpExecute sql params => final (execute (E := Exercises.engine) sql params c)
  | OpCommit => final (commit (real := Exercises.real) c)
  | OpClose => final (close (real := Exercises.real) c)
  end.

(** The invariant of the foreign keys. *)
Definition references (d : Exercises.database) : Prop := references_ok d = true.






(** An outcome after the events [evs]. *)
Definition after {real S A} (evs : list (event real)) (o : outcome real S A)
  : outcome real S A :=
  Outcome (result o) (final o) (evs ++ emitted o).

(** Two pairs of ids are the same. *)
Definition same_pair (a b : Z * Z) : bool :=
  (fst a =? fst b) && (snd a =? snd b).

(** The PRIMARY KEY and UNIQUE constraints of the schema of exercises.py:
    no two students share an id or an email, no two courses an id or a
    code, no two enrollments an id or a pair of student and course. *)
Definition keys_ok (d : Exercises.database) : bool :=
  distinct Z.eqb (map Exercises.s_id (Exercises.students d))
  && distinct String.eqb (map Exercises.s_email (Exercises.students d))
  && distinct Z.eqb (map Exercises.c_id (Exercises.courses d))
  && distinct String.eqb (map Exercises.c_code (Exercises.courses d))
  && distinct Z.eqb (map Exercises.e_id (Exercises.enrollments d))
  && distinct same_pair
       (map (fun e => (Exercises.e_student_id e, Exercises.e_course_id e))
            (Exercises.enrollments d)).

(** The constraints of the schema: the keys and the foreign keys. *)
Definition constraints (d : Exercises.database) : Prop :=
  keys_ok d = true /\ references_ok d = true.

(** A computation keeps a property of the state, whether it returns or
    raises. *)
Definition preserves {real S A} (Q : S -> Prop) (m : M real S A) : Prop :=
  forall s, Q s -> Q (final (m s)).

(** The connection after a sequence of operations. *)
Definition perform_all (ops : list operation) (c : connection Exercises.database)
  : connection Exercises.database :=
  fold_left (fun c op => perform op c) ops c.

(** The constraints of the schema of homework.py.  The keys: no two
    students share an id or an email, no two assignments an id, no two
    grades an id or a pair of student and assignment. *)
Definition homework_keys_ok (d : Homework.database) : bool :=
  distinct Z.eqb (map Homework.s_id (Homework.students d))
  && distinct String.eqb (map Homework.s_email (Homework.students d))
  && distinct Z.eqb (map Homework.a_id (Homework.assignments d))
  && distinct Z.eqb (map Homework.g_id (Homework.grades d))
  && distinct same_pair
       (map (fun g => (Homework.g_student_id g, Homework.g_assignment_id g))
            (Homework.grades d)).

(** The CHECK constraints: max_points > 0 and score >= 0. *)
Definition homework_checks_ok (d : Homework.database) : bool :=
  forallb (fun a => 0 <? Homework.a_max_points a) (Homework.assignments d)
  && forallb (fun g => 0 <=? Homework.g_score g) (Homework.grades d).

(** The foreign keys: every grade references a student and an assignment
    that exist. *)
Definition homework_references_ok (d : Homework.database) : bool :=
  forallb (fun g =>
             existsb (fun s => Homework.s_id s =? Homework.g_student_id g)
                     (Homework.students d)
             && existsb (fun a => Homework.a_id a =? Homework.g_assignment_id g)
                        (Homework.assignments d))
          (Homework.grades d).

Definition homework_constraints (d : Homework.database) : Prop :=
  homework_keys_ok d = true
  /\ homework_checks_ok d = true
  /\ homework_references_ok d = true.

(** The grades of a student, and whether there are any. *)
Definition grades_of (d : Homework.database) (sid : Z) : list Homework.grade :=
  filter (fun g => Homework.g_student_id g =? sid) (Homework.grades d).

Definition has_grades (d : Homework.database) (s : Homework.student) : bool :=
  match grades_of d (Homework.s_id s) with
  | [] => false
  | _ :: _ => true
  end.

(** A connection on the gradebook [main] of homework.py builds: three
    students, three assignments and seven grades. *)
Definition homework_sample : connection Homework.database :=
  Connection
    (Homework.Database homework_schema
       [ Homework.Student 1 "Rivka" "rivka@example.com";
         Homework.Student 2 "Esther" "esther@example.com";
         Homework.Student 3 "Leah" "leah@example.com" ]
       [ Homework.Assignment 1 "Quiz 1" 10;
         Homework.Assignment 2 "Homework 1" 100;
         Homework.Assignment 3 "Midterm" 200 ]
       [ Homework.Grade 1 1 1 9; Homework.Grade 2 1 2 95;
         Homework.Grade 3 2 1 7; Homework.Grade 4 2 2 88;
         Homework.Grade 5 3 1 10; Homework.Grade 6 3 2 92;
         Homework.Grade 7 3 3 180 ]
       3 3 7)
    None true false (fun _ => "2026-01-01 00:00:00") O.

(** The name of the student with an id. *)
Definition student_name (d : Homework.database) (sid : Z) : string :=
  match find (fun s => Homework.s_id s =? sid) (Homework.students d) with
  | Some s => Homework.s_name s
  | None => ""
  end.

Section Gradebook.
Context {real : Type} {F : Homework.Floats real}.

(** The operations of homework.py on its connection. *)
Inductive homework_operation : Type :=
| HwCreateSchema
| HwAddStudent (name email : string)
| HwAddAssignment (title : string) (max_points : Z)
| HwRecordGrade (student_id assignment_id score : Z)
| HwListStudents
| HwStudentGradeReport (student_id : Z)
| HwLeaderboard
| HwExecute (sql : string) (params : list (value real))
| HwCommit
| HwClose.

Definition homework_perform (op : homework_operation)
           (c : connection Homework.database) : connection Homework.database :=
  match op with
  | HwCreateSchema => final (Homework.create_schema c)
  | HwAddStudent name email => final (Homework.add_student name email c)
  | HwAddAssignment title max_points =>
      final (Homework.add_assignment title max_points c)
  | HwRecordGrade s a score => final (Homework.record_grade s a score c)
  | HwListStudents => final (Homework.list_students c)
  | HwStudentGradeReport s => final (Homework.student_grade_report s c)
  | HwLeaderboard => final (Homework.leaderboard c)
  | HwExecute sql params => final (execute (E := Homework.engine) sql params c)
  | HwCommit => final (commit (real := real) c)
  | HwClose => final (close (real := real) c)
  end.

Definition homework_perform_all (ops : list homework_operation)
           (c : connection Homework.database) : connection Homework.database :=
  fold_left (fun c op => homework_perform op c) ops c.

(** The percent of a grade: of its score in the points of its assignment. *)
Definition grade_percent (d : Homework.database) (g : Homework.grade) : real :=
  match find (fun a => Homework.a_id a =? Homework.g_assignment_id g)
             (Homework.assignments d) with
  | Some a =>
      Homework.real_mul
        (Homework.real_div
           (Homework.real_mul Homework.real_one
                              (Homework.real_of_int (Homework.g_score g)))
           (Homework.real_of_int (Homework.a_max_points a)))
        (Homework.real_of_int 100)
  | None => Homework.real_one
  end.

(** The line of a student on the leaderboard: the name, and the average,
    rounded to one decimal, of the percents of the grades of the student. *)
Definition board_line (d : Homework.database) (s : Homework.student)
  : string * value real :=
  (Homework.s_name s,
   VReal (Homework.real_round
            (Homework.real_avg (map (grade_percent d) (grades_of d (Homework.s_id s))))
            1)).


End Gradebook.

End Spec.

(* ================================================================== *)
(** ** Facts about the monad and the connection *)

Import Sqlite3.
Local Open Scope py_scope.

Unset Implicit Arguments.

#[local] Existing Instance Exercises.engine.
#[local] Existing Instance Homework.engine.

Section MonadFacts.
Context {real : Type}.


Lemma result_bind {S A B} (m : M real S A) (k : A -> M real S B) (s : S) :
  result (bind m k s)
  = match result (m s) with
    | inl e => inl e
    | inr a => result (k a (final (m s)))
    end.
Proof. unfold bind. destruct (result (m s)); reflexivity. Qed.

Lemma final_bind {S A B} (m : M real S A) (k : A -> M real S B) (s : S) :
  final (bind m k s)
  = match result (m s) with
    | inl e => final (m s)
    | inr a => final (k a (final (m s)))
    end.
Proof. unfold bind. destruct (result (m s)); reflexivity. Qed.


Context {database stmt : Type} {E : Engine real database stmt}.



End MonadFacts.

(* ================================================================== *)
(** ** The statements each operation runs *)

Ltac open_connection c :=
  let cat := fresh "cat" in
  destruct c as [[cat ? ? ? ? ? ?] ? ? ? ? ?]; simpl in *;
  intros; subst.






(* ================================================================== *)
(** ** The schemas *)

(** C3: on a database with no table, [create_schema] of exercises.py
    leaves exactly the tables students, courses and enrollments, and
    [create_schema] of homework.py exactly students, assignments and
    grades; the linking table (enrollments, grades) has foreign keys on
    its two id columns, into the primary keys of the two other tables, and
    declares the pair UNIQUE; every column holds one INTEGER or one
    TEXT. *)
Theorem create_schema_tables :
  (forall c : connection Exercises.database,
      closed c = false ->
      Exercises.catalog (db c) = [] ->
      let o := Exercises.create_schema c in
      let cat := Exercises.catalog (db (final o)) in
      result o = inr tt
      /\ cat = [Exercises.students_table; Exercises.courses_table;
                Exercises.enrollments_table]
      /\ map table_name cat = ["students"; "courses"; "enrollments"]
      /\ Spec.links cat Exercises.enrollments_table
                    "student_id" "students" "course_id" "courses" = true
      /\ Spec.all_scalar cat = true)
  /\ (forall real (F : Homework.Floats real) (c : connection Homework.database),
      closed c = false ->
      Homework.catalog (db c) = [] ->
      let o := Homework.create_schema c in
      let cat := Homework.catalog (db (final o)) in
      result o = inr tt
      /\ cat = [Homework.students_table; Homework.assignments_table;
                Homework.grades_table]
      /\ map table_name cat = ["students"; "assignments"; "grades"]
      /\ Spec.links cat Homework.grades_table
                    "student_id" "students" "assignment_id" "assignments" = true
      /\ Spec.all_scalar cat = true).
Proof.
  split.
  - intros c. open_connection c. vm_compute. repeat split.
  - intros real F c. open_connection c. vm_compute. repeat split.
Qed.

Lemma create_schema_tables_witness :
  map table_name (Exercises.catalog
                    (db (final (Exercises.create_schema Spec.exercises_new))))
  = ["students"; "courses"; "enrollments"]
  /\ map table_name (Homework.catalog
                       (db (final (Homework.create_schema (F := Spec.one_real)
                                                          Spec.homework_new))))
     = ["students"; "assignments"; "grades"].
Proof.
  destruct create_schema_tables as (HE & HH).
  split.
  - apply (HE Spec.exercises_new eq_refl eq_refl).
  - apply (HH unit Spec.one_real Spec.homework_new eq_refl eq_refl).
Defined.

(* ================================================================== *)
(** ** The report printer *)

Section PrintRows.
Context {real : Type} (str_real : real -> string).









Lemma for_each_print {S A} (l : list A) (f : A -> option (list string))
      (g : A -> list string) (sep : string) (s : S) :
  (forall x, In x l -> f x = Some (g x)) ->
  for_each l (fun x => y <- or_raise IndexError (f x) ;;
                      print (real := real) [OStr (Py.join sep y)]) s
  = Outcome (inr tt) s (map (fun x => Print [OStr (Py.join sep (g x))]) l).
Proof.
  induction l as [|x l IH]; intros H; [reflexivity|].
  cbn [for_each map]. unfold bind at 1.
  replace ((y <- or_raise IndexError (f x);; print [OStr (Py.join sep y)]) s)
    with (Outcome (real := real) (inr tt) s [Print [OStr (Py.join sep (g x))]]).
  - cbn [result final emitted]. rewrite IH by (intros; apply H; simpl; auto).
    reflexivity.
  - rewrite (H x) by (simpl; auto). reflexivity.
Qed.

End PrintRows.

Section PrintRowsReport.
Context {real : Type} (str_real : real -> string).







End PrintRowsReport.



(* ================================================================== *)
(** ** Lookups *)

Lemma filter_nothing {A} (p : A -> bool) (l : list A) :
  (forall x, In x l -> p x = false) -> filter p l = [].
Proof.
  induction l as [|x l IH]; intros H; simpl; auto.
  rewrite (H x) by (simpl; auto). apply IH. intros; apply H; simpl; auto.
Qed.

(** In a list whose keys are distinct, the filter on a key keeps the one
    element that has it. *)
Lemma filter_key {A K} (eqb : K -> K -> bool) (key : A -> K) (l : list A) (x : A) :
  (forall a b, eqb a b = true <-> a = b) ->
  Spec.distinct eqb (map key l) = true ->
  In x l ->
  filter (fun y => eqb (key y) (key x)) l = [x].
Proof.
  intros Heq. induction l as [|y l IH]; simpl; [tauto|].
  intros Hd Hin. apply andb_true_iff in Hd. destruct Hd as [Hy Hd].
  apply negb_true_iff in Hy.
  assert (Hn : forall z, In z l -> eqb (key y) (key z) = false).
  { intros z Hz. destruct (eqb (key y) (key z)) eqn:E; auto.
    rewrite <- Hy. symmetry. apply existsb_exists. exists (key z).
    split; [now apply in_map | assumption]. }
  destruct Hin as [->|Hin].
  - rewrite (proj2 (Heq _ _) eq_refl). f_equal.
    apply filter_nothing. intros z Hz.
    destruct (eqb (key z) (key x)) eqn:E; auto.
    apply Heq in E. specialize (Hn z Hz). rewrite E in Hn.
    rewrite (proj2 (Heq _ _) eq_refl) in Hn. discriminate.
  - rewrite (Hn x Hin). now apply IH.
Qed.

Lemma compile_find_student (d : Exercises.database) :
  has_table (Exercises.catalog d) "students" = true ->
  compile d "SELECT id, name, email FROM students WHERE email = ?;"
  = Some (Statement Exercises.SelectStudentByEmail).
Proof.
  intros H. unfold compile.
  cbv -[has_table Exercises.catalog]. rewrite H. reflexivity.
Qed.

Section ExecuteFacts.
Context {real database stmt : Type} {E : Engine real database stmt}.

(** What [execute] does once the statement is prepared and its parameters
    are bound. *)
Lemma execute_statement (s : stmt) (sql : string) (params vs : list (value real))
      (c : connection database) :
  closed c = false ->
  compile (db c) sql = Some (Statement s) ->
  List.length params = count_placeholders sql ->
  bind_parameters params = inr vs ->
  execute sql params c
  = let c1 := implicit_begin (Statement s) c in
    match engine_step (Env (foreign_keys c1) (clock c1 (ticks c1))) s vs (db c1) with
    | inl e => Outcome (inl e) (tick c1) [Exec sql vs]
    | inr (cur, d') => Outcome (inr cur) (tick (set_db d' c1)) [Exec sql vs]
    end.
Proof.
  intros Hc Hp Hn Hb. unfold execute, bind_and_run. rewrite Hc, Hp, Hn, Nat.eqb_refl, Hb.
  cbn [negb run]. cbv zeta.
  destruct (engine_step _ s vs _) as [e|[cur d']]; reflexivity.
Qed.
End ExecuteFacts.

Lemma distinct_key {A K} (eqb : K -> K -> bool) (key : A -> K) (l : list A) (x y : A) :
  (forall a b, eqb a b = true <-> a = b) ->
  Spec.distinct eqb (map key l) = true ->
  In x l -> In y l -> key x = key y -> x = y.
Proof.
  intros Heq Hd Hx Hy Hk.
  pose proof (filter_key eqb key l x Heq Hd Hx) as Fx.
  assert (Hin : In y (filter (fun z => eqb (key z) (key x)) l)).
  { apply filter_In. split; auto. apply Heq. auto. }
  rewrite Fx in Hin. destruct Hin as [->|[]]. reflexivity.
Qed.

(** C8: on a database whose students have distinct emails, as the UNIQUE
    constraint of the schema keeps them, [find_student_by_email] returns
    [None] when no student has the email, and otherwise the row, with its
    fields id, name and email, of the one student who has it; the database
    is not changed. *)
Theorem find_student_by_email_result (c : connection Exercises.database)
        (email : string) :
  closed c = false ->
  has_table (Exercises.catalog (db c)) "students" = true ->
  Spec.distinct String.eqb (map Exercises.s_email (Exercises.students (db c))) = true ->
  let o := Exercises.find_student_by_email email c in
  db (final o) = db c
  /\ ((forall s, In s (Exercises.students (db c)) -> Exercises.s_email s <> email) ->
      result o = inr None)
  /\ (forall s, In s (Exercises.students (db c)) -> Exercises.s_email s = email ->
      result o = inr (Some [ ("id", VInt (Exercises.s_id s));
                             ("name", VText (Exercises.s_name s));
                             ("email", VText email) ])
      /\ forall s', In s' (Exercises.students (db c)) ->
                    Exercises.s_email s' = email -> s' = s).
Proof.
  intros Hc Ht Hd o. subst o. unfold Exercises.find_student_by_email.
  rewrite final_bind, result_bind.
  rewrite (execute_statement Exercises.SelectStudentByEmail _
             [VText email] [VText email] c Hc
             (compile_find_student _ Ht) eq_refl eq_refl).
  cbn. repeat split.
  - intros Hno. unfold fetchone, Exercises.select_student_by_email. cbn.
    rewrite filter_nothing; [reflexivity|].
    intros s Hs. apply String.eqb_neq. now apply Hno.
  - unfold fetchone, Exercises.select_student_by_email. cbn. subst email.
    rewrite (filter_key String.eqb Exercises.s_email _ s String.eqb_eq Hd H).
    reflexivity.
  - intros s' Hs' He.
    apply (distinct_key String.eqb Exercises.s_email _ s' s String.eqb_eq Hd Hs' H).
    congruence.
Qed.

Lemma find_student_by_email_result_witness :
  result (Exercises.find_student_by_email "rena@example.com" Spec.exercises_sample)
  = inr (Some [ ("id", VInt 2); ("name", VText "Rena");
                ("email", VText "rena@example.com") ])
  /\ result (Exercises.find_student_by_email "leah@example.com" Spec.exercises_sample)
     = inr None.
Proof.
  split.
  - destruct (find_student_by_email_result Spec.exercises_sample "rena@example.com"
                eq_refl eq_refl eq_refl) as (_ & _ & H).
    apply (H (Exercises.Student 2 "Rena" "rena@example.com")).
    + right; left; reflexivity.
    + reflexivity.
  - destruct (find_student_by_email_result Spec.exercises_sample "leah@example.com"
                eq_refl eq_refl eq_refl) as (_ & H & _).
    apply H. intros s [<-|[<-|[]]]; discriminate.
Defined.

(* ================================================================== *)
(** ** ORDER BY *)

Section SortFacts.
Context {A : Type} (leb : A -> A -> bool).

Lemma insert_perm (x : A) (l : list A) : Permutation (insert leb x l) (x :: l).
Proof.
  induction l as [|y l IH]; simpl; auto.
  destruct (leb x y); auto.
  rewrite IH. apply perm_swap.
Qed.

Lemma sort_by_perm (l : list A) : Permutation (sort_by leb l) l.
Proof.
  induction l as [|x l IH]; simpl; auto.
  rewrite insert_perm. auto.
Qed.

Hypothesis leb_total : forall a b, leb a b = false -> leb b a = true.

Lemma insert_sorted (x : A) (l : list A) :
  Sorted (fun a b => leb a b = true) l ->
  Sorted (fun a b => leb a b = true) (insert leb x l).
Proof.
  induction 1 as [|y l Hs IH Hd]; simpl.
  - repeat constructor.
  - destruct (leb x y) eqn:E.
    + repeat constructor; auto.
    + constructor; auto.
      destruct Hd as [|z l Hz]; simpl.
      * repeat constructor. auto.
      * destruct (leb x z); constructor; auto.
  Qed.

Lemma sort_by_sorted (l : list A) :
  Sorted (fun a b => leb a b = true) (sort_by leb l).
Proof.
  induction l as [|x l IH]; simpl; [constructor|].
  now apply insert_sorted.
Qed.

End SortFacts.

Lemma ltb_lt (a b : string) : (a <? b)%string = true <-> String_as_OT.lt a b.
Proof.
  unfold String.ltb. rewrite <- String_as_OT.cmp_lt. unfold String_as_OT.cmp.
  destruct (a ?= b)%string; split; congruence.
Qed.

Lemma leb_le (a b : string) : (a <=? b)%string = true <-> Spec.text_le a b.
Proof.
  unfold String.leb, Spec.text_le.
  rewrite <- String_as_OT.cmp_lt, <- String_as_OT.cmp_eq. unfold String_as_OT.cmp.
  destruct (a ?= b)%string; split; auto; try congruence.
  intros [H|H]; discriminate.
Qed.

Lemma by_name_code_le (a b : string * string * string) :
  Exercises.by_name_code a b = true <-> Spec.name_code_le a b.
Proof.
  destruct a as [[n1 c1] t1], b as [[n2 c2] t2]. unfold Exercises.by_name_code, Spec.name_code_le.
  rewrite orb_true_iff, andb_true_iff, ltb_lt, leb_le, String.eqb_eq. tauto.
Qed.

Lemma text_total (a b : string) : String_as_OT.lt a b \/ a = b \/ String_as_OT.lt b a.
Proof.
  destruct (String_as_OT.compare a b); auto.
Qed.

Lemma by_name_code_total (a b : string * string * string) :
  Exercises.by_name_code a b = false -> Exercises.by_name_code b a = true.
Proof.
  intros H. apply by_name_code_le.
  assert (N : ~ Spec.name_code_le a b).
  { rewrite <- by_name_code_le. congruence. }
  destruct a as [[n1 c1] t1], b as [[n2 c2] t2]. unfold Spec.name_code_le, Spec.text_le in *.
  destruct (text_total n1 n2) as [L|[E|L]]; [tauto | | auto].
  subst. destruct (text_total c1 c2) as [L|[E|L]]; [tauto | tauto | auto].
Qed.

Lemma name_code_le_trans (a b c : string * string * string) :
  Spec.name_code_le a b -> Spec.name_code_le b c -> Spec.name_code_le a c.
Proof.
  destruct a as [[n1 c1] t1], b as [[n2 c2] t2], c as [[n3 c3] t3].
  unfold Spec.name_code_le, Spec.text_le.
  intros [L1|[E1 [L1|L1]]] [L2|[E2 [L2|L2]]]; subst; auto.
  - left. eapply String_as_OT.lt_trans; eauto.
  - right. split; auto. left. eapply String_as_OT.lt_trans; eauto.
Qed.

Lemma sort_by_name_code (l : list (string * string * string)) :
  StronglySorted Spec.name_code_le (sort_by Exercises.by_name_code l).
Proof.
  apply Sorted_StronglySorted.
  - intros a b c. apply name_code_le_trans.
  - pose proof (sort_by_sorted Exercises.by_name_code by_name_code_total l) as H.
    induction H as [|x r Hs IH Hd]; constructor; auto.
    destruct Hd; constructor. now apply by_name_code_le.
Qed.

(* ================================================================== *)
(** ** The join of [list_enrollments] *)

Lemma Z_eqb_iff (a b : Z) : (a =? b) = true <-> a = b.
Proof. apply Z.eqb_eq. Qed.

Lemma find_first {A} (p : A -> bool) (l : list A) (x : A) :
  filter p l = [x] -> find p l = Some x.
Proof.
  induction l as [|y l IH]; simpl; [discriminate|].
  destruct (p y); [intros [= ->]; reflexivity | auto].
Qed.

Lemma exists_key {A} (key : A -> Z) (k : Z) (l : list A) :
  existsb (fun x => key x =? k) l = true -> exists x, In x l /\ key x = k.
Proof.
  intros H. apply existsb_exists in H. destruct H as (x & Hx & E).
  exists x. split; auto. now apply Z.eqb_eq.
Qed.

Lemma filter_id {A} (key : A -> Z) (l : list A) (x : A) :
  Spec.distinct Z.eqb (map key l) = true ->
  In x l ->
  filter (fun y => key y =? key x) l = [x].
Proof. apply (filter_key Z.eqb key l x Z_eqb_iff). Qed.

Lemma flat_map_one {A B} (g : A -> list B) (f : A -> B) (l : list A) :
  (forall x, In x l -> g x = [f x]) -> flat_map g l = map f l.
Proof.
  induction l as [|x l IH]; intros H; simpl; auto.
  rewrite (H x) by (simpl; auto). rewrite IH by (intros; apply H; simpl; auto).
  reflexivity.
Qed.


Lemma compile_list_enrollments (d : Exercises.database) :
  Exercises.catalog d = Spec.exercises_schema ->
  compile d "
        SELECT
            s.name AS student_name,
            c.code AS course_code,
            c.title AS course_title
        FROM enrollments e
                 JOIN students s ON s.id = e.student_id
                 JOIN courses  c ON c.id = e.course_id
        ORDER BY student_name, course_code;
        "
  = Some (Statement Exercises.SelectEnrollments).
Proof.
  intros H. unfold compile.
  cbv -[Exercises.catalog]. rewrite H. reflexivity.
Qed.



(* ================================================================== *)
(** ** Transactions *)

Section CallFacts.
Context {real database stmt : Type} {E : Engine real database stmt}.




End CallFacts.

Lemma max_id_app (ids : list Z) (i : Z) :
  max_id (ids ++ [i]) = Z.max (max_id ids) (Z.max i 0).
Proof.
  unfold max_id. induction ids as [|x ids IH]; simpl.
  - lia.
  - rewrite IH. lia.
Qed.

Lemma max_id_nonneg (ids : list Z) : 0 <= max_id ids.
Proof. unfold max_id. induction ids; simpl; lia. Qed.

Lemma next_rowid_some (seq : Z) (ids : list Z) :
  Z.max seq (max_id ids) < 2 ^ 63 - 1 ->
  next_rowid seq ids = Some (Z.max seq (max_id ids) + 1).
Proof.
  intros H. unfold next_rowid. cbv zeta.
  destruct (Z.ltb_spec (Z.max seq (max_id ids)) (2 ^ 63 - 1)); [reflexivity | lia].
Qed.

Lemma next_rowid_inv (seq : Z) (ids : list Z) (i : Z) :
  next_rowid seq ids = Some i ->
  i = Z.max seq (max_id ids) + 1 /\ Z.max seq (max_id ids) < 2 ^ 63 - 1.
Proof.
  unfold next_rowid. cbv zeta.
  destruct (Z.ltb_spec (Z.max seq (max_id ids)) (2 ^ 63 - 1)); [|discriminate].
  intros [= <-]. auto.
Qed.

(** How an INSERT into enrollments ends. *)
Lemma insert_enrollment_cases (e : env) (s k : Z) (d : Exercises.database) :
  match Exercises.insert_enrollment e s k d with
  | inl x =>
      x = IntegrityError
      \/ (x = OperationalError
          /\ next_rowid (Exercises.seq_enrollments d)
                        (map Exercises.e_id (Exercises.enrollments d)) = None)
  | inr (cur, d') =>
      exists i,
        next_rowid (Exercises.seq_enrollments d)
                   (map Exercises.e_id (Exercises.enrollments d)) = Some i
        /\ d' = Exercises.Database
                  (Exercises.catalog d) (Exercises.students d) (Exercises.courses d)
                  (Exercises.enrollments d ++ [Exercises.Enrollment i s k (env_now e)])
                  (Exercises.seq_students d) (Exercises.seq_courses d) i
  end.
Proof.
  unfold Exercises.insert_enrollment.
  destruct (next_rowid _ _) as [i|]; [|auto].
  destruct (existsb _ _); [auto|].
  destruct (env_foreign_keys e && _); [auto|].
  exists i. auto.
Qed.

(** The same pair a second time: the UNIQUE constraint fails, as long as a
    rowid is left. *)
Lemma insert_enrollment_again (e e' : env) (s k : Z) (d d' : Exercises.database)
      (cur : cursor Exercises.real) :
  Exercises.insert_enrollment e s k d = inr (cur, d') ->
  Z.max (Exercises.seq_enrollments d)
        (max_id (map Exercises.e_id (Exercises.enrollments d))) < 2 ^ 63 - 2 ->
  Exercises.insert_enrollment e' s k d' = inl IntegrityError.
Proof.
  intros H Hroom.
  pose proof (insert_enrollment_cases e s k d) as C. rewrite H in C.
  destruct C as (i & Hi & ->). apply next_rowid_inv in Hi. destruct Hi as [Hi _].
  unfold Exercises.insert_enrollment. cbn.
  rewrite map_app, next_rowid_some.
  - rewrite existsb_app. cbn. rewrite !Z.eqb_refl. cbn.
    rewrite orb_true_r. reflexivity.
  - cbn [map Exercises.e_id]. rewrite max_id_app.
    pose proof (max_id_nonneg (map Exercises.e_id (Exercises.enrollments d))). lia.
Qed.

Lemma compile_enroll (d : Exercises.database) :
  Exercises.catalog d = Spec.exercises_schema ->
  compile d "INSERT INTO enrollments (student_id, course_id) VALUES (?, ?);"
  = Some (Statement Exercises.InsertEnrollment).
Proof.
  intros H. unfold compile. cbv -[Exercises.catalog]. rewrite H. reflexivity.
Qed.



Section Rollback.
Variables (p : process Exercises.database) (s k : Z).
Hypothesis no_fault : faults p = [].
Hypothesis is_open : closed (conn p) = false.
Hypothesis no_txn : txn (conn p) = None.
Hypothesis schema : Exercises.catalog (db (conn p)) = Spec.exercises_schema.
Hypothesis s_ok : int64 s = true.
Hypothesis k_ok : int64 k = true.



End Rollback.

Lemma list_enrollments_result (c : connection Exercises.database) :
  closed c = false ->
  Exercises.catalog (db c) = Spec.exercises_schema ->
  result (Exercises.list_enrollments c) = inr (Exercises.select_enrollments (db c)).
Proof.
  intros Hc Hcat. unfold Exercises.list_enrollments. rewrite result_bind.
  rewrite (execute_statement Exercises.SelectEnrollments _ [] [] c Hc
             (compile_list_enrollments _ Hcat) eq_refl eq_refl).
  reflexivity.
Qed.

(** [enroll_student], in or out of a transaction. *)
Lemma enroll_student_outcome (c : connection Exercises.database) (s k : Z) :
  closed c = false ->
  Exercises.catalog (db c) = Spec.exercises_schema ->
  int64 s = true -> int64 k = true ->
  let c' := implicit_begin (Statement Exercises.InsertEnrollment) c in
  Exercises.enroll_student s k c
  = match Exercises.insert_enrollment (Env (foreign_keys c) (clock c (ticks c)))
                                      s k (db c) with
    | inl e => Outcome (inl e) (tick c') [Exec Spec.enroll_sql [VInt s; VInt k]]
    | inr (cur, d') =>
        Outcome (inr tt) (tick (set_db d' c')) [Exec Spec.enroll_sql [VInt s; VInt k]]
    end.
Proof.
  intros Hc Hcat Hs Hk c'. unfold Exercises.enroll_student, bind.
  rewrite (execute_statement Exercises.InsertEnrollment _
             [VInt s; VInt k] [VInt s; VInt k] c Hc (compile_enroll _ Hcat) eq_refl).
  2:{ cbn. rewrite Hs, Hk. reflexivity. }
  cbv zeta. fold c'.
  replace (foreign_keys c') with (foreign_keys c)
    by (unfold c', implicit_begin; destruct (_ && _); reflexivity).
  replace (clock c' (ticks c')) with (clock c (ticks c))
    by (unfold c', implicit_begin; destruct (_ && _); reflexivity).
  replace (db c') with (db c)
    by (unfold c', implicit_begin; destruct (_ && _); reflexivity).
  cbn [engine_step Exercises.engine Exercises.step].
  destruct (Exercises.insert_enrollment _ s k (db c)) as [e|[cur d']]; cbn;
    reflexivity.
Qed.



(* ================================================================== *)
(** ** Invariants of a connection *)

Section Invariant.
Context {real database stmt : Type} {E : Engine real database stmt}.

(** [P] is a property of the database that every statement keeps while
    foreign keys are enforced. *)
Variable P : database -> Prop.
Hypothesis step_keeps :
  forall now s vs d cur d',
    P d -> engine_step (Env true now) s vs d = inr (cur, d') -> P d'.

#[local] Abbreviation kept := (Spec.kept P).

Lemma kept_implicit_begin (cmd : command stmt) (c : connection database) :
  kept c -> kept (implicit_begin cmd c).
Proof.
  intros (F & D & T). unfold implicit_begin.
  destruct (command_is_dml cmd && negb (in_transaction c)); [|repeat split; auto].
  repeat split; auto. cbn. intros d0 Hd0; inversion Hd0; subst; exact D.
Qed.

Lemma kept_run (cmd : command stmt) (vs : list (value real)) (c : connection database) :
  kept c -> kept (snd (run cmd vs c)).
Proof.
  intros (F & D & T).
  assert (K : kept (tick c)) by (repeat split; auto).
  destruct cmd; cbn [run].
  - destruct (txn c) eqn:X; cbn [snd]; [exact K|].
    repeat split; auto. cbn. intros d0 Hd0; inversion Hd0; subst; exact D.
  - destruct (txn c) eqn:X; cbn [snd]; [|exact K].
    repeat split; auto. cbn. discriminate.
  - destruct (txn c) as [d|] eqn:X; cbn [snd]; [|exact K].
    repeat split; auto; cbn; try discriminate; try (apply T; reflexivity).
  - destruct (in_transaction c); cbn [snd]; [exact K|].
    repeat split; auto.
  - rewrite F.
    destruct (engine_step _ s vs (db c)) as [e|[cur d']] eqn:X; cbn [snd];
      [exact K|].
    repeat split; eauto.
Qed.

Lemma kept_bind_and_run (cmd : command stmt) sql params (c : connection database) :
  kept c -> kept (final (bind_and_run cmd sql params c)).
Proof.
  intros K. unfold bind_and_run.
  destruct (negb _); [exact K|].
  destruct (bind_parameters params); [exact K|].
  pose proof (kept_run cmd l c K) as R.
  destruct (run cmd l c). exact R.
Qed.

Lemma kept_execute sql params (c : connection database) :
  kept c -> kept (final (execute sql params c)).
Proof.
  intros K. unfold execute.
  destruct (closed c); [exact K|].
  destruct (compile (db c) sql); [|exact K].
  apply kept_bind_and_run, kept_implicit_begin, K.
Qed.

Lemma kept_bind {A B} (m : M real (connection database) A)
      (k : A -> M real (connection database) B) (c : connection database) :
  (forall c, kept c -> kept (final (m c))) ->
  (forall a c, kept c -> kept (final (k a c))) ->
  kept c -> kept (final (bind m k c)).
Proof.
  intros Hm Hk K. rewrite final_bind.
  destruct (result (m c)); auto.
Qed.

Lemma kept_for_each {A} (l : list A) (body : A -> M real (connection database) unit)
      (c : connection database) :
  (forall x c, kept c -> kept (final (body x c))) ->
  kept c -> kept (final (for_each l body c)).
Proof.
  intros Hb. revert c. induction l as [|x l IH]; intros c K; cbn [for_each].
  - exact K.
  - apply kept_bind; auto.
Qed.

Lemma kept_executemany sql seq (c : connection database) :
  kept c -> kept (final (executemany sql seq c)).
Proof.
  intros K. unfold executemany.
  destruct (closed c); [exact K|].
  destruct (compile (db c) sql) as [cmd|]; [|exact K].
  destruct (command_is_dml cmd); [|exact K].
  apply kept_for_each; [|apply kept_implicit_begin, K].
  intros ps c' K'. apply kept_bind; auto.
  intros c''. apply kept_bind_and_run.
Qed.

Lemma kept_executescript script (c : connection database) :
  kept c -> kept (final (executescript script c)).
Proof.
  intros K. unfold executescript.
  destruct (closed c); [exact K|].
  apply kept_for_each.
  - intros text c' K'. unfold run_text.
    destruct (compile (db c') text) as [cmd|]; [|exact K'].
    pose proof (kept_run cmd [] c' K') as R.
    destruct (run cmd [] c'). exact R.
  - destruct K as (F & D & T). repeat split; auto. discriminate.
Qed.

Lemma kept_commit (c : connection database) :
  kept c -> kept (final (commit (real := real) c)).
Proof.
  intros K. unfold commit. destruct (closed c); [exact K|].
  destruct K as (F & D & T). repeat split; auto. discriminate.
Qed.

Lemma kept_close (c : connection database) :
  kept c -> kept (final (close (real := real) c)).
Proof.
  intros (F & D & T). unfold close. cbn. repeat split; auto; [|discriminate].
  destruct (txn c); auto.
Qed.

End Invariant.

(* ================================================================== *)
(** ** The references of the enrollments *)

Lemma references_ok_iff (d : Exercises.database) :
  Spec.references_ok d = true
  <-> forall e, In e (Exercises.enrollments d) ->
        (exists s, In s (Exercises.students d)
                   /\ Exercises.s_id s = Exercises.e_student_id e)
        /\ (exists c, In c (Exercises.courses d)
                      /\ Exercises.c_id c = Exercises.e_course_id e).
Proof.
  unfold Spec.references_ok. rewrite forallb_forall.
  split; intros H e He; specialize (H e He).
  - apply andb_true_iff in H. destruct H as [H1 H2].
    split; [apply exists_key in H1 | apply exists_key in H2]; assumption.
  - destruct H as [(s & Hs & Es) (c & Hc & Ec)].
    apply andb_true_iff. split; apply existsb_exists;
      [exists s | exists c]; split; auto; now apply Z.eqb_eq.
Qed.

Lemma exists_id (id : Z) (l : list Exercises.student) :
  existsb (fun s => Exercises.s_id s =? id) l = true
  <-> exists s, In s l /\ Exercises.s_id s = id.
Proof.
  rewrite existsb_exists. split; intros (s & Hs & E); exists s; split; auto;
    now apply Z.eqb_eq.
Qed.

Lemma exists_course_id (id : Z) (l : list Exercises.course) :
  existsb (fun c => Exercises.c_id c =? id) l = true
  <-> exists c, In c l /\ Exercises.c_id c = id.
Proof.
  rewrite existsb_exists. split; intros (s & Hs & E); exists s; split; auto;
    now apply Z.eqb_eq.
Qed.

Section KeepsReferences.
Variable d : Exercises.database.
Hypothesis R : Spec.references_ok d = true.

Lemma insert_student_keeps name email cur d' :
  Exercises.insert_student name email d = inr (cur, d') ->
  Spec.references_ok d' = true.
Proof.
  unfold Exercises.insert_student.
  destruct (next_rowid _ _); [|discriminate]. destruct (existsb _ _); [discriminate|].
  intros H. inversion H; subst. rewrite references_ok_iff in *. cbn. intros e He.
  destruct (R e He) as [(x & Hx & Ex) C]. split; auto.
  exists x. split; auto. apply in_or_app; auto.
Qed.

Lemma insert_course_keeps code title cur d' :
  Exercises.insert_course code title d = inr (cur, d') ->
  Spec.references_ok d' = true.
Proof.
  unfold Exercises.insert_course.
  destruct (next_rowid _ _); [|discriminate]. destruct (existsb _ _); [discriminate|].
  intros H. inversion H; subst. rewrite references_ok_iff in *. cbn. intros e He.
  destruct (R e He) as [S (x & Hx & Ex)]. split; auto.
  exists x. split; auto. apply in_or_app; auto.
Qed.

Lemma update_student_name_keeps name id cur d' :
  Exercises.update_student_name name id d = (cur, d') ->
  Spec.references_ok d' = true.
Proof.
  unfold Exercises.update_student_name.
  intros H. inversion H; subst. rewrite references_ok_iff in *. cbn. intros e He.
  destruct (R e He) as [(x & Hx & Ex) C]. split; auto.
  eexists. split; [apply in_map; exact Hx|].
  cbn. destruct (Exercises.s_id x =? id); auto.
Qed.

(** The cascade: an enrollment that stays references a student that stays. *)
Lemma delete_student_row_keeps now id cur d' :
  Exercises.delete_student_row (Env true now) id d = (cur, d') ->
  Spec.references_ok d' = true.
Proof.
  unfold Exercises.delete_student_row. cbv zeta. cbn [env_foreign_keys].
  intros H. inversion H; subst. rewrite references_ok_iff in *. cbn. intros e He.
  assert (K : In e (Exercises.enrollments d) /\ Exercises.e_student_id e <> id).
  { destruct (filter (fun s => Exercises.s_id s =? id) (Exercises.students d))
      as [|h hs] eqn:Hit.
    - split; auto. intros En. destruct (R e He) as [(x & Hx & Ex) _].
      assert (In x []) as [].
      rewrite <- Hit. apply filter_In. split; auto. apply Z.eqb_eq. congruence.
    - apply filter_In in He. destruct He as [He Hn]. split; auto.
      apply negb_true_iff, Z.eqb_neq in Hn. exact Hn. }
  destruct K as [He' Hn]. destruct (R e He') as [(x & Hx & Ex) C]. split; auto.
  exists x. split; auto. apply filter_In. split; auto.
  apply negb_true_iff, Z.eqb_neq. congruence.
Qed.

Lemma insert_enrollment_keeps now sid cid cur d' :
  Exercises.insert_enrollment (Env true now) sid cid d = inr (cur, d') ->
  Spec.references_ok d' = true.
Proof.
  unfold Exercises.insert_enrollment.
  destruct (next_rowid _ _); [|discriminate]. destruct (existsb _ _); [discriminate|].
  cbn [env_foreign_keys andb].
  destruct (existsb (fun s => Exercises.s_id s =? sid) (Exercises.students d)) eqn:Xs;
    [|discriminate].
  destruct (existsb (fun c => Exercises.c_id c =? cid) (Exercises.courses d)) eqn:Xc;
    [|discriminate].
  cbn. intros H. inversion H; subst. rewrite references_ok_iff in *. cbn. intros e He.
  apply in_app_or in He. destruct He as [He|[<-|[]]]; auto.
  cbn. split; [now apply exists_id | now apply exists_course_id].
Qed.

End KeepsReferences.

Lemma inr_inj {A B} (a b : B) : @inr A B a = inr b -> a = b.
Proof. congruence. Qed.

(** Every statement of exercises.py keeps the references, foreign keys
    being enforced. *)
Lemma step_keeps_references (now : string) (s : Exercises.stmt)
      (vs : list (value Exercises.real)) (d : Exercises.database)
      (cur : cursor Exercises.real) (d' : Exercises.database) :
  Spec.references_ok d = true ->
  Exercises.step (Env true now) s vs d = inr (cur, d') ->
  Spec.references_ok d' = true.
Proof.
  intros R H. unfold Exercises.step in H.
  repeat match type of H with
         | match ?x with _ => _ end = inr _ => destruct x; try discriminate H
         end;
    try (injection H as <- <-; exact R);
    try (apply inr_inj in H);
    eauto using insert_student_keeps, insert_course_keeps, update_student_name_keeps,
                delete_student_row_keeps, insert_enrollment_keeps.
Qed.

Lemma filter_all {A} (p : A -> bool) (l : list A) :
  (forall x, In x l -> p x = true) -> filter p l = l.
Proof.
  induction l as [|x l IH]; intros H; simpl; auto.
  rewrite (H x) by (simpl; auto). f_equal. apply IH. intros; apply H; simpl; auto.
Qed.

Lemma compile_delete_student (d : Exercises.database) :
  Exercises.catalog d = Spec.exercises_schema ->
  compile d "DELETE FROM students WHERE id = ?;" = Some (Statement Exercises.DeleteStudent).
Proof.
  intros H. unfold compile. cbv -[Exercises.catalog]. rewrite H. reflexivity.
Qed.

Lemma perform_keeps_references (op : Spec.operation) (c : connection Exercises.database) :
  Spec.kept Spec.references c -> Spec.kept Spec.references (Spec.perform op c).
Proof.
  pose proof (@kept_execute _ _ _ Exercises.engine Spec.references
                            step_keeps_references) as Kx.
  pose proof (@kept_executescript _ _ _ Exercises.engine Spec.references
                                  step_keeps_references) as Ks.
  pose proof (@kept_executemany _ _ _ Exercises.engine Spec.references
                                step_keeps_references) as Km.
  assert (Kr : forall A (a : A) c, Spec.kept Spec.references c ->
                 Spec.kept Spec.references (final (ret (real := Exercises.real) a c)))
    by (intros; assumption).
  intros K. destruct op; cbn [Spec.perform].
  - apply Ks, K.
  - apply Km, K.
  - apply kept_bind; auto.
  - apply kept_bind; auto.
  - apply kept_bind; auto.
  - apply kept_bind; auto.
  - apply kept_bind; auto.
  - apply kept_bind; auto.
  - apply Kx, K.
  - apply kept_commit, K.
  - apply kept_close, K.
Qed.

(** C10: on a connection that enforces foreign keys, [delete_student]
    removes the student with the given id and every enrollment that
    references it, leaves the courses alone, and returns the number of
    students deleted, 1 when the id existed and 0 when it did not.  Every
    operation of the script keeps the invariant that each enrollment
    references a student and a course that exist, on the database the
    connection sees and on the one a ROLLBACK would restore. *)
Theorem delete_student_cascades :
  (forall (c : connection Exercises.database) (id : Z),
      closed c = false ->
      foreign_keys c = true ->
      Exercises.catalog (db c) = Spec.exercises_schema ->
      int64 id = true ->
      Spec.distinct Z.eqb (map Exercises.s_id (Exercises.students (db c))) = true ->
      Spec.references_ok (db c) = true ->
      let o := Exercises.delete_student id c in
      let d := db c in
      let d' := db (final o) in
      result o = inr (if existsb (fun s => Exercises.s_id s =? id) (Exercises.students d)
                      then 1 else 0)
      /\ Exercises.students d'
         = filter (fun s => negb (Exercises.s_id s =? id)) (Exercises.students d)
      /\ Exercises.enrollments d'
         = filter (fun e => negb (Exercises.e_student_id e =? id))
                  (Exercises.enrollments d)
      /\ Exercises.courses d' = Exercises.courses d)
  /\ (forall (op : Spec.operation) (c : connection Exercises.database),
         Spec.kept Spec.references c -> Spec.kept Spec.references (Spec.perform op c)).
Proof.
  split; [|exact perform_keeps_references].
  intros c id Hc Hf Hcat Hid Hd Hr. cbv zeta.
  unfold Exercises.delete_student. rewrite result_bind, final_bind.
  rewrite (execute_statement Exercises.DeleteStudent _ [VInt id] [VInt id] c Hc
             (compile_delete_student _ Hcat) eq_refl).
  2:{ cbn. rewrite Hid. reflexivity. }
  cbv zeta.
  replace (foreign_keys (implicit_begin _ c)) with true
    by (unfold implicit_begin; destruct (_ && _); cbn; congruence).
  replace (db (implicit_begin (Statement Exercises.DeleteStudent) c)) with (db c)
    by (unfold implicit_begin; destruct (_ && _); reflexivity).
  cbn -[filter].
  destruct (existsb (fun s => Exercises.s_id s =? id) (Exercises.students (db c))) eqn:X.
  - apply exists_id in X. destruct X as (s & Hs & <-).
    rewrite (filter_id Exercises.s_id _ s Hd Hs). cbn. auto.
  - assert (N : forall s, In s (Exercises.students (db c)) ->
                          (Exercises.s_id s =? id) = false).
    { intros s Hs. destruct (Exercises.s_id s =? id) eqn:Y; auto.
      rewrite <- X. symmetry. apply existsb_exists. eauto. }
    rewrite (filter_nothing _ _ N). cbn. repeat split; auto.
    symmetry. apply filter_all. intros e He.
    destruct (proj1 (references_ok_iff _) Hr e He) as [(s & Hs & Es) _].
    rewrite <- Es, (N s Hs). reflexivity.
Qed.

Lemma delete_student_cascades_witness :
  result (Exercises.delete_student 1 Spec.exercises_sample) = inr 1
  /\ Exercises.enrollments (db (final (Exercises.delete_student 1 Spec.exercises_sample)))
     = []
  /\ Spec.kept Spec.references (Spec.perform (Spec.OpDeleteStudent 1) Spec.exercises_sample).
Proof.
  destruct delete_student_cascades as (A & B).
  destruct (A Spec.exercises_sample 1 eq_refl eq_refl eq_refl eq_refl eq_refl eq_refl)
    as (R & _ & En & _).
  split; [exact R|]. split; [exact En|].
  apply B. repeat split. discriminate.
Defined.

(* ================================================================== *)
(** ** The order of [main] *)



Section Finally.
Context {real database stmt : Type} {E : Engine real database stmt}.

(** Whatever the body does, [finally: conn.close()] closes the
    connection, and that is the last thing that happens. *)
Lemma try_finally_closes {A} (body : M real (process database) A)
      (p : process database) :
  let o := try_finally body (on_conn close) p in
  closed (conn (final o)) = true
  /\ emitted o = (emitted (body p) ++ [Close])%list
  /\ result o = result (body p).
Proof. cbv zeta. unfold try_finally, on_conn, close. cbn. auto. Qed.

End Finally.

Lemma exercises_connect (disk : option Exercises.database) (clk : nat -> string) :
  Exercises.connect (Exercises.reset_db disk) clk
  = Outcome (inr tt)
            (Connection Exercises.fresh None true false clk 1%nat)
            [Connect; Exec "PRAGMA foreign_keys = ON;" []].
Proof. destruct disk; reflexivity. Qed.

Lemma homework_connect real (F : Homework.Floats real)
      (disk : option Homework.database) (clk : nat -> string) :
  Homework.connect (Homework.reset_db disk) clk
  = Outcome (inr tt)
            (Connection Homework.fresh None true false clk 1%nat)
            [Connect; Exec "PRAGMA foreign_keys = ON;" []].
Proof. destruct disk; reflexivity. Qed.


Section MainShape.
Context {real database stmt : Type} {E : Engine real database stmt}.


End MainShape.

Lemma exercises_main_eq disk clk fs :
  Exercises.main (Exercises.World disk clk fs)
  = Spec.after [Connect; Exec "PRAGMA foreign_keys = ON;" []]
      (try_finally Exercises.main_body (on_conn close)
         (Process (Connection Exercises.fresh None true false clk 1%nat) fs)).
Proof.
  unfold Exercises.main.
  cbn [Exercises.disk Exercises.wall_clock Exercises.failures].
  rewrite exercises_connect. reflexivity.
Qed.

Lemma homework_main_eq real (F : Homework.Floats real) disk clk fs :
  Homework.main (Homework.World disk clk fs)
  = Spec.after [Connect; Exec "PRAGMA foreign_keys = ON;" []]
      (try_finally Homework.main_body (on_conn close)
         (Process (Connection Homework.fresh None true false clk 1%nat) fs)).
Proof.
  unfold Homework.main.
  cbn [Homework.disk Homework.wall_clock Homework.failures].
  rewrite homework_connect. reflexivity.
Qed.



(* ================================================================== *)
(** ** Lists without repetition *)

Section Distinct.
Context {A : Type} (eqb : A -> A -> bool).
Hypothesis eqb_eq : forall a b, eqb a b = true <-> a = b.

Lemma distinct_NoDup (l : list A) : Spec.distinct eqb l = true <-> NoDup l.
Proof.
  induction l as [|x l IH]; simpl.
  - split; auto using NoDup_nil.
  - rewrite andb_true_iff, negb_true_iff, IH. split.
    + intros [N D]. constructor; auto. intros Hin.
      assert (existsb (eqb x) l = true)
        by (apply existsb_exists; exists x; split; auto; now apply eqb_eq).
      congruence.
    + intros H. inversion H as [|? ? N D]; subst. split; auto.
      destruct (existsb (eqb x) l) eqn:X; auto.
      apply existsb_exists in X. destruct X as (y & Hy & E).
      apply eqb_eq in E. subst y. contradiction.
Qed.

Lemma NoDup_map_filter {B} (key : B -> A) (p : B -> bool) (l : list B) :
  NoDup (map key l) -> NoDup (map key (filter p l)).
Proof.
  induction l as [|x l IH]; simpl; auto.
  intros H. inversion H as [|? ? N D]; subst.
  destruct (p x); simpl; auto. constructor; auto.
  intros Hin. apply N. apply in_map_iff in Hin. destruct Hin as (y & E & Hy).
  apply filter_In in Hy. apply in_map_iff. exists y. tauto.
Qed.

Lemma distinct_filter {B} (key : B -> A) (p : B -> bool) (l : list B) :
  Spec.distinct eqb (map key l) = true ->
  Spec.distinct eqb (map key (filter p l)) = true.
Proof. rewrite !distinct_NoDup. apply NoDup_map_filter. Qed.

Lemma distinct_snoc (l : list A) (x : A) :
  Spec.distinct eqb l = true -> ~ In x l -> Spec.distinct eqb (l ++ [x]) = true.
Proof.
  rewrite !distinct_NoDup. intros D N.
  apply NoDup_app; auto.
  - constructor; auto using NoDup_nil.
  - intros y Hy [<-|[]]. contradiction.
Qed.

End Distinct.
(* ================================================================== *)
(** ** More on the operations of exercises.py *)

Section OutcomeFacts.
Context {real database stmt : Type} {E : Engine real database stmt}.

Lemma implicit_begin_same (cmd : command stmt) (c : connection database) :
  db (implicit_begin cmd c) = db c
  /\ foreign_keys (implicit_begin cmd c) = foreign_keys c
  /\ closed (implicit_begin cmd c) = closed c
  /\ clock (implicit_begin cmd c) = clock c
  /\ ticks (implicit_begin cmd c) = ticks c.
Proof. unfold implicit_begin. destruct (_ && _); cbn; auto. Qed.

(** A function that runs one statement and returns something of its
    cursor. *)
Lemma execute_ret {A} (f : cursor real -> A) (s : stmt) (sql : string)
      (params : list (value real)) (c : connection database) :
  closed c = false ->
  compile (db c) sql = Some (Statement s) ->
  List.length params = count_placeholders sql ->
  bind_parameters params = inr params ->
  (cur <- execute sql params ;; ret (f cur)) c
  = match engine_step (Env (foreign_keys c) (clock c (ticks c))) s params (db c) with
    | inl e => Outcome (inl e) (tick (implicit_begin (Statement s) c)) [Exec sql params]
    | inr (cur, d') =>
        Outcome (inr (f cur)) (tick (set_db d' (implicit_begin (Statement s) c)))
                [Exec sql params]
    end.
Proof.
  intros Hc Hp Hn Hb. unfold bind.
  rewrite (execute_statement s sql params params c Hc Hp Hn Hb). cbv zeta.
  destruct (implicit_begin_same (Statement s) c) as (D & F & _ & K & T).
  rewrite D, F, K, T.
  destruct (engine_step _ s params (db c)) as [e|[cur d']]; cbn;
    rewrite ?app_nil_r; reflexivity.
Qed.

End OutcomeFacts.

Lemma compile_add_student (d : Exercises.database) :
  Exercises.catalog d = Spec.exercises_schema ->
  compile d "INSERT INTO students (name, email) VALUES (?, ?);"
  = Some (Statement Exercises.InsertStudent).
Proof.
  intros H. unfold compile. cbv -[Exercises.catalog]. rewrite H. reflexivity.
Qed.

Lemma add_student_outcome (c : connection Exercises.database) (name email : string) :
  closed c = false ->
  Exercises.catalog (db c) = Spec.exercises_schema ->
  Exercises.add_student name email c
  = match Exercises.insert_student name email (db c) with
    | inl e =>
        Outcome (inl e) (tick (implicit_begin (Statement Exercises.InsertStudent) c))
                [Exec "INSERT INTO students (name, email) VALUES (?, ?);"
                      [VText name; VText email]]
    | inr (cur, d') =>
        Outcome (inr (lastrowid cur))
                (tick (set_db d' (implicit_begin (Statement Exercises.InsertStudent) c)))
                [Exec "INSERT INTO students (name, email) VALUES (?, ?);"
                      [VText name; VText email]]
    end.
Proof.
  intros Hc Hcat. unfold Exercises.add_student.
  etransitivity.
  - exact (execute_ret (@lastrowid Exercises.real) Exercises.InsertStudent _
             [VText name; VText email] c Hc (compile_add_student _ Hcat)
             eq_refl eq_refl).
  - reflexivity.
Qed.

Lemma max_id_ge (ids : list Z) (i : Z) : In i ids -> i <= max_id ids.
Proof.
  unfold max_id. induction ids as [|x ids IH]; simpl; [tauto|].
  intros [->|H]; [lia|]. specialize (IH H). lia.
Qed.

Lemma find_student_outcome (c : connection Exercises.database) (email : string) :
  closed c = false ->
  Exercises.catalog (db c) = Spec.exercises_schema ->
  result (Exercises.find_student_by_email email c)
  = inr (hd_error (Exercises.select_student_by_email email (db c))).
Proof.
  intros Hc Hcat. unfold Exercises.find_student_by_email. rewrite result_bind.
  assert (Ht : has_table (Exercises.catalog (db c)) "students" = true)
    by (rewrite Hcat; reflexivity).
  rewrite (execute_statement Exercises.SelectStudentByEmail _
             [VText email] [VText email] c Hc (compile_find_student _ Ht)
             eq_refl eq_refl).
  reflexivity.
Qed.

(** X1: [add_student] with an email no student has yet, while a rowid is
    left: it returns a new id, larger than every id in the table, appends
    the student and touches nothing else; [find_student_by_email] then
    returns the row with that id, name and email. *)
Theorem add_student_then_find (c : connection Exercises.database)
        (name email : string) :
  closed c = false ->
  Exercises.catalog (db c) = Spec.exercises_schema ->
  (forall s, In s (Exercises.students (db c)) -> Exercises.s_email s <> email) ->
  Z.max (Exercises.seq_students (db c))
        (max_id (map Exercises.s_id (Exercises.students (db c)))) < 2 ^ 63 - 1 ->
  let o := Exercises.add_student name email c in
  exists id,
    result o = inr id
    /\ (forall s, In s (Exercises.students (db c)) -> Exercises.s_id s < id)
    /\ Exercises.seq_students (db c) < id
    /\ Exercises.students (db (final o))
       = (Exercises.students (db c) ++ [Exercises.Student id name email])%list
    /\ Exercises.courses (db (final o)) = Exercises.courses (db c)
    /\ Exercises.enrollments (db (final o)) = Exercises.enrollments (db c)
    /\ result (Exercises.find_student_by_email email (final o))
       = inr (Some [ ("id", VInt id); ("name", VText name); ("email", VText email) ]).
Proof.
  intros Hc Hcat Hnew Hroom. cbv zeta.
  rewrite (add_student_outcome c name email Hc Hcat).
  unfold Exercises.insert_student. rewrite (next_rowid_some _ _ Hroom).
  destruct (existsb _ (Exercises.students (db c))) eqn:X.
  { apply existsb_exists in X. destruct X as (s & Hs & E).
    apply String.eqb_eq in E. destruct (Hnew s Hs E). }
  exists (Z.max (Exercises.seq_students (db c))
                (max_id (map Exercises.s_id (Exercises.students (db c)))) + 1).
  cbn [result final lastrowid]. split; [reflexivity|].
  split.
  { intros s Hs. pose proof (max_id_ge _ _ (in_map Exercises.s_id _ _ Hs)). lia. }
  split; [lia|]. cbn [db tick set_db Exercises.students Exercises.courses
                        Exercises.enrollments]. repeat split.
  rewrite find_student_outcome.
  - cbn [db tick set_db]. unfold Exercises.select_student_by_email.
    cbn [Exercises.students]. rewrite filter_app, filter_nothing.
    + cbn. rewrite String.eqb_refl. reflexivity.
    + intros s Hs. apply String.eqb_neq. now apply Hnew.
  - cbn. destruct (implicit_begin_same (Statement Exercises.InsertStudent) c)
      as (_ & _ & C & _). exact C || (rewrite C; exact Hc).
  - cbn. exact Hcat.
Qed.

Lemma add_student_then_find_witness :
  exists id,
    result (Exercises.add_student "Dina" "dina@example.com" Spec.exercises_sample)
    = inr id
    /\ result (Exercises.find_student_by_email "dina@example.com"
                 (final (Exercises.add_student "Dina" "dina@example.com"
                           Spec.exercises_sample)))
       = inr (Some [ ("id", VInt id); ("name", VText "Dina");
                     ("email", VText "dina@example.com") ]).
Proof.
  destruct (add_student_then_find Spec.exercises_sample "Dina" "dina@example.com"
              eq_refl eq_refl) as (id & R & _ & _ & _ & _ & _ & Fd).
  - intros s [<-|[<-|[]]]; discriminate.
  - reflexivity.
  - exists id. split; assumption.
Defined.

Lemma implicit_begin_on_disk {real database stmt : Type}
      {E : Engine real database stmt} (cmd : command stmt) (c : connection database) :
  on_disk (implicit_begin cmd c) = on_disk c.
Proof.
  unfold implicit_begin, in_transaction, on_disk.
  destruct (command_is_dml cmd); cbn; [|reflexivity].
  destruct (txn c) eqn:X; cbn; rewrite ?X; reflexivity.
Qed.

Lemma implicit_begin_txn {real database stmt : Type} {E : Engine real database stmt}
      (s : stmt) (c : connection database) :
  engine_is_dml s = true ->
  txn (implicit_begin (Statement s) c) = Some (on_disk c).
Proof.
  intros H. unfold implicit_begin, in_transaction, on_disk. cbn [command_is_dml].
  rewrite H. destruct (txn c) eqn:X; cbn; rewrite ?X; reflexivity.
Qed.

Lemma dml_on_disk {real database stmt : Type} {E : Engine real database stmt}
      (s : stmt) (d' : database) (c : connection database) :
  engine_is_dml s = true ->
  on_disk (tick (set_db d' (implicit_begin (Statement s) c))) = on_disk c.
Proof.
  intros H. unfold implicit_begin, in_transaction, on_disk. cbn [command_is_dml].
  rewrite H. destruct (txn c) eqn:X; cbn; rewrite ?X; reflexivity.
Qed.

(** X2: [add_student] with an email a student already has raises
    IntegrityError (the UNIQUE constraint on email); the table is as it
    was and nothing reaches the file. *)
Theorem add_student_duplicate_email (c : connection Exercises.database)
        (name email : string) (s : Exercises.student) :
  closed c = false ->
  Exercises.catalog (db c) = Spec.exercises_schema ->
  In s (Exercises.students (db c)) ->
  Exercises.s_email s = email ->
  Z.max (Exercises.seq_students (db c))
        (max_id (map Exercises.s_id (Exercises.students (db c)))) < 2 ^ 63 - 1 ->
  let o := Exercises.add_student name email c in
  result o = inl IntegrityError
  /\ db (final o) = db c
  /\ on_disk (final o) = on_disk c.
Proof.
  intros Hc Hcat Hs He Hroom. cbv zeta.
  rewrite (add_student_outcome c name email Hc Hcat).
  unfold Exercises.insert_student. rewrite (next_rowid_some _ _ Hroom).
  destruct (existsb _ (Exercises.students (db c))) eqn:X.
  - cbn [result final]. repeat split.
    + apply (proj1 (implicit_begin_same _ c)).
    + change (on_disk (tick ?x)) with (on_disk x). apply implicit_begin_on_disk.
  - assert (Y : existsb (fun s0 => (Exercises.s_email s0 =? email)%string)
                        (Exercises.students (db c)) = true).
    { apply existsb_exists. exists s. split; auto. now apply String.eqb_eq. }
    congruence.
Qed.

Lemma add_student_duplicate_email_witness :
  result (Exercises.add_student "Other" "rena@example.com" Spec.exercises_sample)
  = inl IntegrityError
  /\ db (final (Exercises.add_student "Other" "rena@example.com" Spec.exercises_sample))
     = db Spec.exercises_sample.
Proof.
  destruct (add_student_duplicate_email Spec.exercises_sample "Other" "rena@example.com"
              (Exercises.Student 2 "Rena" "rena@example.com") eq_refl eq_refl)
    as (R & D & _).
  - right; left; reflexivity.
  - reflexivity.
  - reflexivity.
  - split; assumption.
Defined.

Lemma compile_rename_student (d : Exercises.database) :
  Exercises.catalog d = Spec.exercises_schema ->
  compile d "UPDATE students SET name = ? WHERE id = ?;"
  = Some (Statement Exercises.UpdateStudentName).
Proof.
  intros H. unfold compile. cbv -[Exercises.catalog]. rewrite H. reflexivity.
Qed.

Lemma rename_student_outcome (c : connection Exercises.database) (id : Z)
      (new_name : string) :
  closed c = false ->
  Exercises.catalog (db c) = Spec.exercises_schema ->
  int64 id = true ->
  Exercises.rename_student id new_name c
  = Outcome (inr (rowcount (fst (Exercises.update_student_name new_name id (db c)))))
            (tick (set_db (snd (Exercises.update_student_name new_name id (db c)))
                          (implicit_begin (Statement Exercises.UpdateStudentName) c)))
            [Exec "UPDATE students SET name = ? WHERE id = ?;"
                  [VText new_name; VInt id]].
Proof.
  intros Hc Hcat Hid. unfold Exercises.rename_student.
  etransitivity.
  - apply (execute_ret (@rowcount Exercises.real) Exercises.UpdateStudentName _
             [VText new_name; VInt id] c Hc (compile_rename_student _ Hcat) eq_refl).
    cbn. rewrite Hid. reflexivity.
  - reflexivity.
Qed.

Lemma delete_student_outcome (c : connection Exercises.database) (id : Z) :
  closed c = false ->
  Exercises.catalog (db c) = Spec.exercises_schema ->
  int64 id = true ->
  Exercises.delete_student id c
  = let e := Env (foreign_keys c) (clock c (ticks c)) in
    Outcome (inr (rowcount (fst (Exercises.delete_student_row e id (db c)))))
            (tick (set_db (snd (Exercises.delete_student_row e id (db c)))
                          (implicit_begin (Statement Exercises.DeleteStudent) c)))
            [Exec "DELETE FROM students WHERE id = ?;" [VInt id]].
Proof.
  intros Hc Hcat Hid. unfold Exercises.delete_student.
  etransitivity.
  - apply (execute_ret (@rowcount Exercises.real) Exercises.DeleteStudent _
             [VInt id] c Hc (compile_delete_student _ Hcat) eq_refl).
    cbn. rewrite Hid. reflexivity.
  - reflexivity.
Qed.

Lemma count_id (id : Z) (l : list Exercises.student) :
  Spec.distinct Z.eqb (map Exercises.s_id l) = true ->
  Z.of_nat (List.length (filter (fun s => Exercises.s_id s =? id) l))
  = if existsb (fun s => Exercises.s_id s =? id) l then 1 else 0.
Proof.
  intros Hd. destruct (existsb _ l) eqn:X.
  - apply exists_id in X. destruct X as (s & Hs & <-).
    rewrite (filter_id Exercises.s_id _ s Hd Hs). reflexivity.
  - rewrite filter_nothing; [reflexivity|].
    intros s Hs. destruct (Exercises.s_id s =? id) eqn:Y; auto.
    rewrite <- X. symmetry. apply existsb_exists. eauto.
Qed.

(** X3: [rename_student] returns 1 when a student has the id and 0 when
    none has; it gives the new name to the students with that id and
    changes no id, no email, no other name, no course and no enrollment. *)
Theorem rename_student_effect (c : connection Exercises.database) (id : Z)
        (new_name : string) :
  closed c = false ->
  Exercises.catalog (db c) = Spec.exercises_schema ->
  int64 id = true ->
  Spec.distinct Z.eqb (map Exercises.s_id (Exercises.students (db c))) = true ->
  let o := Exercises.rename_student id new_name c in
  let d := db c in
  let d' := db (final o) in
  result o = inr (if existsb (fun s => Exercises.s_id s =? id) (Exercises.students d)
                  then 1 else 0)
  /\ map Exercises.s_id (Exercises.students d') = map Exercises.s_id (Exercises.students d)
  /\ map Exercises.s_email (Exercises.students d')
     = map Exercises.s_email (Exercises.students d)
  /\ map Exercises.s_name (Exercises.students d')
     = map (fun s => if Exercises.s_id s =? id then new_name else Exercises.s_name s)
           (Exercises.students d)
  /\ Exercises.courses d' = Exercises.courses d
  /\ Exercises.enrollments d' = Exercises.enrollments d.
Proof.
  intros Hc Hcat Hid Hd. cbv zeta.
  rewrite (rename_student_outcome c id new_name Hc Hcat Hid).
  cbn [result final db tick set_db Exercises.update_student_name fst snd rowcount
       Exercises.students Exercises.courses Exercises.enrollments].
  split; [f_equal; apply count_id, Hd|].
  rewrite !map_map. repeat split; apply map_ext; intros s;
    destruct (Exercises.s_id s =? id); reflexivity.
Qed.

Lemma rename_student_effect_witness :
  result (Exercises.rename_student 2 "Etty Werczberger" Spec.exercises_sample) = inr 1
  /\ result (Exercises.rename_student 7 "Etty Werczberger" Spec.exercises_sample) = inr 0
  /\ map Exercises.s_name
         (Exercises.students
            (db (final (Exercises.rename_student 2 "Etty Werczberger"
                          Spec.exercises_sample))))
     = ["Etty"; "Etty Werczberger"].
Proof.
  destruct (rename_student_effect Spec.exercises_sample 2 "Etty Werczberger"
              eq_refl eq_refl eq_refl eq_refl) as (R & _ & _ & N & _).
  destruct (rename_student_effect Spec.exercises_sample 7 "Etty Werczberger"
              eq_refl eq_refl eq_refl eq_refl) as (R' & _).
  split; [exact R|]. split; [exact R'|]. exact N.
Defined.

Lemma max_id_filter {A} (key : A -> Z) (p : A -> bool) (l : list A) :
  max_id (map key (filter p l)) <= max_id (map key l).
Proof.
  unfold max_id. induction l as [|x l IH]; simpl; [lia|].
  destruct (p x); simpl; lia.
Qed.

Lemma max_id_bound (ids : list Z) (m : Z) :
  0 <= m -> (forall i, In i ids -> i <= m) -> max_id ids <= m.
Proof.
  unfold max_id. intros Hm. induction ids as [|x ids IH]; simpl; intros H; [lia|].
  specialize (IH (fun i Hi => H i (or_intror Hi))).
  specialize (H x (or_introl eq_refl)). lia.
Qed.

Lemma next_rowid_range (seq : Z) (ids : list Z) (i : Z) :
  next_rowid seq ids = Some i ->
  i = Z.max seq (max_id ids) + 1 /\ 0 < i < 2 ^ 63.
Proof.
  unfold next_rowid. cbv zeta.
  destruct (Z.ltb_spec (Z.max seq (max_id ids)) (2 ^ 63 - 1)); [|discriminate].
  intros [= <-]. pose proof (max_id_nonneg ids). lia.
Qed.

Lemma int64_range (n : Z) : - 2 ^ 63 <= n < 2 ^ 63 -> int64 n = true.
Proof.
  intros H. unfold int64. apply andb_true_iff. split; [apply Z.leb_le | apply Z.ltb_lt || apply Z.leb_le]; lia.
Qed.

Lemma insert_student_inv (name email : string) (d d' : Exercises.database)
      (cur : cursor Exercises.real) :
  Exercises.insert_student name email d = inr (cur, d') ->
  exists i,
    next_rowid (Exercises.seq_students d) (map Exercises.s_id (Exercises.students d))
    = Some i
    /\ existsb (fun s => (Exercises.s_email s =? email)%string) (Exercises.students d)
       = false
    /\ cur = Cursor i 1 []
    /\ d' = Exercises.Database (Exercises.catalog d)
              (Exercises.students d ++ [Exercises.Student i name email])
              (Exercises.courses d) (Exercises.enrollments d)
              i (Exercises.seq_courses d) (Exercises.seq_enrollments d).
Proof.
  unfold Exercises.insert_student.
  destruct (next_rowid _ _) as [i|]; [|discriminate].
  destruct (existsb _ _); [discriminate|].
  intros [= <- <-]. exists i. auto.
Qed.

Lemma add_student_returns (c : connection Exercises.database) (name email : string)
      (i : Z) :
  closed c = false ->
  Exercises.catalog (db c) = Spec.exercises_schema ->
  result (Exercises.add_student name email c) = inr i ->
  let c' := final (Exercises.add_student name email c) in
  next_rowid (Exercises.seq_students (db c))
             (map Exercises.s_id (Exercises.students (db c))) = Some i
  /\ existsb (fun s => (Exercises.s_email s =? email)%string)
             (Exercises.students (db c)) = false
  /\ db c' = Exercises.Database (Exercises.catalog (db c))
               (Exercises.students (db c) ++ [Exercises.Student i name email])
               (Exercises.courses (db c)) (Exercises.enrollments (db c))
               i (Exercises.seq_courses (db c)) (Exercises.seq_enrollments (db c))
  /\ closed c' = false
  /\ foreign_keys c' = foreign_keys c
  /\ on_disk c' = on_disk c.
Proof.
  intros Hc Hcat. cbv zeta. rewrite (add_student_outcome c name email Hc Hcat).
  destruct (Exercises.insert_student name email (db c)) as [e|[cur d']] eqn:I;
    [discriminate|].
  apply insert_student_inv in I. destruct I as (k & N & X & -> & ->).
  cbn [result final lastrowid]. intros [= <-].
  destruct (implicit_begin_same (Statement Exercises.InsertStudent) c)
    as (_ & F & C & _).
  repeat split; auto.
  - cbn. congruence.
  - apply (dml_on_disk Exercises.InsertStudent). reflexivity.
Qed.

(** X7: AUTOINCREMENT never gives an id twice: when the student
    [add_student] has just added is deleted, the next [add_student] still
    returns the following id, not the id that has become free. *)
Theorem add_student_never_reuses_id (c : connection Exercises.database)
        (n1 e1 n2 e2 : string) (i j : Z) :
  closed c = false ->
  Exercises.catalog (db c) = Spec.exercises_schema ->
  result (Exercises.add_student n1 e1 c) = inr i ->
  let c1 := final (Exercises.add_student n1 e1 c) in
  let c2 := final (Exercises.delete_student i c1) in
  result (Exercises.add_student n2 e2 c2) = inr j ->
  (forall s, In s (Exercises.students (db c2)) -> Exercises.s_id s <> i)
  /\ j = i + 1.
Proof.
  intros Hc Hcat R1 c1 c2 R2.
  destruct (add_student_returns c n1 e1 i Hc Hcat R1) as (N & _ & D1 & C1 & _).
  fold c1 in D1, C1.
  destruct (next_rowid_range _ _ _ N) as [Ei Ri].
  assert (Hcat1 : Exercises.catalog (db c1) = Spec.exercises_schema)
    by (rewrite D1; exact Hcat).
  assert (Hi : int64 i = true) by (apply int64_range; lia).
  pose proof (delete_student_outcome c1 i C1 Hcat1 Hi) as Del. cbv zeta in Del.
  assert (D2 : Exercises.students (db c2)
               = filter (fun s => negb (Exercises.s_id s =? i)) (Exercises.students (db c1))
               /\ Exercises.seq_students (db c2) = i
               /\ Exercises.catalog (db c2) = Spec.exercises_schema
               /\ closed c2 = false).
  { unfold c2. rewrite Del. cbn. rewrite D1. cbn. repeat split; auto.
    destruct (implicit_begin_same (Statement Exercises.DeleteStudent) c1)
      as (_ & _ & C & _). congruence. }
  destruct D2 as (S2 & Q2 & Hcat2 & C2).
  split.
  - intros s Hs. rewrite S2 in Hs. apply filter_In in Hs. destruct Hs as [_ Hn].
    apply negb_true_iff, Z.eqb_neq in Hn. exact Hn.
  - destruct (add_student_returns c2 n2 e2 j C2 Hcat2 R2) as (N2 & _).
    destruct (next_rowid_range _ _ _ N2) as [Ej _].
    rewrite Q2, S2 in Ej.
    pose proof (max_id_filter Exercises.s_id (fun s => negb (Exercises.s_id s =? i))
                  (Exercises.students (db c1))) as M.
    rewrite D1 in M. cbn [Exercises.students] in M.
    rewrite map_app in M. cbn [map Exercises.s_id] in M. rewrite max_id_app in M.
    rewrite D1 in Ej. cbn [Exercises.students] in Ej.
    pose proof (max_id_nonneg
                  (map Exercises.s_id
                     (filter (fun s => negb (Exercises.s_id s =? i))
                        (Exercises.students (db c) ++ [Exercises.Student i n1 e1])))).
    lia.
Qed.

Lemma add_student_never_reuses_id_witness :
  result (Exercises.add_student "Dina" "dina@example.com" Spec.exercises_sample) = inr 3
  /\ result (Exercises.add_student "Leah" "leah@example.com"
               (final (Exercises.delete_student 3
                  (final (Exercises.add_student "Dina" "dina@example.com"
                            Spec.exercises_sample)))))
     = inr 4
  /\ forall s,
       In s (Exercises.students
               (db (final (Exercises.delete_student 3
                      (final (Exercises.add_student "Dina" "dina@example.com"
                                Spec.exercises_sample)))))) ->
       Exercises.s_id s <> 3.
Proof.
  assert (R1 : result (Exercises.add_student "Dina" "dina@example.com"
                         Spec.exercises_sample) = inr 3) by reflexivity.
  assert (R2 : result (Exercises.add_student "Leah" "leah@example.com"
               (final (Exercises.delete_student 3
                  (final (Exercises.add_student "Dina" "dina@example.com"
                            Spec.exercises_sample))))) = inr 4) by reflexivity.
  split; [exact R1|]. split; [exact R2|].
  exact (proj1 (add_student_never_reuses_id Spec.exercises_sample
                  "Dina" "dina@example.com" "Leah" "leah@example.com" 3 4
                  eq_refl eq_refl R1 R2)).
Defined.

(** X8: after [delete_student] of a student, [find_student_by_email] no
    longer finds the email of that student, and finds every other student
    as before. *)
Theorem delete_student_then_find (c : connection Exercises.database)
        (s : Exercises.student) :
  closed c = false ->
  Exercises.catalog (db c) = Spec.exercises_schema ->
  Spec.distinct String.eqb (map Exercises.s_email (Exercises.students (db c))) = true ->
  In s (Exercises.students (db c)) ->
  int64 (Exercises.s_id s) = true ->
  let c' := final (Exercises.delete_student (Exercises.s_id s) c) in
  result (Exercises.find_student_by_email (Exercises.s_email s) c') = inr None
  /\ forall s', In s' (Exercises.students (db c)) ->
       Exercises.s_id s' <> Exercises.s_id s ->
       result (Exercises.find_student_by_email (Exercises.s_email s') c')
       = inr (Some [ ("id", VInt (Exercises.s_id s'));
                     ("name", VText (Exercises.s_name s'));
                     ("email", VText (Exercises.s_email s')) ]).
Proof.
  intros Hc Hcat Hd Hs Hid. cbv zeta.
  pose proof (delete_student_outcome c (Exercises.s_id s) Hc Hcat Hid) as Del.
  cbv zeta in Del. rewrite Del. cbn [final].
  set (c' := tick _).
  assert (C' : closed c' = false).
  { unfold c'. cbn.
    destruct (implicit_begin_same (Statement Exercises.DeleteStudent) c)
      as (_ & _ & C & _). congruence. }
  assert (K' : Exercises.catalog (db c') = Spec.exercises_schema) by exact Hcat.
  assert (S' : Exercises.students (db c')
               = filter (fun x => negb (Exercises.s_id x =? Exercises.s_id s))
                        (Exercises.students (db c))) by reflexivity.
  split.
  - rewrite (find_student_outcome c' _ C' K').
    unfold Exercises.select_student_by_email. rewrite S'.
    rewrite filter_nothing; [reflexivity|].
    intros x Hx. apply filter_In in Hx. destruct Hx as [Hx Hn].
    destruct (Exercises.s_email x =? Exercises.s_email s)%string eqn:E; auto.
    apply String.eqb_eq in E.
    rewrite (distinct_key String.eqb Exercises.s_email _ x s String.eqb_eq Hd Hx Hs E)
      in Hn.
    rewrite Z.eqb_refl in Hn. discriminate.
  - intros s' Hs' Hne.
    rewrite (find_student_outcome c' _ C' K').
    unfold Exercises.select_student_by_email. rewrite S'.
    assert (Hd' : Spec.distinct String.eqb
                    (map Exercises.s_email
                       (filter (fun x => negb (Exercises.s_id x =? Exercises.s_id s))
                               (Exercises.students (db c)))) = true)
      by (apply distinct_filter; [apply String.eqb_eq | exact Hd]).
    rewrite (filter_key String.eqb Exercises.s_email _ s' String.eqb_eq Hd').
    + reflexivity.
    + apply filter_In. split; auto. apply negb_true_iff, Z.eqb_neq. exact Hne.
Qed.

Lemma delete_student_then_find_witness :
  result (Exercises.find_student_by_email "etty@example.com"
            (final (Exercises.delete_student 1 Spec.exercises_sample)))
  = inr None
  /\ result (Exercises.find_student_by_email "rena@example.com"
               (final (Exercises.delete_student 1 Spec.exercises_sample)))
     = inr (Some [ ("id", VInt 2); ("name", VText "Rena");
                   ("email", VText "rena@example.com") ]).
Proof.
  destruct (delete_student_then_find Spec.exercises_sample
              (Exercises.Student 1 "Etty" "etty@example.com")
              eq_refl eq_refl eq_refl (or_introl eq_refl) eq_refl) as (A & B).
  split; [exact A|].
  apply (B (Exercises.Student 2 "Rena" "rena@example.com")).
  - right; left; reflexivity.
  - discriminate.
Defined.

(** X4: [connect] returns an open connection that enforces foreign keys,
    with no transaction open.  On a connection that enforces them,
    [enroll_student] with a student id or a course id that does not exist
    raises IntegrityError and inserts nothing; on one that does not, as
    [sqlite3.connect] alone gives, the same call inserts the row. *)
Theorem enroll_student_checks_references :
  (forall (disk : option Exercises.database) (clk : nat -> string),
      let o := Exercises.connect disk clk in
      result o = inr tt
      /\ foreign_keys (final o) = true
      /\ closed (final o) = false
      /\ txn (final o) = None
      /\ db (final o) = match disk with Some d => d | None => Exercises.fresh end)
  /\ (forall (c : connection Exercises.database) (sid cid : Z),
         closed c = false ->
         Exercises.catalog (db c) = Spec.exercises_schema ->
         int64 sid = true -> int64 cid = true ->
         Z.max (Exercises.seq_enrollments (db c))
               (max_id (map Exercises.e_id (Exercises.enrollments (db c)))) < 2 ^ 63 - 1 ->
         existsb (fun s => Exercises.s_id s =? sid) (Exercises.students (db c))
         && existsb (fun k => Exercises.c_id k =? cid) (Exercises.courses (db c)) = false ->
         let o := Exercises.enroll_student sid cid c in
         (foreign_keys c = true ->
          result o = inl IntegrityError /\ db (final o) = db c)
         /\ (foreign_keys c = false ->
             existsb (fun x => (Exercises.e_student_id x =? sid)
                               && (Exercises.e_course_id x =? cid))
                     (Exercises.enrollments (db c)) = false ->
             result o = inr tt
             /\ exists e, Exercises.enrollments (db (final o))
                          = (Exercises.enrollments (db c) ++ [e])%list
                          /\ Exercises.e_student_id e = sid
                          /\ Exercises.e_course_id e = cid)).
Proof.
  split.
  - intros disk clk. cbv zeta. destruct disk; cbn; auto.
  - intros c sid cid Hc Hcat Hs Hk Hroom Hno. cbv zeta.
    rewrite (enroll_student_outcome c sid cid Hc Hcat Hs Hk).
    unfold Exercises.insert_enrollment. rewrite (next_rowid_some _ _ Hroom).
    cbn [env_foreign_keys]. rewrite Hno. cbn [negb].
    destruct (existsb _ (Exercises.enrollments (db c))) eqn:X.
    + split; [intros F | intros _ [=]].
      cbn. split; auto. apply (proj1 (implicit_begin_same _ c)).
    + split; [intros F | intros F _]; rewrite F; cbn.
      * split; auto. apply (proj1 (implicit_begin_same _ c)).
      * split; auto. eexists. split; [reflexivity|]. cbn. auto.
Qed.

Lemma enroll_student_checks_references_witness :
  result (Exercises.enroll_student 9 2 Spec.exercises_sample) = inl IntegrityError
  /\ db (final (Exercises.enroll_student 9 2 Spec.exercises_sample))
     = db Spec.exercises_sample
  /\ result (Exercises.enroll_student 9 2
               (Connection (db Spec.exercises_sample) None false false
                           (clock Spec.exercises_sample) O))
     = inr tt.
Proof.
  destruct enroll_student_checks_references as (_ & H).
  destruct (H Spec.exercises_sample 9 2 eq_refl eq_refl eq_refl eq_refl
              eq_refl eq_refl) as (On & _).
  destruct (H (Connection (db Spec.exercises_sample) None false false
                          (clock Spec.exercises_sample) O) 9 2
              eq_refl eq_refl eq_refl eq_refl eq_refl eq_refl) as (_ & Off).
  destruct (On eq_refl) as (R & D).
  destruct (Off eq_refl eq_refl) as (R' & _).
  repeat split; assumption.
Defined.

Lemma commit_outcome {real database stmt : Type} {E : Engine real database stmt}
      (c : connection database) :
  closed c = false ->
  commit (real := real) c = Outcome (inr tt) (set_txn None c) [CommitCall].
Proof. intros H. unfold commit. rewrite H. reflexivity. Qed.

(** X5: what [add_student] inserts outside a transaction is not saved by
    the call: the file is as it was, and closing the connection loses the
    student.  It is [conn.commit()] that saves it, after which closing
    keeps it. *)
Theorem add_student_saved_by_commit (c : connection Exercises.database)
        (name email : string) (i : Z) :
  closed c = false ->
  Exercises.catalog (db c) = Spec.exercises_schema ->
  txn c = None ->
  result (Exercises.add_student name email c) = inr i ->
  let c1 := final (Exercises.add_student name email c) in
  let c2 := final (commit (real := Exercises.real) c1) in
  In (Exercises.Student i name email) (Exercises.students (db c1))
  /\ on_disk c1 = db c
  /\ db (final (close (real := Exercises.real) c1)) = db c
  /\ result (commit (real := Exercises.real) c1) = inr tt
  /\ on_disk c2 = db c1
  /\ db (final (close (real := Exercises.real) c2)) = db c1.
Proof.
  intros Hc Hcat Ht R. cbv zeta.
  destruct (add_student_returns c name email i Hc Hcat R) as (_ & _ & D & C & _ & O).
  set (c1 := final (Exercises.add_student name email c)) in *.
  assert (O' : on_disk c1 = db c) by (rewrite O; unfold on_disk; rewrite Ht; reflexivity).
  rewrite (commit_outcome c1 C). cbn [result final].
  split; [rewrite D; cbn; apply in_or_app; right; left; reflexivity|].
  split; [exact O'|]. split; [exact O'|]. repeat split.
Qed.

Lemma add_student_saved_by_commit_witness :
  on_disk (final (Exercises.add_student "Dina" "dina@example.com" Spec.exercises_sample))
  = db Spec.exercises_sample
  /\ In (Exercises.Student 3 "Dina" "dina@example.com")
        (Exercises.students
           (on_disk (final (commit (real := Exercises.real)
              (final (Exercises.add_student "Dina" "dina@example.com"
                        Spec.exercises_sample)))))).
Proof.
  destruct (add_student_saved_by_commit Spec.exercises_sample "Dina" "dina@example.com" 3
              eq_refl eq_refl eq_refl eq_refl) as (I & O & _ & _ & O2 & _).
  split; [exact O|]. rewrite O2. exact I.
Defined.


(* ================================================================== *)
(** ** The constraints of the schema of exercises.py *)

Lemma same_pair_eq (a b : Z * Z) : Spec.same_pair a b = true <-> a = b.
Proof.
  destruct a as [a1 a2], b as [b1 b2]. unfold Spec.same_pair. cbn.
  rewrite andb_true_iff, !Z.eqb_eq. split; [intros [-> ->]; reflexivity|].
  intros [= -> ->]. auto.
Qed.

Lemma keys_ok_iff (d : Exercises.database) :
  Spec.keys_ok d = true
  <-> NoDup (map Exercises.s_id (Exercises.students d))
      /\ NoDup (map Exercises.s_email (Exercises.students d))
      /\ NoDup (map Exercises.c_id (Exercises.courses d))
      /\ NoDup (map Exercises.c_code (Exercises.courses d))
      /\ NoDup (map Exercises.e_id (Exercises.enrollments d))
      /\ NoDup (map (fun e => (Exercises.e_student_id e, Exercises.e_course_id e))
                    (Exercises.enrollments d)).
Proof.
  unfold Spec.keys_ok. rewrite !andb_true_iff.
  rewrite !(distinct_NoDup Z.eqb Z.eqb_eq), !(distinct_NoDup String.eqb String.eqb_eq),
    (distinct_NoDup Spec.same_pair same_pair_eq).
  tauto.
Qed.

Lemma NoDup_snoc {A} (l : list A) (x : A) : NoDup l -> ~ In x l -> NoDup (l ++ [x]).
Proof.
  intros D N. apply NoDup_app; auto.
  - constructor; auto using NoDup_nil.
  - intros y Hy [<-|[]]. contradiction.
Qed.

Lemma NoDup_next_rowid (seq : Z) (ids : list Z) (i : Z) :
  next_rowid seq ids = Some i -> NoDup ids -> NoDup (ids ++ [i]).
Proof.
  intros N D. apply NoDup_snoc; auto. intros Hin.
  apply next_rowid_range in N. apply max_id_ge in Hin. lia.
Qed.

Lemma not_in_map {A K} (eqb : K -> K -> bool) (key : A -> K) (k : K) (l : list A) :
  (forall a b, eqb a b = true <-> a = b) ->
  existsb (fun x => eqb (key x) k) l = false -> ~ In k (map key l).
Proof.
  intros Heq X Hin. apply in_map_iff in Hin. destruct Hin as (x & E & Hx).
  assert (existsb (fun x => eqb (key x) k) l = true)
    by (apply existsb_exists; exists x; split; auto; now apply Heq).
  congruence.
Qed.

Section KeepsKeys.
Variable d : Exercises.database.
Hypothesis K : Spec.keys_ok d = true.

Lemma insert_student_keeps_keys name email cur d' :
  Exercises.insert_student name email d = inr (cur, d') -> Spec.keys_ok d' = true.
Proof.
  intros H. apply insert_student_inv in H. destruct H as (i & N & X & _ & ->).
  rewrite keys_ok_iff in *. destruct K as (A & B & C). cbn. rewrite !map_app. cbn.
  repeat split; try tauto.
  - eapply NoDup_next_rowid; eauto.
  - apply NoDup_snoc; auto. apply (not_in_map String.eqb); auto using String.eqb_eq.
Qed.

Lemma insert_course_keeps_keys code title cur d' :
  Exercises.insert_course code title d = inr (cur, d') -> Spec.keys_ok d' = true.
Proof.
  unfold Exercises.insert_course.
  destruct (next_rowid _ _) as [i|] eqn:N; [|discriminate].
  destruct (existsb _ _) eqn:X; [discriminate|]. intros [= <- <-].
  rewrite keys_ok_iff in *. destruct K as (A & B & C & D & E). cbn. rewrite !map_app. cbn.
  repeat split; try tauto.
  - eapply NoDup_next_rowid; eauto.
  - apply NoDup_snoc; auto. apply (not_in_map String.eqb); auto using String.eqb_eq.
Qed.

Lemma update_student_name_keeps_keys name id cur d' :
  Exercises.update_student_name name id d = (cur, d') -> Spec.keys_ok d' = true.
Proof.
  unfold Exercises.update_student_name. intros [= <- <-].
  rewrite keys_ok_iff in *. cbn. rewrite !map_map.
  rewrite (map_ext _ Exercises.s_id)
    by (intros s; destruct (Exercises.s_id s =? id); reflexivity).
  rewrite (map_ext (fun s => Exercises.s_email _) Exercises.s_email)
    by (intros s; destruct (Exercises.s_id s =? id); reflexivity).
  exact K.
Qed.

Lemma delete_student_row_keeps_keys e id cur d' :
  Exercises.delete_student_row e id d = (cur, d') -> Spec.keys_ok d' = true.
Proof.
  unfold Exercises.delete_student_row. cbv zeta. intros [= <- <-].
  rewrite keys_ok_iff in *. destruct K as (A & B & C & D & E & G). cbn.
  repeat split; auto using NoDup_map_filter;
    destruct (filter (fun s => Exercises.s_id s =? id) (Exercises.students d)); auto;
    destruct (env_foreign_keys e); auto using NoDup_map_filter.
Qed.

Lemma insert_enrollment_keeps_keys e sid cid cur d' :
  Exercises.insert_enrollment e sid cid d = inr (cur, d') -> Spec.keys_ok d' = true.
Proof.
  unfold Exercises.insert_enrollment.
  destruct (next_rowid _ _) as [i|] eqn:N; [|discriminate].
  destruct (existsb _ _) eqn:X; [discriminate|].
  destruct (env_foreign_keys e && _); [discriminate|]. intros [= <- <-].
  rewrite keys_ok_iff in *. destruct K as (A & B & C & D & E & G). cbn.
  rewrite !map_app. cbn. repeat split; auto.
  - eapply NoDup_next_rowid; eauto.
  - apply NoDup_snoc; auto.
    apply (not_in_map Spec.same_pair
             (fun x => (Exercises.e_student_id x, Exercises.e_course_id x)));
      auto using same_pair_eq.
Qed.

End KeepsKeys.

(** Every statement of exercises.py keeps the keys. *)
Lemma step_keeps_keys (e : env) (s : Exercises.stmt)
      (vs : list (value Exercises.real)) (d : Exercises.database)
      (cur : cursor Exercises.real) (d' : Exercises.database) :
  Spec.keys_ok d = true ->
  Exercises.step e s vs d = inr (cur, d') ->
  Spec.keys_ok d' = true.
Proof.
  intros R H. unfold Exercises.step in H.
  repeat match type of H with
         | match ?x with _ => _ end = inr _ => destruct x; try discriminate H
         end;
    try (injection H as <- <-; exact R);
    try (apply inr_inj in H);
    eauto using insert_student_keeps_keys, insert_course_keeps_keys,
                update_student_name_keeps_keys, delete_student_row_keeps_keys,
                insert_enrollment_keeps_keys.
Qed.

Lemma step_keeps_constraints (now : string) (s : Exercises.stmt)
      (vs : list (value Exercises.real)) (d : Exercises.database)
      (cur : cursor Exercises.real) (d' : Exercises.database) :
  Spec.constraints d ->
  Exercises.step (Env true now) s vs d = inr (cur, d') ->
  Spec.constraints d'.
Proof.
  intros [K R] H. split.
  - eapply step_keeps_keys; eauto.
  - eapply step_keeps_references; eauto.
Qed.

(** An invariant that every statement keeps is kept by every operation. *)
Lemma perform_keeps (P : Exercises.database -> Prop) :
  (forall now s vs d cur d',
      P d -> Exercises.step (Env true now) s vs d = inr (cur, d') -> P d') ->
  forall (op : Spec.operation) (c : connection Exercises.database),
    Spec.kept P c -> Spec.kept P (Spec.perform op c).
Proof.
  intros HP op c K.
  pose proof (@kept_execute _ _ _ Exercises.engine P HP) as Kx.
  pose proof (@kept_executescript _ _ _ Exercises.engine P HP) as Ks.
  pose proof (@kept_executemany _ _ _ Exercises.engine P HP) as Km.
  assert (Kr : forall A (a : A) c, Spec.kept P c ->
                 Spec.kept P (final (ret (real := Exercises.real) a c)))
    by (intros; assumption).
  destruct op; cbn [Spec.perform].
  - apply Ks, K.
  - apply Km, K.
  - apply kept_bind; auto.
  - apply kept_bind; auto.
  - apply kept_bind; auto.
  - apply kept_bind; auto.
  - apply kept_bind; auto.
  - apply kept_bind; auto.
  - apply Kx, K.
  - apply kept_commit, K.
  - apply kept_close, K.
Qed.

Lemma perform_all_keeps (P : Exercises.database -> Prop) :
  (forall now s vs d cur d',
      P d -> Exercises.step (Env true now) s vs d = inr (cur, d') -> P d') ->
  forall (ops : list Spec.operation) (c : connection Exercises.database),
    Spec.kept P c -> Spec.kept P (Spec.perform_all ops c).
Proof.
  intros HP ops. unfold Spec.perform_all.
  induction ops as [|op ops IH]; intros c K; cbn; auto using perform_keeps.
Qed.

(** X6: the constraints of the schema always hold.  Whatever the file held
    before [reset_db], after [connect] and any sequence of the operations
    of the script, whether they return or raise, no two students share an
    id or an email, no two courses an id or a code, no two enrollments an
    id or a pair of student and course, and every enrollment references a
    student and a course that exist; this holds of the database the
    connection sees and of the one on disk. *)
Theorem exercises_constraints_always (disk : option Exercises.database) (clk : nat -> string)
        (ops : list Spec.operation) :
  let c := Spec.perform_all ops
             (final (Exercises.connect (Exercises.reset_db disk) clk)) in
  Spec.constraints (db c) /\ Spec.constraints (on_disk c).
Proof.
  cbv zeta.
  assert (K : Spec.kept Spec.constraints
                (Spec.perform_all ops
                   (final (Exercises.connect (Exercises.reset_db disk) clk)))).
  { apply (perform_all_keeps _ step_keeps_constraints).
    replace (Exercises.reset_db disk) with (@None Exercises.database)
      by (destruct disk; reflexivity).
    split; [reflexivity|]. split; [split; reflexivity|]. cbn. discriminate. }
  destruct K as (_ & D & T). split; auto.
  unfold on_disk. destruct (txn _) eqn:X; auto.
Qed.

(* ================================================================== *)
(** ** The lines of a report *)

Section Aligned.
Context {real : Type} (str_real : real -> string).








End Aligned.


(* ================================================================== *)
(** ** [seed_courses] *)

Lemma compile_seed_courses (d : Exercises.database) :
  Exercises.catalog d = Spec.exercises_schema ->
  compile d "INSERT INTO courses (code, title) VALUES (?, ?);"
  = Some (Statement Exercises.InsertCourse).
Proof.
  intros H. unfold compile. cbv -[Exercises.catalog]. rewrite H. reflexivity.
Qed.

(** One round of the [executemany] of [seed_courses]. *)
Lemma insert_course_round (code title : string) (c : connection Exercises.database)
      (k : M Exercises.real (connection Exercises.database) unit) :
  ((bind_and_run (Statement Exercises.InsertCourse)
      "INSERT INTO courses (code, title) VALUES (?, ?);"
      [VText code; VText title] ;; ret tt) ;; k) c
  = match Exercises.insert_course code title (db c) with
    | inl e =>
        Outcome (inl e) (tick c)
          [Exec "INSERT INTO courses (code, title) VALUES (?, ?);"
                [VText code; VText title]]
    | inr (_, d') =>
        Spec.after
          [Exec "INSERT INTO courses (code, title) VALUES (?, ?);"
                [VText code; VText title]]
          (k (tick (set_db d' c)))
    end.
Proof.
  unfold bind at 1 2. unfold bind_and_run. cbn [List.length count_placeholders].
  replace (negb _) with false by reflexivity. cbn [bind_parameters run].
  cbn [engine_step Exercises.engine Exercises.step].
  destruct (Exercises.insert_course code title (db c)) as [e|[cur d']]; reflexivity.
Qed.

Lemma insert_course_inv (code title : string) (d d' : Exercises.database)
      (cur : cursor Exercises.real) :
  Exercises.insert_course code title d = inr (cur, d') ->
  exists i,
    next_rowid (Exercises.seq_courses d) (map Exercises.c_id (Exercises.courses d))
    = Some i
    /\ d' = Exercises.Database (Exercises.catalog d) (Exercises.students d)
              (Exercises.courses d ++ [Exercises.Course i code title])
              (Exercises.enrollments d)
              (Exercises.seq_students d) i (Exercises.seq_enrollments d).
Proof.
  unfold Exercises.insert_course.
  destruct (next_rowid _ _) as [i|]; [|discriminate].
  destruct (existsb _ _); [discriminate|].
  intros [= <- <-]. exists i. auto.
Qed.

Lemma has_code_app (code : string) (l : list Exercises.course) (x : Exercises.course) :
  existsb (fun c => (Exercises.c_code c =? code)%string) (l ++ [x])
  = existsb (fun c => (Exercises.c_code c =? code)%string) l
    || (Exercises.c_code x =? code)%string.
Proof. rewrite existsb_app. cbn. rewrite orb_false_r. reflexivity. Qed.

(** X10: [seed_courses] on a table that has none of the three codes, with
    three rowids left, returns and appends the three courses, in the order
    of the list and with the three next ids; nothing else changes, and
    nothing is saved before a commit.  On a table that already has the
    code CS101, as after a first [seed_courses], it raises IntegrityError
    and inserts nothing.  It is not all or nothing: when only CS205 is
    there, it raises IntegrityError after it has inserted CS101. *)
Theorem seed_courses_effect (c : connection Exercises.database) :
  closed c = false ->
  Exercises.catalog (db c) = Spec.exercises_schema ->
  let d := db c in
  let m := Z.max (Exercises.seq_courses d) (max_id (map Exercises.c_id (Exercises.courses d))) in
  let has code := existsb (fun k => (Exercises.c_code k =? code)%string)
                          (Exercises.courses d) in
  let o := Exercises.seed_courses c in
  m < 2 ^ 63 - 3 ->
  (has "CS101" = false -> has "CS205" = false -> has "CS310" = false ->
   result o = inr tt
   /\ Exercises.courses (db (final o))
      = (Exercises.courses d
         ++ [ Exercises.Course (m + 1) "CS101" "Intro to Programming";
              Exercises.Course (m + 2) "CS205" "Web Development";
              Exercises.Course (m + 3) "CS310" "Data Structures" ])%list
   /\ Exercises.students (db (final o)) = Exercises.students d
   /\ Exercises.enrollments (db (final o)) = Exercises.enrollments d
   /\ on_disk (final o) = on_disk c)
  /\ (has "CS101" = true ->
      result o = inl IntegrityError /\ db (final o) = d)
  /\ (has "CS101" = false -> has "CS205" = true ->
      result o = inl IntegrityError
      /\ Exercises.courses (db (final o))
         = (Exercises.courses d
            ++ [Exercises.Course (m + 1) "CS101" "Intro to Programming"])%list).
Proof.
  intros Hc Hcat. cbv zeta. intros Hroom.
  unfold Exercises.seed_courses, executemany. cbv zeta.
  rewrite Hc, (compile_seed_courses _ Hcat).
  cbn [command_is_dml engine_is_dml Exercises.engine Exercises.is_dml for_each].
  set (c0 := implicit_begin (Statement Exercises.InsertCourse) c).
  assert (D0 : db c0 = db c) by apply (proj1 (implicit_begin_same _ c)).
  assert (T0 : txn c0 = Some (on_disk c))
    by (apply (implicit_begin_txn Exercises.InsertCourse); reflexivity).
  rewrite insert_course_round, D0.
  unfold Exercises.insert_course.
  rewrite next_rowid_some by lia.
  set (m := Z.max _ _) in *.
  pose proof (max_id_nonneg (map Exercises.c_id (Exercises.courses (db c)))) as Hm.
  assert (Hm' : max_id (map Exercises.c_id (Exercises.courses (db c))) <= m)
    by (unfold m; lia).
  destruct (existsb _ (Exercises.courses (db c))) eqn:X1.
  { split; [discriminate|]. split; [|discriminate]. intros _.
    cbn [result final]. split; [reflexivity | exact D0]. }
  rewrite insert_course_round. cbn [db tick set_db].
  unfold Exercises.insert_course.
  cbn [Exercises.seq_courses Exercises.courses Exercises.catalog Exercises.students
       Exercises.enrollments Exercises.seq_students Exercises.seq_enrollments].
  rewrite map_app. cbn [map Exercises.c_id].
  rewrite next_rowid_some by (rewrite max_id_app; lia).
  rewrite max_id_app.
  replace (Z.max (m + 1) (Z.max (max_id (map Exercises.c_id (Exercises.courses (db c))))
                                (Z.max (m + 1) 0)) + 1) with (m + 2) by lia.
  rewrite has_code_app. cbn [Exercises.c_code].
  replace ("CS101" =? "CS205")%string with false by reflexivity. rewrite orb_false_r.
  destruct (existsb (fun k => (Exercises.c_code k =? "CS205")%string)
                    (Exercises.courses (db c))) eqn:X2.
  { split; [discriminate|]. split; [discriminate|]. intros _ _.
    cbn [result final Spec.after]. split; reflexivity. }
  rewrite insert_course_round. cbn [db tick set_db].
  unfold Exercises.insert_course.
  cbn [Exercises.seq_courses Exercises.courses Exercises.catalog Exercises.students
       Exercises.enrollments Exercises.seq_students Exercises.seq_enrollments].
  rewrite !map_app. cbn [map Exercises.c_id].
  rewrite next_rowid_some by (rewrite !max_id_app; lia).
  rewrite !max_id_app.
  replace (Z.max (m + 2) _ + 1) with (m + 3) by lia.
  rewrite !has_code_app. cbn [Exercises.c_code].
  replace ("CS101" =? "CS310")%string with false by reflexivity.
  replace ("CS205" =? "CS310")%string with false by reflexivity.
  rewrite !orb_false_r.
  destruct (existsb (fun k => (Exercises.c_code k =? "CS310")%string)
                    (Exercises.courses (db c))) eqn:X3.
  { split; [discriminate|]. split; discriminate. }
  split; [|split; discriminate]. intros _ _ _.
  cbn [result final Spec.after ret db tick set_db Exercises.courses
       Exercises.students Exercises.enrollments].
  rewrite <- !app_assoc. repeat split.
  unfold on_disk at 1. cbn [txn tick set_db]. rewrite T0. reflexivity.
Qed.

Lemma seed_courses_effect_witness :
  result (Exercises.seed_courses Spec.exercises_ready) = inr tt
  /\ Exercises.courses (db (final (Exercises.seed_courses Spec.exercises_ready)))
     = [ Exercises.Course 1 "CS101" "Intro to Programming";
         Exercises.Course 2 "CS205" "Web Development";
         Exercises.Course 3 "CS310" "Data Structures" ]
  /\ result (Exercises.seed_courses Spec.exercises_sample) = inl IntegrityError.
Proof.
  pose proof (seed_courses_effect Spec.exercises_ready eq_refl eq_refl) as H.
  pose proof (seed_courses_effect Spec.exercises_sample eq_refl eq_refl) as H'.
  cbv zeta in H, H'.
  destruct (H eq_refl) as (A & _). destruct (H' eq_refl) as (_ & B & _).
  destruct (A eq_refl eq_refl eq_refl) as (R & C & _).
  destruct (B eq_refl) as (R' & _).
  split; [exact R|]. split; [exact C | exact R'].
Defined.

(* ================================================================== *)
(** ** Enrolling and listing *)

Lemma joined_app (d d' : Exercises.database) (x : Exercises.enrollment)
      (s : Exercises.student) (k : Exercises.course) :
  Exercises.students d' = Exercises.students d ->
  Exercises.courses d' = Exercises.courses d ->
  Exercises.enrollments d' = (Exercises.enrollments d ++ [x])%list ->
  Spec.distinct Z.eqb (map Exercises.s_id (Exercises.students d)) = true ->
  Spec.distinct Z.eqb (map Exercises.c_id (Exercises.courses d)) = true ->
  In s (Exercises.students d) -> In k (Exercises.courses d) ->
  Exercises.e_student_id x = Exercises.s_id s ->
  Exercises.e_course_id x = Exercises.c_id k ->
  Exercises.joined d'
  = (Exercises.joined d
     ++ [(Exercises.s_name s, Exercises.c_code k, Exercises.c_title k)])%list.
Proof.
  intros S' K' E' Ds Dk Hs Hk Es Ek. unfold Exercises.joined.
  rewrite S', K', E', flat_map_app. f_equal. cbn [flat_map]. rewrite app_nil_r.
  rewrite Es, Ek, (filter_id Exercises.s_id _ s Ds Hs). cbn [flat_map].
  rewrite (filter_id Exercises.c_id _ k Dk Hk). reflexivity.
Qed.

(** X11: [enroll_student] of a student and a course that exist, for a pair
    not yet enrolled and with a rowid left, returns; [list_enrollments]
    then returns the rows it returned before and one more, with the name
    of the student and the code and title of the course, in the order of
    the report. *)
Theorem enroll_student_then_list (c : connection Exercises.database)
        (s : Exercises.student) (k : Exercises.course) :
  closed c = false ->
  Exercises.catalog (db c) = Spec.exercises_schema ->
  Spec.distinct Z.eqb (map Exercises.s_id (Exercises.students (db c))) = true ->
  Spec.distinct Z.eqb (map Exercises.c_id (Exercises.courses (db c))) = true ->
  In s (Exercises.students (db c)) ->
  In k (Exercises.courses (db c)) ->
  int64 (Exercises.s_id s) = true -> int64 (Exercises.c_id k) = true ->
  existsb (fun x => (Exercises.e_student_id x =? Exercises.s_id s)
                    && (Exercises.e_course_id x =? Exercises.c_id k))
          (Exercises.enrollments (db c)) = false ->
  Z.max (Exercises.seq_enrollments (db c))
        (max_id (map Exercises.e_id (Exercises.enrollments (db c)))) < 2 ^ 63 - 1 ->
  let o := Exercises.enroll_student (Exercises.s_id s) (Exercises.c_id k) c in
  result o = inr tt
  /\ exists before after,
       result (Exercises.list_enrollments c) = inr (map Exercises.enrollment_row before)
       /\ result (Exercises.list_enrollments (final o))
          = inr (map Exercises.enrollment_row after)
       /\ Permutation after
            ((Exercises.s_name s, Exercises.c_code k, Exercises.c_title k) :: before)
       /\ StronglySorted Spec.name_code_le after.
Proof.
  intros Hc Hcat Ds Dk Hs Hk Is Ik Hnew Hroom. cbv zeta.
  rewrite (enroll_student_outcome c _ _ Hc Hcat Is Ik).
  unfold Exercises.insert_enrollment. rewrite (next_rowid_some _ _ Hroom), Hnew.
  assert (Xs : existsb (fun x => Exercises.s_id x =? Exercises.s_id s)
                       (Exercises.students (db c)) = true)
    by (apply exists_id; eauto).
  assert (Xk : existsb (fun x => Exercises.c_id x =? Exercises.c_id k)
                       (Exercises.courses (db c)) = true)
    by (apply exists_course_id; eauto).
  rewrite Xs, Xk, andb_false_r. cbn [result final andb negb].
  split; [reflexivity|].
  exists (sort_by Exercises.by_name_code (Exercises.joined (db c))).
  eexists. split; [apply (list_enrollments_result c Hc Hcat)|].
  split.
  - rewrite list_enrollments_result.
    + cbn [db tick set_db]. unfold Exercises.select_enrollments.
      erewrite (joined_app (db c) _ _ s k); try reflexivity; auto.
    + cbn. destruct (implicit_begin_same (Statement Exercises.InsertEnrollment) c)
        as (_ & _ & C & _). congruence.
    + exact Hcat.
  - split; [|apply sort_by_name_code].
    etransitivity; [apply sort_by_perm|].
    etransitivity; [apply Permutation_app_comm|]. cbn [app].
    constructor. symmetry. apply sort_by_perm.
Qed.

Lemma enroll_student_then_list_witness :
  result (Exercises.enroll_student 2 3 Spec.exercises_sample) = inr tt
  /\ exists before after,
       result (Exercises.list_enrollments Spec.exercises_sample)
       = inr (map Exercises.enrollment_row before)
       /\ result (Exercises.list_enrollments
                    (final (Exercises.enroll_student 2 3 Spec.exercises_sample)))
          = inr (map Exercises.enrollment_row after)
       /\ Permutation after (("Rena", "CS310", "Data Structures") :: before)
       /\ StronglySorted Spec.name_code_le after.
Proof.
  exact (enroll_student_then_list Spec.exercises_sample
           (Exercises.Student 2 "Rena" "rena@example.com")
           (Exercises.Course 3 "CS310" "Data Structures")
           eq_refl eq_refl eq_refl eq_refl
           (or_intror (or_introl eq_refl))
           (or_intror (or_intror (or_introl eq_refl)))
           eq_refl eq_refl eq_refl eq_refl).
Defined.

(* ================================================================== *)
(** ** The operations of homework.py *)

Section HomeworkFacts.
Context {real : Type} {F : Homework.Floats real}.

Lemma compile_add_assignment (d : Homework.database) :
  Homework.catalog d = Spec.homework_schema ->
  compile d "INSERT INTO assignments (title, max_points) VALUES (?, ?)"
  = Some (Statement Homework.InsertAssignment).
Proof.
  intros H. unfold compile. cbv -[Homework.catalog]. rewrite H. reflexivity.
Qed.

Lemma compile_record_grade (d : Homework.database) :
  Homework.catalog d = Spec.homework_schema ->
  compile d "INSERT INTO grades (student_id, assignment_id, score) VALUES (?, ?, ?)"
  = Some (Statement Homework.InsertGrade).
Proof.
  intros H. unfold compile. cbv -[Homework.catalog]. rewrite H. reflexivity.
Qed.

Lemma compile_list_students (d : Homework.database) :
  Homework.catalog d = Spec.homework_schema ->
  compile d "SELECT * FROM students ORDER BY name"
  = Some (Statement Homework.SelectStudents).
Proof.
  intros H. unfold compile. cbv -[Homework.catalog]. rewrite H. reflexivity.
Qed.


Lemma compile_leaderboard (d : Homework.database) :
  Homework.catalog d = Spec.homework_schema ->
  compile d "
                       SELECT
                           students.name AS student_name,
                           ROUND(AVG(1.0 * grades.score / assignments.max_points * 100), 1) AS avg_percent
                       FROM grades
                                JOIN students ON grades.student_id = students.id
                                JOIN assignments ON grades.assignment_id = assignments.id
                       GROUP BY students.id
                       ORDER BY avg_percent DESC
                       "
  = Some (Statement Homework.SelectLeaderboard).
Proof.
  intros H. unfold compile. cbv -[Homework.catalog]. rewrite H. reflexivity.
Qed.

Lemma add_assignment_outcome (c : connection Homework.database) (title : string)
      (max_points : Z) :
  closed c = false ->
  Homework.catalog (db c) = Spec.homework_schema ->
  int64 max_points = true ->
  Homework.add_assignment title max_points c
  = match Homework.insert_assignment (real := real) title max_points (db c) with
    | inl e =>
        Outcome (inl e) (tick (implicit_begin (Statement Homework.InsertAssignment) c))
                [Exec "INSERT INTO assignments (title, max_points) VALUES (?, ?)"
                      [VText title; VInt max_points]]
    | inr (cur, d') =>
        Outcome (inr (lastrowid cur))
                (tick (set_db d' (implicit_begin (Statement Homework.InsertAssignment) c)))
                [Exec "INSERT INTO assignments (title, max_points) VALUES (?, ?)"
                      [VText title; VInt max_points]]
    end.
Proof.
  intros Hc Hcat Hm. unfold Homework.add_assignment.
  etransitivity.
  - apply (execute_ret (@lastrowid real) Homework.InsertAssignment _
             [VText title; VInt max_points] c Hc (compile_add_assignment _ Hcat) eq_refl).
    cbn. rewrite Hm. reflexivity.
  - reflexivity.
Qed.

Lemma record_grade_outcome (c : connection Homework.database) (sid aid score : Z) :
  closed c = false ->
  Homework.catalog (db c) = Spec.homework_schema ->
  int64 sid = true -> int64 aid = true -> int64 score = true ->
  Homework.record_grade sid aid score c
  = match Homework.insert_grade (real := real)
            (Env (foreign_keys c) (clock c (ticks c))) sid aid score (db c) with
    | inl e =>
        Outcome (inl e) (tick (implicit_begin (Statement Homework.InsertGrade) c))
                [Exec "INSERT INTO grades (student_id, assignment_id, score) VALUES (?, ?, ?)"
                      [VInt sid; VInt aid; VInt score]]
    | inr (cur, d') =>
        Outcome (inr (lastrowid cur))
                (tick (set_db d' (implicit_begin (Statement Homework.InsertGrade) c)))
                [Exec "INSERT INTO grades (student_id, assignment_id, score) VALUES (?, ?, ?)"
                      [VInt sid; VInt aid; VInt score]]
    end.
Proof.
  intros Hc Hcat Hs Ha Hv. unfold Homework.record_grade.
  etransitivity.
  - apply (execute_ret (@lastrowid real) Homework.InsertGrade _
             [VInt sid; VInt aid; VInt score] c Hc (compile_record_grade _ Hcat) eq_refl).
    cbn. rewrite Hs, Ha, Hv. reflexivity.
  - reflexivity.
Qed.

(** A query: the rows, and the connection as it was but for the tick. *)
Lemma query_outcome (s : Homework.stmt) (sql : string) (params : list (value real))
      (rows : list (row real)) (c : connection Homework.database) :
  closed c = false ->
  compile (db c) sql = Some (Statement s) ->
  List.length params = count_placeholders sql ->
  bind_parameters params = inr params ->
  Homework.is_dml s = false ->
  (forall e, Homework.step e s params (db c) = inr (Cursor 0 (-1) rows, db c)) ->
  (cur <- execute sql params ;; ret (fetchall cur)) c
  = Outcome (inr rows) (tick c) [Exec sql params].
Proof.
  intros Hc Hp Hn Hb Hd Hs.
  rewrite (execute_ret (@fetchall real) s sql params c Hc Hp Hn Hb).
  cbn [engine_step Homework.engine]. rewrite Hs.
  unfold implicit_begin. cbn [command_is_dml engine_is_dml Homework.engine].
  rewrite Hd. destruct c; reflexivity.
Qed.

End HomeworkFacts.

Section HomeworkOperations.
Context {real : Type} {F : Homework.Floats real}.

(** X12: [add_assignment] refuses an assignment whose max_points is not
    positive (the CHECK of the schema): it raises IntegrityError and the
    database is as it was.  With positive max_points it returns a new id,
    larger than every id of the table, and appends the assignment. *)
Theorem add_assignment_checks_max_points (c : connection Homework.database)
        (title : string) (max_points : Z) :
  closed c = false ->
  Homework.catalog (db c) = Spec.homework_schema ->
  int64 max_points = true ->
  Z.max (Homework.seq_assignments (db c))
        (max_id (map Homework.a_id (Homework.assignments (db c)))) < 2 ^ 63 - 1 ->
  let o := Homework.add_assignment title max_points c in
  (max_points <= 0 -> result o = inl IntegrityError /\ db (final o) = db c)
  /\ (0 < max_points ->
      exists id,
        result o = inr id
        /\ (forall a, In a (Homework.assignments (db c)) -> Homework.a_id a < id)
        /\ Homework.assignments (db (final o))
           = (Homework.assignments (db c)
              ++ [Homework.Assignment id title max_points])%list
        /\ Homework.students (db (final o)) = Homework.students (db c)
        /\ Homework.grades (db (final o)) = Homework.grades (db c)).
Proof.
  intros Hc Hcat Hm Hroom. cbv zeta.
  rewrite (add_assignment_outcome c title max_points Hc Hcat Hm).
  unfold Homework.insert_assignment. rewrite (next_rowid_some _ _ Hroom).
  destruct (Z.ltb_spec 0 max_points) as [P|N]; cbn [negb result final].
  - split; [lia|]. intros _. eexists. split; [reflexivity|].
    cbn [lastrowid db tick set_db Homework.assignments Homework.students Homework.grades].
    split; [|auto].
    intros a Ha. pose proof (max_id_ge _ _ (in_map Homework.a_id _ _ Ha)). lia.
  - split; [|lia]. intros _. split; [reflexivity|].
    apply (proj1 (implicit_begin_same _ c)).
Qed.

(** X13: [record_grade], foreign keys enforced and a rowid left, returns
    the id of the new grade exactly when the score is not negative, the
    student has no grade yet for the assignment, and the student and the
    assignment exist; it then appends the grade.  Otherwise it raises
    IntegrityError and the database is as it was. *)
Theorem record_grade_checks (c : connection Homework.database) (sid aid score : Z) :
  closed c = false ->
  foreign_keys c = true ->
  Homework.catalog (db c) = Spec.homework_schema ->
  int64 sid = true -> int64 aid = true -> int64 score = true ->
  Z.max (Homework.seq_grades (db c))
        (max_id (map Homework.g_id (Homework.grades (db c)))) < 2 ^ 63 - 1 ->
  let o := Homework.record_grade sid aid score c in
  let d := db c in
  if (0 <=? score)
     && negb (existsb (fun g => (Homework.g_student_id g =? sid)
                                && (Homework.g_assignment_id g =? aid))
                      (Homework.grades d))
     && existsb (fun s => Homework.s_id s =? sid) (Homework.students d)
     && existsb (fun a => Homework.a_id a =? aid) (Homework.assignments d)
  then exists id,
         result o = inr id
         /\ (forall g, In g (Homework.grades d) -> Homework.g_id g < id)
         /\ Homework.grades (db (final o))
            = (Homework.grades d ++ [Homework.Grade id sid aid score])%list
         /\ Homework.students (db (final o)) = Homework.students d
         /\ Homework.assignments (db (final o)) = Homework.assignments d
  else result o = inl IntegrityError /\ db (final o) = d.
Proof.
  intros Hc Hf Hcat Hs Ha Hv Hroom. cbv zeta.
  rewrite (record_grade_outcome c sid aid score Hc Hcat Hs Ha Hv).
  unfold Homework.insert_grade. rewrite (next_rowid_some _ _ Hroom), Hf.
  cbn [env_foreign_keys andb].
  pose proof (proj1 (implicit_begin_same (Statement Homework.InsertGrade) c)) as D.
  destruct (0 <=? score); cbn [negb andb result final]; [|auto].
  destruct (existsb _ (Homework.grades (db c))); cbn [negb andb result final]; [auto|].
  destruct (existsb _ (Homework.students (db c))); cbn [negb andb result final];
    [|auto].
  destruct (existsb _ (Homework.assignments (db c))); cbn [negb andb result final];
    [|auto].
  eexists. split; [reflexivity|].
  cbn [lastrowid db tick set_db Homework.assignments Homework.students Homework.grades].
  split; [|auto].
  intros g Hg. pose proof (max_id_ge _ _ (in_map Homework.g_id _ _ Hg)). lia.
Qed.

Lemma name_leb_total (a b : Homework.student) :
  (Homework.s_name a <=? Homework.s_name b)%string = false ->
  (Homework.s_name b <=? Homework.s_name a)%string = true.
Proof.
  intros H. apply leb_le.
  assert (N : ~ Spec.text_le (Homework.s_name a) (Homework.s_name b))
    by (rewrite <- leb_le; congruence).
  unfold Spec.text_le in *.
  destruct (text_total (Homework.s_name a) (Homework.s_name b)) as [L|[E|L]]; tauto.
Qed.

Lemma text_le_trans (a b c : string) :
  Spec.text_le a b -> Spec.text_le b c -> Spec.text_le a c.
Proof.
  unfold Spec.text_le. intros [L1 | ->] [L2 | ->]; auto.
  left. eapply String_as_OT.lt_trans; eauto.
Qed.

(** X14: [list_students] returns every student once, as a row with the
    fields id, name and email, in the order of the names (on their bytes);
    the database is not changed. *)
Theorem list_students_sorted (c : connection Homework.database) :
  closed c = false ->
  Homework.catalog (db c) = Spec.homework_schema ->
  let o := Homework.list_students c in
  exists l,
    result o
    = inr (map (fun s => [ ("id", VInt (Homework.s_id s));
                           ("name", VText (Homework.s_name s));
                           ("email", VText (Homework.s_email s)) ]) l)
    /\ Permutation l (Homework.students (db c))
    /\ StronglySorted (fun a b => Spec.text_le (Homework.s_name a) (Homework.s_name b)) l
    /\ db (final o) = db c.
Proof.
  intros Hc Hcat. cbv zeta. unfold Homework.list_students.
  rewrite (query_outcome Homework.SelectStudents _ []
             (Homework.select_students (db c)) c Hc (compile_list_students _ Hcat)
             eq_refl eq_refl eq_refl (fun _ => eq_refl)).
  exists (sort_by (fun a b => (Homework.s_name a <=? Homework.s_name b)%string)
                  (Homework.students (db c))).
  cbn [result final db tick]. split; [reflexivity|].
  split; [apply sort_by_perm|]. split; [|reflexivity].
  apply Sorted_StronglySorted.
  - intros x y z. apply text_le_trans.
  - pose proof (sort_by_sorted _ name_leb_total (Homework.students (db c))) as H.
    induction H as [|x r Hs IH Hd]; constructor; auto.
    destruct Hd; constructor. now apply leb_le.
Qed.

End HomeworkOperations.

Lemma add_assignment_checks_max_points_witness :
  result (Homework.add_assignment (F := Spec.one_real) "Quiz 1" 0 Spec.homework_ready)
  = inl IntegrityError
  /\ exists id,
       result (Homework.add_assignment (F := Spec.one_real) "Quiz 1" 10
                 Spec.homework_ready) = inr id.
Proof.
  destruct (add_assignment_checks_max_points (F := Spec.one_real) Spec.homework_ready
              "Quiz 1" 0 eq_refl eq_refl eq_refl eq_refl) as (A & _).
  destruct (add_assignment_checks_max_points (F := Spec.one_real) Spec.homework_ready
              "Quiz 1" 10 eq_refl eq_refl eq_refl eq_refl) as (_ & B).
  split.
  - apply A. discriminate.
  - destruct (B eq_refl) as (id & R & _). exists id. exact R.
Defined.

Lemma record_grade_checks_witness :
  (exists id,
      result (Homework.record_grade (F := Spec.one_real) 1 3 150 Spec.homework_sample)
      = inr id
      /\ Homework.grades
           (db (final (Homework.record_grade (F := Spec.one_real) 1 3 150
                         Spec.homework_sample)))
         = (Homework.grades (db Spec.homework_sample)
            ++ [Homework.Grade id 1 3 150])%list)
  /\ result (Homework.record_grade (F := Spec.one_real) 1 1 8 Spec.homework_sample)
     = inl IntegrityError
  /\ result (Homework.record_grade (F := Spec.one_real) 1 3 (-1) Spec.homework_sample)
     = inl IntegrityError
  /\ result (Homework.record_grade (F := Spec.one_real) 9 3 5 Spec.homework_sample)
     = inl IntegrityError.
Proof.
  pose proof (record_grade_checks (F := Spec.one_real) Spec.homework_sample 1 3 150
                eq_refl eq_refl eq_refl eq_refl eq_refl eq_refl eq_refl) as A.
  pose proof (record_grade_checks (F := Spec.one_real) Spec.homework_sample 1 1 8
                eq_refl eq_refl eq_refl eq_refl eq_refl eq_refl eq_refl) as B.
  pose proof (record_grade_checks (F := Spec.one_real) Spec.homework_sample 1 3 (-1)
                eq_refl eq_refl eq_refl eq_refl eq_refl eq_refl eq_refl) as C.
  pose proof (record_grade_checks (F := Spec.one_real) Spec.homework_sample 9 3 5
                eq_refl eq_refl eq_refl eq_refl eq_refl eq_refl eq_refl) as D.
  cbv zeta in A, B, C, D.
  split; [|split; [exact (proj1 B) | split; [exact (proj1 C) | exact (proj1 D)]]].
  destruct A as (id & R & _ & G & _). exists id. split; assumption.
Defined.

Lemma list_students_sorted_witness :
  exists l,
    result (Homework.list_students (F := Spec.one_real) Spec.homework_sample)
    = inr (map (fun s => [ ("id", VInt (Homework.s_id s));
                           ("name", VText (Homework.s_name s));
                           ("email", VText (Homework.s_email s)) ]) l)
    /\ Permutation l (Homework.students (db Spec.homework_sample))
    /\ StronglySorted (fun a b => Spec.text_le (Homework.s_name a) (Homework.s_name b)) l.
Proof.
  destruct (list_students_sorted (F := Spec.one_real) Spec.homework_sample
              eq_refl eq_refl) as (l & R & P & S & _).
  exists l. repeat split; assumption.
Defined.

(* ================================================================== *)
(** ** The reports of homework.py *)

Section HomeworkReports.
Context {real : Type} {F : Homework.Floats real}.

Lemma homework_references_iff (d : Homework.database) :
  Spec.homework_references_ok d = true
  <-> forall g, In g (Homework.grades d) ->
        (exists s, In s (Homework.students d)
                   /\ Homework.s_id s = Homework.g_student_id g)
        /\ (exists a, In a (Homework.assignments d)
                      /\ Homework.a_id a = Homework.g_assignment_id g).
Proof.
  unfold Spec.homework_references_ok. rewrite forallb_forall.
  split; intros H g Hg; specialize (H g Hg).
  - apply andb_true_iff in H. destruct H as [H1 H2].
    split; [apply exists_key in H1 | apply exists_key in H2]; assumption.
  - destruct H as [(s & Hs & Es) (a & Ha & Ea)].
    apply andb_true_iff. split; apply existsb_exists;
      [exists s | exists a]; split; auto; now apply Z.eqb_eq.
Qed.

(** The assignment of a grade, where the ids are distinct and the
    references hold. *)
Lemma assignment_of (d : Homework.database) (g : Homework.grade) :
  Spec.distinct Z.eqb (map Homework.a_id (Homework.assignments d)) = true ->
  Spec.homework_references_ok d = true ->
  Spec.homework_checks_ok d = true ->
  In g (Homework.grades d) ->
  exists a,
    In a (Homework.assignments d)
    /\ Homework.a_id a = Homework.g_assignment_id g
    /\ 0 < Homework.a_max_points a
    /\ filter (fun a => Homework.a_id a =? Homework.g_assignment_id g)
              (Homework.assignments d) = [a]
    /\ find (fun a => Homework.a_id a =? Homework.g_assignment_id g)
            (Homework.assignments d) = Some a.
Proof.
  intros Da R K Hg.
  destruct (proj1 (homework_references_iff d) R g Hg) as [_ (a & Ha & Ea)].
  exists a. split; auto. split; auto.
  unfold Spec.homework_checks_ok in K. apply andb_true_iff in K. destruct K as [K _].
  rewrite forallb_forall in K. specialize (K a Ha). apply Z.ltb_lt in K.
  split; auto.
  assert (Fl : filter (fun a => Homework.a_id a =? Homework.g_assignment_id g)
                      (Homework.assignments d) = [a])
    by (rewrite <- Ea; apply (filter_id Homework.a_id _ a Da Ha)).
  split; [exact Fl | apply find_first, Fl].
Qed.

Lemma percent_of (d : Homework.database) (g : Homework.grade) (a : Homework.assignment) :
  find (fun a => Homework.a_id a =? Homework.g_assignment_id g)
       (Homework.assignments d) = Some a ->
  0 < Homework.a_max_points a ->
  Homework.percent (Homework.g_score g) (Homework.a_max_points a)
  = Some (Spec.grade_percent d g).
Proof.
  intros Fd P. unfold Homework.percent, Spec.grade_percent. rewrite Fd.
  destruct (Z.eqb_spec (Homework.a_max_points a) 0); [lia | reflexivity].
Qed.


End HomeworkReports.


(* ================================================================== *)
(** ** The constraints of the schema of homework.py *)

Lemma homework_keys_iff (d : Homework.database) :
  Spec.homework_keys_ok d = true
  <-> NoDup (map Homework.s_id (Homework.students d))
      /\ NoDup (map Homework.s_email (Homework.students d))
      /\ NoDup (map Homework.a_id (Homework.assignments d))
      /\ NoDup (map Homework.g_id (Homework.grades d))
      /\ NoDup (map (fun g => (Homework.g_student_id g, Homework.g_assignment_id g))
                    (Homework.grades d)).
Proof.
  unfold Spec.homework_keys_ok. rewrite !andb_true_iff.
  rewrite !(distinct_NoDup Z.eqb Z.eqb_eq), !(distinct_NoDup String.eqb String.eqb_eq),
    (distinct_NoDup Spec.same_pair same_pair_eq).
  tauto.
Qed.

Lemma homework_checks_iff (d : Homework.database) :
  Spec.homework_checks_ok d = true
  <-> (forall a, In a (Homework.assignments d) -> 0 < Homework.a_max_points a)
      /\ (forall g, In g (Homework.grades d) -> 0 <= Homework.g_score g).
Proof.
  unfold Spec.homework_checks_ok. rewrite andb_true_iff, !forallb_forall.
  split; intros [A B]; split; intros x Hx.
  - apply Z.ltb_lt, A, Hx.
  - apply Z.leb_le, B, Hx.
  - apply Z.ltb_lt, A, Hx.
  - apply Z.leb_le, B, Hx.
Qed.

Section HomeworkInvariant.
Context {real : Type} {F : Homework.Floats real}.

Lemma homework_step_keeps (now : string) (s : Homework.stmt)
      (vs : list (value real)) (d : Homework.database)
      (cur : cursor real) (d' : Homework.database) :
  Spec.homework_constraints d ->
  Homework.step (Env true now) s vs d = inr (cur, d') ->
  Spec.homework_constraints d'.
Proof.
  unfold Spec.homework_constraints.
  rewrite !homework_keys_iff, !homework_checks_iff, !homework_references_iff.
  intros ((Ks & Ke & Ka & Kg & Kp) & (Ca & Cg) & R) H.
  unfold Homework.step in H.
  repeat match type of H with
         | match ?x with _ => _ end = inr _ => destruct x; try discriminate H
         end;
    try (injection H as <- <-; tauto).
  - (* INSERT INTO students *)
    unfold Homework.insert_student in H.
    destruct (next_rowid _ _) as [i|] eqn:N; [|discriminate].
    destruct (existsb _ _) eqn:X; [discriminate|]. injection H as <- <-.
    cbn [Homework.students Homework.assignments Homework.grades].
    rewrite !map_app. cbn [map Homework.s_id Homework.s_email].
    repeat split; auto.
    + eapply NoDup_next_rowid; eauto.
    + apply NoDup_snoc; auto. apply (not_in_map String.eqb); auto using String.eqb_eq.
    + destruct (R g H) as [(x & Hx & Ex) _]. exists x. split; auto.
      apply in_or_app; auto.
    + apply (R g H).
  - (* INSERT INTO assignments *)
    unfold Homework.insert_assignment in H.
    destruct (next_rowid _ _) as [i|] eqn:N; [|discriminate].
    destruct (0 <? _) eqn:P; [|discriminate]. apply Z.ltb_lt in P.
    injection H as <- <-.
    cbn [Homework.students Homework.assignments Homework.grades negb].
    rewrite !map_app. cbn [map Homework.a_id].
    repeat split; auto.
    + eapply NoDup_next_rowid; eauto.
    + intros a Ha. apply in_app_or in Ha. destruct Ha as [Ha|[<-|[]]]; auto.
    + apply (R g H).
    + destruct (R g H) as [_ (x & Hx & Ex)]. exists x. split; auto.
      apply in_or_app; auto.
  - (* INSERT INTO grades *)
    unfold Homework.insert_grade in H.
    destruct (next_rowid _ _) as [i|] eqn:N; [|discriminate].
    destruct (0 <=? _) eqn:P; [|discriminate]. apply Z.leb_le in P. cbn [negb] in H.
    destruct (existsb _ (Homework.grades d)) eqn:X; [discriminate|].
    cbn [env_foreign_keys andb] in H.
    destruct (existsb _ (Homework.students d)) eqn:Xs; [|discriminate].
    destruct (existsb _ (Homework.assignments d)) eqn:Xa; [|discriminate].
    cbn [negb andb] in H. injection H as <- <-.
    cbn [Homework.students Homework.assignments Homework.grades].
    rewrite !map_app.
    cbn [map Homework.g_id Homework.g_student_id Homework.g_assignment_id].
    repeat split; auto.
    + eapply NoDup_next_rowid; eauto.
    + apply NoDup_snoc; auto.
      apply (not_in_map Spec.same_pair
               (fun g => (Homework.g_student_id g, Homework.g_assignment_id g)));
        auto using same_pair_eq.
    + intros g Hg. apply in_app_or in Hg. destruct Hg as [Hg|[<-|[]]]; auto.
    + apply in_app_or in H. destruct H as [H|[<-|[]]]; [apply (R g H)|].
      apply (exists_key Homework.s_id). exact Xs.
    + apply in_app_or in H. destruct H as [H|[<-|[]]]; [apply (R g H)|].
      apply (exists_key Homework.a_id). exact Xa.
Qed.

Lemma homework_perform_keeps (op : Spec.homework_operation)
      (c : connection Homework.database) :
  Spec.kept Spec.homework_constraints c ->
  Spec.kept Spec.homework_constraints (Spec.homework_perform op c).
Proof.
  pose proof (@kept_execute _ _ _ Homework.engine Spec.homework_constraints
                            homework_step_keeps) as Kx.
  assert (Kr : forall A (a : A) c, Spec.kept Spec.homework_constraints c ->
                 Spec.kept Spec.homework_constraints (final (ret (real := real) a c)))
    by (intros; assumption).
  intros K. destruct op; cbn [Spec.homework_perform].
  - unfold Homework.create_schema.
    apply kept_bind; [intros; apply Kx; assumption | intros _ c1 K1 | exact K].
    apply kept_bind; [intros; apply Kx; assumption | intros _ c2 K2 | exact K1].
    apply kept_bind; [intros; apply Kx; assumption | intros _ c3 K3 | exact K2].
    exact K3.
  - apply kept_bind; auto.
  - apply kept_bind; auto.
  - apply kept_bind; auto.
  - apply kept_bind; auto.
  - apply kept_bind; auto.
  - apply kept_bind; auto.
  - apply Kx, K.
  - apply kept_commit, K.
  - apply kept_close, K.
Qed.

(** X16: the constraints of the schema of homework.py always hold.
    Whatever the file held before [reset_db], after [connect] and any
    sequence of the operations of the script, whether they return or
    raise, no two students share an id or an email, no two assignments an
    id, no two grades an id or a pair of student and assignment, every
    max_points is positive, no score is negative, and every grade
    references a student and an assignment that exist; this holds of the
    database the connection sees and of the one on disk. *)
Theorem homework_constraints_always (disk : option Homework.database)
        (clk : nat -> string) (ops : list (Spec.homework_operation (real := real))) :
  let c := Spec.homework_perform_all ops
             (final (Homework.connect (Homework.reset_db disk) clk)) in
  Spec.homework_constraints (db c) /\ Spec.homework_constraints (on_disk c).
Proof.
  cbv zeta.
  assert (K : Spec.kept Spec.homework_constraints
                (Spec.homework_perform_all ops
                   (final (Homework.connect (Homework.reset_db disk) clk)))).
  { unfold Spec.homework_perform_all.
    assert (K0 : Spec.kept Spec.homework_constraints
                   (final (Homework.connect (Homework.reset_db disk) clk))).
    { replace (Homework.reset_db disk) with (@None Homework.database)
        by (destruct disk; reflexivity).
      split; [reflexivity|]. split; [repeat split|]. cbn. discriminate. }
    revert K0. generalize (final (Homework.connect (Homework.reset_db disk) clk)).
    induction ops as [|op ops IH]; intros c K; cbn [fold_left]; auto.
    apply IH, homework_perform_keeps, K. }
  destruct K as (_ & D & T). split; auto.
  unfold on_disk. destruct (txn _) eqn:X; auto.
Qed.

End HomeworkInvariant.

(* ================================================================== *)
(** ** The leaderboard *)

Lemma filter_map_comm {A B} (f : A -> B) (p : B -> bool) (l : list A) :
  filter p (map f l) = map f (filter (fun x => p (f x)) l).
Proof.
  induction l as [|x l IH]; simpl; auto.
  destruct (p (f x)); simpl; rewrite IH; reflexivity.
Qed.

Lemma Sorted_among {A} (R R' : A -> A -> Prop) (P : A -> Prop) (l : list A) :
  (forall a b, P a -> P b -> R a b -> R' a b) ->
  Forall P l -> Sorted R l -> Sorted R' l.
Proof.
  intros H Hall Hs. induction Hs as [|x l Hs IH Hd]; [constructor|].
  inversion Hall as [|? ? Px Pl]; subst. constructor; auto.
  destruct Hd as [|y l Hy]; constructor.
  inversion Pl; subst. auto.
Qed.

Section Leaderboard.
Context {real : Type} {F : Homework.Floats real}.

Variable d : Homework.database.
Hypothesis K : Spec.homework_constraints d.

Lemma student_of (s : Homework.student) :
  In s (Homework.students d) ->
  filter (fun x => Homework.s_id x =? Homework.s_id s) (Homework.students d) = [s]
  /\ Spec.student_name d (Homework.s_id s) = Homework.s_name s.
Proof.
  intros Hs. destruct K as (Kk & _ & _).
  unfold Spec.homework_keys_ok in Kk. rewrite !andb_true_iff in Kk.
  destruct Kk as ((((Ds & _) & _) & _) & _).
  pose proof (filter_id Homework.s_id _ s Ds Hs) as Fl.
  split; [exact Fl|]. unfold Spec.student_name.
  rewrite (find_first _ _ _ Fl). reflexivity.
Qed.

(** The join has one row for each grade. *)
Lemma homework_joined :
  Homework.joined d
  = map (fun g => (Homework.g_student_id g,
                   Spec.student_name d (Homework.g_student_id g),
                   Some (Spec.grade_percent d g)))
        (Homework.grades d).
Proof.
  destruct K as (Kk & Kc & Kr).
  assert (Da : Spec.distinct Z.eqb (map Homework.a_id (Homework.assignments d)) = true).
  { unfold Spec.homework_keys_ok in Kk. rewrite !andb_true_iff in Kk. tauto. }
  unfold Homework.joined. apply flat_map_one. intros g Hg.
  destruct (proj1 (homework_references_iff d) Kr g Hg) as [(s & Hs & Es) _].
  destruct (assignment_of d g Da Kr Kc Hg) as (a & _ & _ & P & Fl & Fd).
  destruct (student_of s Hs) as [Fs Ns].
  rewrite <- Es, Fs, Ns. cbn [flat_map]. rewrite app_nil_r.
  rewrite Es, Fl. cbn [map]. rewrite (percent_of d g a Fd P), <- Es. reflexivity.
Qed.

Lemma non_null_some (l : list real) : Homework.non_null (map Some l) = l.
Proof.
  unfold Homework.non_null. induction l as [|x l IH]; simpl; congruence.
Qed.

(** The group of a student id that has a grade. *)
Lemma group_line (k : Z) :
  In k (map Homework.g_student_id (Homework.grades d)) ->
  match filter (fun x : Z * string * option real => fst (fst x) =? k)
               (Homework.joined d) with
  | [] => []
  | x :: r => [(snd (fst x), Homework.round1 (Homework.avg (map snd (x :: r))))]
  end
  = [(Spec.student_name d k,
      VReal (Homework.real_round
               (Homework.real_avg (map (Spec.grade_percent d) (Spec.grades_of d k)))
               1))].
Proof.
  intros Hk. rewrite homework_joined, filter_map_comm. cbn [fst].
  fold (Spec.grades_of d k).
  destruct (Spec.grades_of d k) as [|g gs] eqn:G.
  - apply in_map_iff in Hk. destruct Hk as (g & E & Hg).
    assert (In g (Spec.grades_of d k))
      by (apply filter_In; split; auto; now apply Z.eqb_eq).
    rewrite G in H. destruct H.
  - assert (Eg : Homework.g_student_id g = k).
    { assert (In g (Spec.grades_of d k)) by (rewrite G; left; reflexivity).
      apply filter_In in H. destruct H as [_ E]. now apply Z.eqb_eq. }
    cbn [map fst snd]. rewrite Eg. f_equal. f_equal.
    unfold Homework.avg.
    change (Some (Spec.grade_percent d g)
            :: map snd (map (fun g0 => (Homework.g_student_id g0,
                                        Spec.student_name d (Homework.g_student_id g0),
                                        Some (Spec.grade_percent d g0))) gs))
      with (map snd (map (fun g0 => (Homework.g_student_id g0,
                                     Spec.student_name d (Homework.g_student_id g0),
                                     Some (Spec.grade_percent d g0))) (g :: gs))).
    rewrite map_map. cbn [snd].
    rewrite <- (map_map (Spec.grade_percent d) Some), non_null_some.
    reflexivity.
Qed.

Lemma groups_lines :
  Homework.groups d
  = map (fun k => (Spec.student_name d k,
                   VReal (Homework.real_round
                            (Homework.real_avg
                               (map (Spec.grade_percent d) (Spec.grades_of d k)))
                            1)))
        (sort_by Z.leb (nodup Z.eq_dec (map Homework.g_student_id (Homework.grades d)))).
Proof.
  unfold Homework.groups. cbv zeta.
  replace (map (fun x : Z * string * option real => fst (fst x)) (Homework.joined d))
    with (map Homework.g_student_id (Homework.grades d))
    by (rewrite homework_joined, map_map; reflexivity).
  apply flat_map_one. intros k Hk. apply group_line.
  apply (Permutation_in _ (sort_by_perm Z.leb _)) in Hk.
  apply nodup_In in Hk. exact Hk.
Qed.

(** The ids of the groups are the ids of the students that have grades. *)
Lemma group_ids :
  Permutation
    (sort_by Z.leb (nodup Z.eq_dec (map Homework.g_student_id (Homework.grades d))))
    (map Homework.s_id (filter (Spec.has_grades d) (Homework.students d))).
Proof.
  destruct K as (Kk & Kc & Kr).
  apply homework_keys_iff in Kk. destruct Kk as (Ds & _).
  apply NoDup_Permutation.
  - apply (Permutation_NoDup (Permutation_sym (sort_by_perm Z.leb _))).
    apply NoDup_nodup.
  - apply NoDup_map_filter, Ds.
  - intros k. split.
    + intros Hk. apply (Permutation_in _ (sort_by_perm Z.leb _)) in Hk.
      apply nodup_In, in_map_iff in Hk. destruct Hk as (g & E & Hg).
      destruct (proj1 (homework_references_iff d) Kr g Hg) as [(s & Hs & Es) _].
      apply in_map_iff. exists s. split; [congruence|].
      apply filter_In. split; auto. unfold Spec.has_grades.
      assert (In g (Spec.grades_of d (Homework.s_id s)))
        by (apply filter_In; split; auto; apply Z.eqb_eq; congruence).
      destruct (Spec.grades_of d (Homework.s_id s)); [destruct H | reflexivity].
    + intros Hk. apply in_map_iff in Hk. destruct Hk as (s & E & Hs).
      apply filter_In in Hs. destruct Hs as [Hs Hg]. unfold Spec.has_grades in Hg.
      destruct (Spec.grades_of d (Homework.s_id s)) as [|g gs] eqn:G; [discriminate|].
      assert (In g (Spec.grades_of d (Homework.s_id s))) by (rewrite G; left; reflexivity).
      apply filter_In in H. destruct H as [Hg' Eg]. apply Z.eqb_eq in Eg.
      apply (Permutation_in _ (Permutation_sym (sort_by_perm Z.leb _))).
      apply nodup_In, in_map_iff. exists g. split; [congruence | exact Hg'].
Qed.

Lemma groups_board :
  Permutation (Homework.groups d)
              (map (Spec.board_line d)
                   (filter (Spec.has_grades d) (Homework.students d))).
Proof.
  rewrite groups_lines.
  etransitivity; [apply Permutation_map, group_ids|].
  rewrite map_map. apply Permutation_refl'. apply map_ext_in. intros s Hs.
  apply filter_In in Hs. destruct Hs as [Hs _].
  unfold Spec.board_line. rewrite (proj2 (student_of s Hs)). reflexivity.
Qed.

End Leaderboard.

Section LeaderboardOrder.
Context {real : Type} {F : Homework.Floats real}.

Lemma by_avg_desc_total :
  (forall x y, Homework.real_leb x y = false -> Homework.real_leb y x = true) ->
  forall a b : string * value real,
    Homework.by_avg_desc a b = false -> Homework.by_avg_desc b a = true.
Proof.
  intros T [n1 v1] [n2 v2]. unfold Homework.by_avg_desc. cbn [snd].
  destruct v1, v2; auto; try discriminate.
Qed.

(** X17: on a gradebook that satisfies the constraints of its schema,
    [leaderboard] returns exactly one row for each student that has at
    least one grade, and none for the others: the name of the student,
    and an average that is never NULL: the rounding to one decimal of the
    average of the percents 1.0 * score / max_points * 100 of the grades of
    the student.  Where the order of the REAL values is total, every row
    has an average at least that of the row after it.  The database is not
    changed. *)
Theorem leaderboard_lines (c : connection Homework.database) :
  closed c = false ->
  Homework.catalog (db c) = Spec.homework_schema ->
  Spec.homework_constraints (db c) ->
  let o := Homework.leaderboard c in
  let d := db c in
  exists board : list (string * value real),
    result o
    = inr (map (fun x => [("student_name", VText (fst x)); ("avg_percent", snd x)])
               board)
    /\ Permutation board
         (map (fun s =>
                 (Homework.s_name s,
                  VReal (Homework.real_round
                           (Homework.real_avg
                              (map (Spec.grade_percent d)
                                   (filter (fun g => Homework.g_student_id g
                                                     =? Homework.s_id s)
                                           (Homework.grades d))))
                           1)))
              (filter (Spec.has_grades d) (Homework.students d)))
    /\ (forall g, In g (Homework.grades d) ->
          exists a, In a (Homework.assignments d)
                    /\ Homework.a_id a = Homework.g_assignment_id g
                    /\ 0 < Homework.a_max_points a
                    /\ Spec.grade_percent d g
                       = Homework.real_mul
                           (Homework.real_div
                              (Homework.real_mul Homework.real_one
                                 (Homework.real_of_int (Homework.g_score g)))
                              (Homework.real_of_int (Homework.a_max_points a)))
                           (Homework.real_of_int 100))
    /\ ((forall x y, Homework.real_leb x y = false -> Homework.real_leb y x = true) ->
        Sorted (fun a b => exists x y, snd a = VReal x /\ snd b = VReal y
                                       /\ Homework.real_leb y x = true) board)
    /\ db (final o) = d.
Proof.
  intros Hc Hcat K. cbv zeta.
  unfold Homework.leaderboard.
  rewrite (query_outcome Homework.SelectLeaderboard _ []
             (Homework.select_leaderboard (db c)) c Hc (compile_leaderboard _ Hcat)
             eq_refl eq_refl eq_refl (fun _ => eq_refl)).
  exists (sort_by Homework.by_avg_desc (Homework.groups (db c))).
  cbn [result final db tick]. split; [reflexivity|].
  assert (P : Permutation (sort_by Homework.by_avg_desc (Homework.groups (db c)))
                (map (Spec.board_line (db c))
                     (filter (Spec.has_grades (db c)) (Homework.students (db c)))))
    by (etransitivity; [apply sort_by_perm | apply (groups_board (db c) K)]).
  split; [exact P|]. split.
  { intros g Hg. destruct K as (Kk & Kc & Kr).
    assert (Da : Spec.distinct Z.eqb
                   (map Homework.a_id (Homework.assignments (db c))) = true).
    { unfold Spec.homework_keys_ok in Kk. rewrite !andb_true_iff in Kk. tauto. }
    destruct (assignment_of (db c) g Da Kr Kc Hg) as (a & Ha & Ea & Pa & _ & Fd).
    exists a. repeat split; auto. unfold Spec.grade_percent. rewrite Fd. reflexivity. }
  split; [|reflexivity].
  intros T.
  apply (Sorted_among (fun a b => Homework.by_avg_desc a b = true) _
                      (fun a => exists x, snd a = VReal x)).
  - intros a b [x Hx] [y Hy]. unfold Homework.by_avg_desc. rewrite Hx, Hy. eauto.
  - apply Forall_forall. intros a Ha. apply (Permutation_in _ P) in Ha.
    apply in_map_iff in Ha. destruct Ha as (s & <- & _). cbn. eauto.
  - apply sort_by_sorted, by_avg_desc_total, T.
Qed.

End LeaderboardOrder.

Lemma leaderboard_lines_witness :
  exists board : list (string * value unit),
    result (Homework.leaderboard (F := Spec.one_real) Spec.homework_sample)
    = inr (map (fun x => [("student_name", VText (fst x)); ("avg_percent", snd x)])
               board)
    /\ Permutation board [("Rivka", VReal tt); ("Esther", VReal tt); ("Leah", VReal tt)].
Proof.
  destruct (leaderboard_lines (F := Spec.one_real) Spec.homework_sample
              eq_refl eq_refl) as (board & R & P & _).
  - repeat split.
  - exists board. split; [exact R | exact P].
Defined.

(* ================================================================== *)
(** ** Without the schema, with the schema twice, and ids out of range *)

(** X18: none of the functions of exercises.py works before
    [create_schema]: on a database with no table, each raises
    OperationalError, runs no statement and leaves the connection as it
    was.  And [create_schema] does not work twice: on the schema it has
    created it raises OperationalError and creates nothing; as
    [executescript] commits first, what was pending is then saved. *)
Theorem operations_need_schema (c : connection Exercises.database) :
  closed c = false ->
  (Exercises.catalog (db c) = [] ->
   (forall name email,
       Exercises.add_student name email c = Outcome (inl OperationalError) c [])
   /\ (forall email,
       Exercises.find_student_by_email email c = Outcome (inl OperationalError) c [])
   /\ (forall id name,
       Exercises.rename_student id name c = Outcome (inl OperationalError) c [])
   /\ (forall id,
       Exercises.delete_student id c = Outcome (inl OperationalError) c [])
   /\ Exercises.list_enrollments c = Outcome (inl OperationalError) c []
   /\ (forall s k,
       Exercises.enroll_student s k c = Outcome (inl OperationalError) c [])
   /\ Exercises.seed_courses c = Outcome (inl OperationalError) c [])
  /\ (Exercises.catalog (db c) = Spec.exercises_schema ->
      let o := Exercises.create_schema c in
      result o = inl OperationalError
      /\ db (final o) = db c
      /\ on_disk (final o) = db c).
Proof.
  intros Hc. split.
  - intros Hcat. open_connection c. repeat split; intros; reflexivity.
  - intros Hcat. open_connection c. cbv zeta. vm_compute. repeat split.
Qed.

Lemma operations_need_schema_witness :
  result (Exercises.add_student "Etty" "etty@example.com" Spec.exercises_new)
  = inl OperationalError
  /\ result (Exercises.create_schema Spec.exercises_sample) = inl OperationalError.
Proof.
  destruct (operations_need_schema Spec.exercises_new eq_refl) as (A & _).
  destruct (operations_need_schema Spec.exercises_sample eq_refl) as (_ & B).
  destruct (A eq_refl) as (A1 & _). destruct (B eq_refl) as (B1 & _).
  split; [rewrite A1; reflexivity | exact B1].
Defined.




Section HomeworkStudents.
Context {real : Type} {F : Homework.Floats real}.

Lemma compile_homework_add_student (d : Homework.database) :
  Homework.catalog d = Spec.homework_schema ->
  compile d "INSERT INTO students (name, email) VALUES (?, ?)"
  = Some (Statement Homework.InsertStudent).
Proof.
  intros H. unfold compile. cbv -[Homework.catalog]. rewrite H. reflexivity.
Qed.

Lemma homework_add_student_outcome (c : connection Homework.database)
      (name email : string) :
  closed c = false ->
  Homework.catalog (db c) = Spec.homework_schema ->
  Homework.add_student name email c
  = match Homework.insert_student (real := real) name email (db c) with
    | inl e =>
        Outcome (inl e) (tick (implicit_begin (Statement Homework.InsertStudent) c))
                [Exec "INSERT INTO students (name, email) VALUES (?, ?)"
                      [VText name; VText email]]
    | inr (cur, d') =>
        Outcome (inr (lastrowid cur))
                (tick (set_db d' (implicit_begin (Statement Homework.InsertStudent) c)))
                [Exec "INSERT INTO students (name, email) VALUES (?, ?)"
                      [VText name; VText email]]
    end.
Proof.
  intros Hc Hcat. unfold Homework.add_student.
  etransitivity.
  - apply (execute_ret (@lastrowid real) Homework.InsertStudent _
             [VText name; VText email] c Hc (compile_homework_add_student _ Hcat)
             eq_refl eq_refl).
  - reflexivity.
Qed.

(** X20: [add_student] of homework.py, with a rowid left.  With an email
    no student has, it returns a new id, larger than every id of the
    table, and [list_students] then returns the students it had and the
    new one, in the order of the names.  With an email a student already
    has, it raises IntegrityError and the database is as it was. *)
Theorem homework_add_student_listed (c : connection Homework.database)
        (name email : string) :
  closed c = false ->
  Homework.catalog (db c) = Spec.homework_schema ->
  Z.max (Homework.seq_students (db c))
        (max_id (map Homework.s_id (Homework.students (db c)))) < 2 ^ 63 - 1 ->
  let o := Homework.add_student name email c in
  if existsb (fun s => (Homework.s_email s =? email)%string) (Homework.students (db c))
  then result o = inl IntegrityError /\ db (final o) = db c
  else exists id l,
         result o = inr id
         /\ (forall s, In s (Homework.students (db c)) -> Homework.s_id s < id)
         /\ result (Homework.list_students (final o))
            = inr (map (fun s => [ ("id", VInt (Homework.s_id s));
                                   ("name", VText (Homework.s_name s));
                                   ("email", VText (Homework.s_email s)) ]) l)
         /\ Permutation l (Homework.Student id name email :: Homework.students (db c))
         /\ StronglySorted
              (fun a b => Spec.text_le (Homework.s_name a) (Homework.s_name b)) l.
Proof.
  intros Hc Hcat Hroom. cbv zeta.
  rewrite (homework_add_student_outcome c name email Hc Hcat).
  unfold Homework.insert_student. rewrite (next_rowid_some _ _ Hroom).
  destruct (implicit_begin_same (Statement Homework.InsertStudent) c)
    as (D & _ & C & _).
  destruct (existsb _ (Homework.students (db c))); cbn [result final]; [auto|].
  set (id := Z.max _ _ + 1).
  set (c' := tick _).
  assert (C' : closed c' = false) by (unfold c'; cbn; congruence).
  assert (K' : Homework.catalog (db c') = Spec.homework_schema) by exact Hcat.
  exists id.
  exists (sort_by (fun a b => (Homework.s_name a <=? Homework.s_name b)%string)
                  (Homework.students (db c'))).
  split; [reflexivity|]. split.
  { intros s Hs. pose proof (max_id_ge _ _ (in_map Homework.s_id _ _ Hs)).
    unfold id. lia. }
  split.
  { unfold Homework.list_students.
    rewrite (query_outcome Homework.SelectStudents _ []
               (Homework.select_students (db c')) c' C'
               (compile_list_students _ K') eq_refl eq_refl eq_refl (fun _ => eq_refl)).
    reflexivity. }
  split.
  - etransitivity; [apply sort_by_perm|].
    change (Homework.students (db c'))
      with (Homework.students (db c) ++ [Homework.Student id name email])%list.
    etransitivity; [apply Permutation_app_comm | reflexivity].
  - apply Sorted_StronglySorted.
    + intros x y z. apply text_le_trans.
    + pose proof (sort_by_sorted _ name_leb_total (Homework.students (db c'))) as H.
      induction H as [|x r Hs IH Hd]; constructor; auto.
      destruct Hd; constructor. now apply leb_le.
Qed.

End HomeworkStudents.

Lemma homework_add_student_listed_witness :
  result (Homework.add_student (F := Spec.one_real) "Dina" "leah@example.com"
            Spec.homework_sample) = inl IntegrityError
  /\ exists id l,
       result (Homework.add_student (F := Spec.one_real) "Dina" "dina@example.com"
                 Spec.homework_sample) = inr id
       /\ Permutation l (Homework.Student id "Dina" "dina@example.com"
                         :: Homework.students (db Spec.homework_sample)).
Proof.
  pose proof (homework_add_student_listed (F := Spec.one_real) Spec.homework_sample
                "Dina" "leah@example.com" eq_refl eq_refl eq_refl) as A.
  pose proof (homework_add_student_listed (F := Spec.one_real) Spec.homework_sample
                "Dina" "dina@example.com" eq_refl eq_refl eq_refl) as B.
  cbv zeta in A, B.
  split; [exact (proj1 A)|].
  destruct B as (id & l & R & _ & _ & P & _). exists id, l. split; assumption.
Defined.

(* ================================================================== *)
(** ** What [main] leaves behind, whatever fails *)

Section Preserves.
Context {real S : Type} (Q : S -> Prop).

Lemma preserves_bind {A B} (m : M real S A) (k : A -> M real S B) :
  Spec.preserves Q m -> (forall a, Spec.preserves Q (k a)) ->
  Spec.preserves Q (bind m k).
Proof.
  intros Hm Hk s Hs. unfold bind. specialize (Hm s Hs).
  destruct (result (m s)); cbn [final]; auto. now apply Hk.
Qed.

Lemma preserves_ret {A} (a : A) : Spec.preserves Q (ret (real := real) a).
Proof. intros s Hs. exact Hs. Qed.

Lemma preserves_raise {A} (e : exn) : Spec.preserves Q (raise (real := real) (A := A) e).
Proof. intros s Hs. exact Hs. Qed.

Lemma preserves_print (args : list (pyobj real)) : Spec.preserves Q (print args).
Proof. intros s Hs. exact Hs. Qed.

Lemma preserves_or_raise {A} (e : exn) (o : option A) :
  Spec.preserves Q (or_raise (real := real) e o).
Proof. intros s Hs. destruct o; exact Hs. Qed.

Lemma preserves_for_each {A} (l : list A) (body : A -> M real S unit) :
  (forall x, Spec.preserves Q (body x)) -> Spec.preserves Q (for_each l body).
Proof.
  intros Hb. induction l as [|x l IH]; cbn [for_each].
  - apply preserves_ret.
  - apply preserves_bind; auto.
Qed.

Lemma preserves_try_except {A} (body : M real S A) (cls : exn)
      (handler : exn -> M real S A) :
  Spec.preserves Q body -> (forall e, Spec.preserves Q (handler e)) ->
  Spec.preserves Q (try_except body cls handler).
Proof.
  intros Hb Hh s Hs. unfold try_except. specialize (Hb s Hs).
  destruct (result (body s)) as [e|a]; auto.
  destruct (exn_eqb e cls); auto. cbn [final]. now apply Hh.
Qed.

Lemma preserves_try_finally {A} (body : M real S A) (fin : M real S unit) :
  Spec.preserves Q body -> Spec.preserves Q fin ->
  Spec.preserves Q (try_finally body fin).
Proof.
  intros Hb Hf s Hs. unfold try_finally. cbn [final]. apply Hf, Hb, Hs.
Qed.

Lemma preserves_print_rows (str_real : real -> string) (title : string)
      (rows : list (row real)) :
  Spec.preserves Q (Sqlite3.print_rows str_real title rows).
Proof.
  unfold Sqlite3.print_rows.
  repeat (apply preserves_bind; [apply preserves_print | intros _]).
  destruct rows as [|r0 rest]; [apply preserves_print|]. cbv zeta.
  apply preserves_bind; [apply preserves_or_raise | intros d].
  apply preserves_bind; [apply preserves_or_raise | intros h].
  apply preserves_bind; [apply preserves_print | intros _].
  apply preserves_bind; [apply preserves_or_raise | intros u].
  apply preserves_bind; [apply preserves_print | intros _].
  apply preserves_for_each. intros r.
  apply preserves_bind; [apply preserves_or_raise | intros l].
  apply preserves_print.
Qed.

End Preserves.

Section PreservesCall.
Context {real database stmt : Type} {E : Engine real database stmt}.
Variable P : database -> Prop.

Lemma preserves_call {A} (m : M real (connection database) A) :
  (forall c, Spec.kept P c -> Spec.kept P (final (m c))) ->
  Spec.preserves (fun p => Spec.kept P (conn p)) (call m).
Proof.
  intros Hm p Hp. unfold call.
  destruct (faults p) as [|[e|] rest]; cbn [final conn]; auto.
Qed.

Lemma preserves_on_conn {A} (m : M real (connection database) A) :
  (forall c, Spec.kept P c -> Spec.kept P (final (m c))) ->
  Spec.preserves (fun p => Spec.kept P (conn p)) (on_conn m).
Proof. intros Hm p Hp. unfold on_conn. cbn [final conn]. auto. Qed.

End PreservesCall.

Ltac keep_step leaf :=
  lazymatch goal with
  | |- Spec.preserves _ (Sqlite3.print_rows _ _ _) => apply preserves_print_rows
  | |- Spec.preserves _ (bind _ _) => apply preserves_bind; [|intros ?]
  | |- Spec.preserves _ (print _) => apply preserves_print
  | |- Spec.preserves _ (ret _) => apply preserves_ret
  | |- Spec.preserves _ (or_raise _ _) => apply preserves_or_raise
  | |- Spec.preserves _ (try_except _ _ _) => apply preserves_try_except; [|intros ?]
  | |- Spec.preserves _ (for_each _ _) => apply preserves_for_each; intros ?
  | |- Spec.preserves _ (call _) => apply preserves_call; intros ? ?; leaf
  end.

Ltac keep_going leaf := repeat keep_step leaf.

Ltac exercises_leaf Kp :=
  idtac;
  lazymatch goal with
  | K : Spec.kept _ ?c |- Spec.kept _ (final (?m ?c)) =>
      lazymatch m with
      | Exercises.create_schema => exact (Kp Spec.OpCreateSchema c K)
      | Exercises.seed_courses => exact (Kp Spec.OpSeedCourses c K)
      | commit => exact (Kp Spec.OpCommit c K)
      | Exercises.add_student ?n ?e => exact (Kp (Spec.OpAddStudent n e) c K)
      | Exercises.find_student_by_email ?e =>
          exact (Kp (Spec.OpFindStudentByEmail e) c K)
      | Exercises.rename_student ?i ?n => exact (Kp (Spec.OpRenameStudent i n) c K)
      | Exercises.delete_student ?i => exact (Kp (Spec.OpDeleteStudent i) c K)
      | Exercises.list_enrollments => exact (Kp Spec.OpListEnrollments c K)
      | Exercises.enroll_student ?a ?b => exact (Kp (Spec.OpEnrollStudent a b) c K)
      | execute ?sql ?ps => exact (Kp (Spec.OpExecute sql ps) c K)
      end
  end.

Lemma exercises_main_body_keeps :
  Spec.preserves (fun p => Spec.kept Spec.constraints (conn p)) Exercises.main_body.
Proof.
  pose proof (perform_keeps _ step_keeps_constraints) as Kp.
  assert (Ki : forall v, Spec.preserves
                 (fun p : process Exercises.database =>
                    Spec.kept Spec.constraints (conn p))
                 (Exercises.as_int v))
    by (intros v; destruct v; first [apply preserves_ret | apply preserves_raise]).
  unfold Exercises.main_body, Exercises.enroll_twice, Exercises.print_rows.
  keep_going ltac:(exercises_leaf Kp).
  all: apply Ki.
Qed.

Ltac homework_leaf Kp :=
  idtac;
  lazymatch goal with
  | K : Spec.kept _ ?c |- Spec.kept _ (final (?m ?c)) =>
      lazymatch m with
      | Homework.create_schema => exact (Kp Spec.HwCreateSchema c K)
      | commit => exact (Kp Spec.HwCommit c K)
      | Homework.add_student ?n ?e => exact (Kp (Spec.HwAddStudent n e) c K)
      | Homework.add_assignment ?t ?x => exact (Kp (Spec.HwAddAssignment t x) c K)
      | Homework.record_grade ?a ?b ?x => exact (Kp (Spec.HwRecordGrade a b x) c K)
      | Homework.list_students => exact (Kp Spec.HwListStudents c K)
      | Homework.student_grade_report ?i =>
          exact (Kp (Spec.HwStudentGradeReport i) c K)
      | Homework.leaderboard => exact (Kp Spec.HwLeaderboard c K)
      end
  end.

Section HomeworkMain.
Context {real : Type} {F : Homework.Floats real}.

Lemma homework_main_body_keeps :
  Spec.preserves (fun p => Spec.kept Spec.homework_constraints (conn p))
                 Homework.main_body.
Proof.
  pose proof homework_perform_keeps as Kp.
  assert (Ki : forall v, Spec.preserves
                 (fun p : process Homework.database =>
                    Spec.kept Spec.homework_constraints (conn p))
                 (Homework.as_int (real := real) v))
    by (intros v; destruct v; first [apply preserves_ret | apply preserves_raise]).
  unfold Homework.main_body, Homework.print_rows.
  keep_going ltac:(homework_leaf Kp).
  all: apply Ki.
Qed.

End HomeworkMain.

(** X21: whatever fails while [main] runs, and whatever the file held
    before, [main] of either script ends with its connection closed and
    leaves a file that satisfies every constraint of its schema: the
    keys, the foreign keys and, in homework.py, the checks. *)
Theorem main_leaves_constraints :
  (forall w : Exercises.world,
      let c := conn (final (Exercises.main w)) in
      closed c = true /\ Spec.constraints (db c))
  /\ (forall real (F : Homework.Floats real) (w : Homework.world),
         let c := conn (final (Homework.main w)) in
         closed c = true /\ Spec.homework_constraints (db c)).
Proof.
  split.
  - intros [disk clk fs]. cbv zeta. rewrite exercises_main_eq.
    unfold Spec.after, try_finally, on_conn, close. cbn [final conn closed db].
    split; [reflexivity|].
    set (p0 := Process _ fs).
    assert (K : Spec.kept Spec.constraints (conn (final (Exercises.main_body p0)))).
    { apply exercises_main_body_keeps. unfold p0. cbn [conn].
      split; [reflexivity|]. split; [split; reflexivity|]. cbn. discriminate. }
    destruct K as (_ & D & T). destruct (txn _) eqn:X; auto.
  - intros real F [disk clk fs]. cbv zeta. rewrite homework_main_eq.
    unfold Spec.after, try_finally, on_conn, close. cbn [final conn closed db].
    split; [reflexivity|].
    set (p0 := Process _ fs).
    assert (K : Spec.kept Spec.homework_constraints
                  (conn (final (Homework.main_body p0)))).
    { apply homework_main_body_keeps. unfold p0. cbn [conn].
      split; [reflexivity|]. split; [repeat split|]. cbn. discriminate. }
    destruct K as (_ & D & T). destruct (txn _) eqn:X; auto.
Qed.
